(** * Point-in-time bar cache of the ThetaData backtesting source

    A shallow embedding of [lumibot/entities/data.py] (the [Data] entity) and
    of the cache-sufficiency and refresh logic of
    [lumibot/backtesting/thetadata_backtesting.py], with the properties of the
    lookback window and of the refresh policy proved about it.

    Conventions.  A datetime is an integer number of microseconds on the time
    line of the default zone, a timedelta an integer number of microseconds.
    Python integers are [Z].  A numpy array is a [list Z]; the cells of the
    price columns are carried around and never computed on.  A raised
    exception is the [Raise] branch of [res]. *)

From Stdlib Require Import ZArith List String Ascii Bool Lia Sorted.
From stdpp Require Import base gmap strings.
Import ListNotations.
Local Open Scope string_scope.
Local Open Scope Z_scope.
Local Open Scope list_scope.

(** ** Exceptions and fallible results *)

Inductive exn : Type :=
| KeyError
| ValueError
| TypeError
| IndexError
| AttributeError
| ProviderError (code : Z)
| Exception (msg : string) (cause : exn).

Inductive res (A : Type) : Type :=
| Ok (a : A)
| Raise (e : exn).
Arguments Ok {A} a.
Arguments Raise {A} e.

Definition rbind {A B} (r : res A) (k : A -> res B) : res B :=
  match r with
  | Ok a => k a
  | Raise e => Raise e
  end.

Notation "'let?' x := r 'in' k" := (rbind r (fun x => k))
  (at level 10, x pattern, r at level 100, k at level 200).

(** ** Python sequences *)

(** [slice.indices]: a negative bound counts from the end, and every bound is
    clamped to [0, n]. *)
Definition slice_bound (n i : Z) : Z :=
  if i <? 0 then Z.max 0 (i + n) else Z.min i n.

(** [l[start:stop]] on a list or a numpy array. *)
Definition py_slice {A} (l : list A) (start stop : Z) : list A :=
  let n := Z.of_nat (List.length l) in
  let lo := slice_bound n start in
  let hi := slice_bound n stop in
  firstn (Z.to_nat (hi - lo)) (skipn (Z.to_nat lo) l).

(** Boolean-mask selection, [a[mask]]. *)
Fixpoint mask_select {A} (mask : list bool) (l : list A) : list A :=
  match mask, l with
  | b :: mask', x :: l' =>
      if b then x :: mask_select mask' l' else mask_select mask' l'
  | _, _ => []
  end.

(** A [dict] with string keys, in insertion order; [d[k] = v] keeps the place
    of a key that is already there. *)
Fixpoint dict_set {V} (k : string) (v : V) (d : list (string * V)) : list (string * V) :=
  match d with
  | [] => [(k, v)]
  | (k', v') :: r =>
      if String.eqb k k' then (k, v) :: r else (k', v') :: dict_set k v r
  end.

Fixpoint dict_get {V} (k : string) (d : list (string * V)) : option V :=
  match d with
  | [] => None
  | (k', v) :: r => if String.eqb k k' then Some v else dict_get k r
  end.

Fixpoint dict_del {V} (k : string) (d : list (string * V)) : list (string * V) :=
  match d with
  | [] => []
  | (k', v) :: r => if String.eqb k k' then dict_del k r else (k', v) :: dict_del k r
  end.

Fixpoint mem_string (s : string) (l : list string) : bool :=
  match l with
  | [] => false
  | x :: r => String.eqb s x || mem_string s r
  end.

Fixpoint has_dup (l : list string) : bool :=
  match l with
  | [] => false
  | x :: r => mem_string x r || has_dup r
  end.

(** [str.lower] on ASCII letters. *)
Definition lower_ascii (c : ascii) : ascii :=
  let n := nat_of_ascii c in
  if (Nat.leb 65 n && Nat.leb n 90)%bool then ascii_of_nat (n + 32) else c.

Fixpoint lower (s : string) : string :=
  match s with
  | EmptyString => EmptyString
  | String c r => String (lower_ascii c) (lower r)
  end.

(** ** Time *)

Definition MICROS_PER_DAY : Z := 86400000000.

(** [dt.time()]: the time of day of a datetime. *)
Definition time_of_day (t : Z) : Z := t mod MICROS_PER_DAY.

(** [timedelta(days=n)] *)
Definition timedelta_days (n : Z) : Z := n * MICROS_PER_DAY.

(** The resolutions of the bars. *)
Inductive Timestep : Type := Minute | Hour | Day.

Global Instance Timestep_eq_dec : EqDecision Timestep.
Proof. solve_decision. Defined.

(** ** Assets *)

Record Asset : Type := mkAsset { symbol : string; asset_type : string }.

Global Instance Asset_eq_dec : EqDecision Asset.
Proof. solve_decision. Defined.

Global Instance Asset_countable : Countable Asset.
Proof.
  refine (inj_countable' (fun a => (symbol a, asset_type a))
                         (fun p => mkAsset (fst p) (snd p)) _).
  intros [s t]; reflexivity.
Defined.

(** [asset.symbol] *)
Definition symbol_of (a : Asset) : string := symbol a.

(** ** Tables *)

(** A [DatetimeIndex]: its values, and its zone when it is timezone-aware. *)
Record DatetimeIndex : Type := mkIndex {
  idx_values : list Z;
  idx_tz : option string
}.

(** A [DataFrame]: the index with its name, and the columns in order. *)
Record DataFrame : Type := mkFrame {
  df_index_name : option string;
  df_index : DatetimeIndex;
  df_columns : list (string * list Z)
}.

Definition column_names (df : DataFrame) : list string := map fst (df_columns df).

(** Modelled from the spec: the constant [LUMIBOT_DEFAULT_PYTZ] of the package
    root, which this development does not embed ("one fixed default
    timezone"). *)
Definition DEFAULT_PYTZ : string := "default".

(** Modelled from the spec: [lumibot.tools.helpers.to_datetime_aware], which
    makes a bound timezone-aware in the default zone; a datetime is already a
    point of that zone's time line here. *)
Definition to_datetime_aware (t : Z) : Z := t.

(** [Index.is_monotonic_increasing] and [Index.is_monotonic_decreasing]
    (neither is strict). *)
Fixpoint is_monotonic_increasing (l : list Z) : bool :=
  match l with
  | [] => true
  | x :: r =>
      match r with
      | [] => true
      | y :: _ => (x <=? y) && is_monotonic_increasing r
      end
  end.

Fixpoint is_monotonic_decreasing (l : list Z) : bool :=
  match l with
  | [] => true
  | x :: r =>
      match r with
      | [] => true
      | y :: _ => (y <=? x) && is_monotonic_decreasing r
      end
  end.

(** The number of labels that pass a test. *)
Definition count_labels (f : Z -> bool) (ix : list Z) : Z :=
  Z.of_nat (List.length (List.filter f ix)).

(** The number of labels before the first occurrence of a label. *)
Fixpoint first_position (label : Z) (ix : list Z) : nat :=
  match ix with
  | [] => 0
  | x :: r => if x =? label then 0 else S (first_position label r)
  end.

(** [Index.get_slice_bound(label, side)] on a [DatetimeIndex], for a label
    that is a datetime: the position at which a label slice starts ([left]) or
    stops.  A label of the index is located by its rows, which must be next to
    each other: the slice starts at the first of them and stops after the last.
    A label that is not in the index is placed by binary search when the index
    is monotonic, increasing or decreasing, and is a [KeyError] when it is
    not. *)
Definition get_slice_bound (ix : list Z) (label : Z) (left : bool) : res Z :=
  let n := List.length (List.filter (Z.eqb label) ix) in
  match n with
  | O =>
      if is_monotonic_increasing ix then
        Ok (count_labels (fun t => if left then t <? label else t <=? label) ix)
      else if is_monotonic_decreasing ix then
        Ok (count_labels (fun t => if left then label <? t else label <=? t) ix)
      else Raise KeyError
  | S _ =>
      let first := first_position label ix in
      if forallb (Z.eqb label) (firstn n (skipn first ix))
      then Ok (Z.of_nat (if left then first else first + n))
      else Raise KeyError
  end.

(** The rows [df.between_time(start_time, end_time)] keeps: both ends are
    included, and a start later than the end selects across midnight. *)
Definition between_time_mask (ix : list Z) (start_time end_time : Z) : list bool :=
  map (fun t =>
         let tod := time_of_day t in
         if start_time <=? end_time
         then (start_time <=? tod) && (tod <=? end_time)
         else (start_time <=? tod) || (tod <=? end_time)) ix.

Definition select_rows (mask : list bool) (df : DataFrame) : DataFrame :=
  {| df_index_name := df_index_name df;
     df_index := {| idx_values := mask_select mask (idx_values (df_index df));
                    idx_tz := idx_tz (df_index df) |};
     df_columns := map (fun c => (fst c, mask_select mask (snd c))) (df_columns df) |}.

(** The rows from position [lo] to position [hi] of a table. *)
Definition slice_rows (lo hi : Z) (df : DataFrame) : DataFrame :=
  {| df_index_name := df_index_name df;
     df_index := {| idx_values := py_slice (idx_values (df_index df)) lo hi;
                    idx_tz := idx_tz (df_index df) |};
     df_columns := map (fun c => (fst c, py_slice (snd c) lo hi)) (df_columns df) |}.

(** [df.loc[start:end, :]] with datetime bounds on a [DatetimeIndex]: the
    bounds are turned into positions, the start first, and the rows between
    the two positions are kept. *)
Definition loc_slice (df : DataFrame) (start stop : Z) : res DataFrame :=
  let ix := idx_values (df_index df) in
  let? lo := get_slice_bound ix start true in
  let? hi := get_slice_bound ix stop false in
  Ok (slice_rows lo hi df).

(** ** Calls *)

(** A value given to a call of the source: nothing, an asset, a table or a
    resolution. *)
Inductive pyval : Type :=
| PyNone
| PyAsset (a : Asset)
| PyFrame (d : DataFrame)
| PyTimestep (ts : Timestep).

(** The arguments given by position fill the parameters in order; more
    arguments than parameters is a [TypeError]. *)
Fixpoint bind_positional (params : list (string * option pyval)) (args : list pyval)
         {struct args} : res (list (string * pyval)) :=
  match args, params with
  | [], _ => Ok []
  | _ :: _, [] => Raise TypeError
  | v :: args', (name, _) :: params' =>
      let? bound := bind_positional params' args' in
      Ok ((name, v) :: bound)
  end.

(** The arguments given by keyword fill the parameters of their names; a
    keyword that is no parameter, or that names a parameter which has its
    value already, is a [TypeError]. *)
Fixpoint bind_keywords (names : list string) (bound : list (string * pyval))
         (keywords : list (string * pyval)) : res (list (string * pyval)) :=
  match keywords with
  | [] => Ok bound
  | (k, v) :: r =>
      if negb (mem_string k names) then Raise TypeError
      else if mem_string k (map fst bound) then Raise TypeError
      else bind_keywords names (bound ++ [(k, v)]) r
  end.

(** The parameters left take their defaults; one that has none is a
    [TypeError]. *)
Fixpoint fill_defaults (params : list (string * option pyval))
         (bound : list (string * pyval)) : res (list pyval) :=
  match params with
  | [] => Ok []
  | (name, default) :: r =>
      let? v := match dict_get name bound, default with
                | Some v, _ => Ok v
                | None, Some v => Ok v
                | None, None => Raise TypeError
                end in
      let? vs := fill_defaults r bound in
      Ok (v :: vs)
  end.

(** The binding of the arguments of a call to the parameters of the function
    called, each parameter a name and its default when it has one; it gives
    the values of the parameters in order.  Python binds before it runs the
    body of the function. *)
Definition bind_arguments (params : list (string * option pyval))
           (positional : list pyval) (keywords : list (string * pyval))
  : res (list pyval) :=
  let? bound := bind_positional params positional in
  let? bound := bind_keywords (map fst params) bound keywords in
  fill_defaults params bound.

(** ** The [Data] entity ([lumibot/entities/data.py]) *)

(** What a caller can pass for [date_start] and [date_end]: nothing, a full
    datetime, or some other object, of which only the truth value matters. *)
Inductive bound_arg : Type :=
| BNone
| BDatetime (t : Z)
| BOther (truthy : bool).

(** What [iter_index[dt]] gives: a row number when the label occurs once, a
    sub-series of row numbers when it occurs several times. *)
Inductive loc_result : Type :=
| LScalar (i : Z)
| LSeries (rows : list Z).

(** What indexing a dataline with it gives. *)
Inductive cell_result : Type :=
| CScalar (x : Z)
| CArray (xs : list Z).

(** The table [get_bars] returns: [pd.DataFrame(df_dict).set_index("datetime")]. *)
Record Bars : Type := mkBars {
  bars_index : list Z;
  bars_columns : list (string * list Z)
}.

Module Data.

(** The attributes of an instance: what [__init__] assigns, under the names
    it assigns them to, and [arrays], what [setattr] binds in [to_datalines],
    the array of every dataline under the name of the dataline.  Reading
    [self.name] finds the array bound to the name when there is one, and else
    what [__init__] assigned or the method of the class: a column called like
    an attribute or a method takes its place on the instance.  The class sets
    no [timestep] and no [quote]. *)
Record t : Type := mk {
  strategy : pyval;
  asset : Asset;
  symbol : string;
  df : DataFrame;
  date_start : Z;
  date_end : Z;
  iter_index : list (Z * Z);
  datalines : list (string * list Z);
  arrays : list (string * list Z)
}.

Definition MIN_TIMESTEP : Timestep := Minute.

(** Whether [self.name] is an array bound by [setattr]. *)
Definition shadowed (self : t) (name : string) : bool :=
  mem_string name (map fst (arrays self)).

Definition ohlcv : list string := ["open"; "high"; "low"; "close"; "volume"].

Definition rename_column (col : string) : string :=
  if mem_string (lower col) ohlcv then lower col else col.

(** [columns]: the five price columns are renamed to lower case. *)
Definition columns (d : DataFrame) : DataFrame :=
  {| df_index_name := df_index_name d;
     df_index := df_index d;
     df_columns := map (fun c => (rename_column (fst c), snd c)) (df_columns d) |}.

(** [set_date_format]: the index is named and localized; [tz_localize]
    refuses an index that is already timezone-aware. *)
Definition set_date_format (d : DataFrame) : res DataFrame :=
  match idx_tz (df_index d) with
  | Some _ => Raise TypeError
  | None =>
      Ok {| df_index_name := Some "datetime";
            df_index := {| idx_values := idx_values (df_index d);
                           idx_tz := Some DEFAULT_PYTZ |};
            df_columns := df_columns d |}
  end.

Definition check_bound (b : bound_arg) : res unit :=
  match b with
  | BOther true => Raise TypeError
  | _ => Ok tt
  end.

Definition first_label (d : DataFrame) : res Z :=
  match idx_values (df_index d) with
  | [] => Raise IndexError
  | x :: _ => Ok x
  end.

Definition last_label (d : DataFrame) : res Z :=
  match rev (idx_values (df_index d)) with
  | [] => Raise IndexError
  | x :: _ => Ok x
  end.

(** [set_dates], on the frame [self.df] holds when it is called. *)
Definition set_dates (d : DataFrame) (date_start date_end : bound_arg) : res (Z * Z) :=
  let? _ := check_bound date_start in
  let? _ := check_bound date_end in
  let? s := match date_start with BDatetime s => Ok s | _ => first_label d end in
  let? e := match date_end with BDatetime e => Ok e | _ => last_label d end in
  Ok (to_datetime_aware s, to_datetime_aware e).

(** [trim_data] *)
Definition trim_data (d : DataFrame) (start stop : Z) : res DataFrame :=
  let? d1 := loc_slice d start stop in
  Ok (select_rows
        (between_time_mask (idx_values (df_index d1)) (time_of_day start) (time_of_day stop))
        d1).

(** [pd.Series(iter_index.index, index=iter_index)]: label and row number. *)
Definition make_iter_index (ix : list Z) : list (Z * Z) :=
  combine ix (map Z.of_nat (seq 0 (List.length ix))).

(** One round of the loop of [to_datalines], for the column [c] of a frame
    whose columns are called [names], on the datalines and the arrays bound so
    far.  [self.datalines.update] comes first, and an array has no [update];
    then [self.df[column]], and an array is not indexed by a name; then the
    [dtype] of the column, which several columns of one name, a frame, do not
    have.  A [Dataline] is taken to be the array it wraps. *)
Definition add_column (names : list string)
           (st : list (string * list Z) * list (string * list Z)) (c : string * list Z)
  : res (list (string * list Z) * list (string * list Z)) :=
  if mem_string "datalines" (map fst (snd st)) then Raise AttributeError
  else if mem_string "df" (map fst (snd st)) then Raise IndexError
  else if (2 <=? List.length (List.filter (String.eqb (fst c)) names))%nat
       then Raise AttributeError
  else Ok (dict_set (fst c) (snd c) (fst st), dict_set (fst c) (snd c) (snd st)).

Fixpoint add_columns (names : list string)
         (st : list (string * list Z) * list (string * list Z))
         (cols : list (string * list Z))
  : res (list (string * list Z) * list (string * list Z)) :=
  match cols with
  | [] => Ok st
  | c :: r =>
      let? st' := add_column names st c in
      add_columns names st' r
  end.

(** [to_datalines]: the index first, as the dataline datetime, then every
    column under its name; each dataline is filed in [self.datalines] and its
    array bound to its name on the instance.  It gives the datalines and the
    arrays bound. *)
Definition to_datalines (d : DataFrame)
  : res (list (string * list Z) * list (string * list Z)) :=
  let ix := idx_values (df_index d) in
  add_columns (column_names d) ([("datetime", ix)], [("datetime", ix)]) (df_columns d).

(** [__init__]; [timestep] and [cols], the parameter [columns], are not
    used. *)
Definition __init__ (strategy : pyval) (asset : Asset) (df : DataFrame)
           (date_start date_end : bound_arg) (timestep cols : pyval) : res t :=
  let d0 := columns df in
  let? d1 := set_date_format d0 in
  let? (s, e) := set_dates d1 date_start date_end in
  let? d2 := trim_data d1 s e in
  let? (dls, arrs) := to_datalines d2 in
  Ok {| strategy := strategy; asset := asset; symbol := symbol_of asset;
        df := d2; date_start := s; date_end := e;
        iter_index := make_iter_index (idx_values (df_index d2));
        datalines := dls; arrays := arrs |}.

(** The parameters of [__init__] after [self], with their defaults. *)
Definition parameters : list (string * option pyval) :=
  [("strategy", None); ("asset", None); ("df", None);
   ("date_start", Some PyNone); ("date_end", Some PyNone);
   ("timestep", Some (PyTimestep Day)); ("columns", Some PyNone)].

(** A value given for a bound, as [set_dates] sees it: [None], or an object
    that is true and no datetime, an asset or a text.  A table has no truth
    value, and [if dt] on it is a [ValueError]. *)
Definition as_bound (v : pyval) : res bound_arg :=
  match v with
  | PyNone => Ok BNone
  | PyAsset _ => Ok (BOther true)
  | PyTimestep _ => Ok (BOther true)
  | PyFrame _ => Raise ValueError
  end.

(** A call [Data(...)]: the arguments are bound to the parameters of
    [__init__], and then its body runs on the values bound.
    [self.asset.symbol] is the first use of [asset] and [df.columns] the
    first use of [df]: a value that is not an asset, or not a table, is an
    [AttributeError] there (a table given for the asset is taken to have no
    column called symbol).  The bounds are looked at in [set_dates], the
    start first, once the index is localized. *)
Definition new (positional : list pyval) (keywords : list (string * pyval)) : res t :=
  let? args := bind_arguments parameters positional keywords in
  match args with
  | [strategy; PyAsset asset; PyFrame df; date_start; date_end; timestep; cols] =>
      let? _ := set_date_format (columns df) in
      let? ds := as_bound date_start in
      let? _ := check_bound ds in
      let? de := as_bound date_end in
      __init__ strategy asset df ds de timestep cols
  | _ => Raise AttributeError
  end.

(** What [self.iter_index[dt]] finds in the series of the row numbers. *)
Definition locate (self : t) (dt : Z) : res loc_result :=
  match map snd (List.filter (fun p => fst p =? dt) (iter_index self)) with
  | [] => Raise KeyError
  | [i] => Ok (LScalar i)
  | rows => Ok (LSeries rows)
  end.

(** [self.get_iter_count(dt)]: an array in the place of the method cannot be
    called, and an array in the place of [iter_index] is not indexed by a
    datetime. *)
Definition get_iter_count (self : t) (dt : Z) : res loc_result :=
  if shadowed self "get_iter_count" then Raise TypeError
  else if shadowed self "iter_index" then Raise IndexError
  else locate self dt.

Definition array_at (a : list Z) (i : Z) : res Z :=
  let n := Z.of_nat (List.length a) in
  let j := if i <? 0 then i + n else i in
  if (0 <=? j) && (j <? n)
  then match nth_error a (Z.to_nat j) with Some x => Ok x | None => Raise IndexError end
  else Raise IndexError.

Fixpoint array_take (a : list Z) (rows : list Z) : res (list Z) :=
  match rows with
  | [] => Ok []
  | i :: r =>
      let? x := array_at a i in
      let? xs := array_take a r in
      Ok (x :: xs)
  end.

(** [self.get_last_price(dt)]; [self.datalines["close"]] comes before the row
    lookup, and an array in the place of [datalines] is not indexed by a
    name. *)
Definition get_last_price (self : t) (dt : Z) : res cell_result :=
  if shadowed self "get_last_price" then Raise TypeError
  else if shadowed self "datalines" then Raise IndexError
  else
    match dict_get "close" (datalines self) with
    | None => Raise KeyError
    | Some close =>
        let? loc := get_iter_count self dt in
        match loc with
        | LScalar i => let? x := array_at close i in Ok (CScalar x)
        | LSeries rows => let? xs := array_take close rows in Ok (CArray xs)
        end
    end.

(** [set_index("datetime")] on the frame made of the sliced datalines. *)
Definition set_index (df_dict : list (string * list Z)) : res Bars :=
  match dict_get "datetime" df_dict with
  | None => Raise KeyError
  | Some ix => Ok {| bars_index := ix; bars_columns := dict_del "datetime" df_dict |}
  end.

(** [self.get_bars(dt, length, timestep, timeshift)]; comparing a sub-series
    of row numbers with zero in the [if] is a [ValueError], and an array in
    the place of [datalines] has no [items]. *)
Definition get_bars (self : t) (dt : Z) (length : Z) (timestep : Timestep)
           (timeshift : Z) : res Bars :=
  if shadowed self "get_bars" then Raise TypeError
  else
    let? loc := get_iter_count self dt in
    match loc with
    | LSeries _ => Raise ValueError
    | LScalar i =>
        let end_row := i + 1 - timeshift in
        let start_row := end_row - length in
        let start_row := if start_row <? 0 then 0 else start_row in
        if shadowed self "datalines" then Raise AttributeError
        else
          let df_dict :=
            map (fun dl => (fst dl, py_slice (snd dl) start_row end_row)) (datalines self) in
          set_index df_dict
    end.

(** The call with the default [timestep] and [timeshift]. *)
Definition window (self : t) (ts : Z) (length : Z) : res Bars :=
  get_bars self ts length MIN_TIMESTEP 0.

(** The read operations as calls on an instance, in state-passing form: a
    call gives its answer and the instance as the method leaves it.  None of
    the three methods assigns to an attribute. *)
Inductive call : Type :=
| IterCount (dt : Z)
| LastPrice (dt : Z)
| GetBars (dt length : Z) (timestep : Timestep) (timeshift : Z).

Inductive answer : Type :=
| Row (r : res loc_result)
| Price (r : res cell_result)
| Table (r : res Bars).

Definition perform (self : t) (c : call) : answer * t :=
  match c with
  | IterCount dt => (Row (get_iter_count self dt), self)
  | LastPrice dt => (Price (get_last_price self dt), self)
  | GetBars dt length timestep timeshift =>
      (Table (get_bars self dt length timestep timeshift), self)
  end.

Definition perform_all (self : t) (calls : list call) : t :=
  fold_left (fun s c => snd (perform s c)) calls self.

End Data.

(** Sample inputs, on which the statements below are run. *)
Definition SPY : Asset := mkAsset "SPY" "stock".
Definition USD : Asset := mkAsset "USD" "forex".

Definition frame_of (ix : list Z) (close : list Z) : DataFrame :=
  {| df_index_name := None;
     df_index := {| idx_values := ix; idx_tz := None |};
     df_columns := [("Close", close)] |}.

(** ** Python strings and dates *)

(** The ASCII characters [str.isspace] accepts. *)
Definition is_space (c : ascii) : bool :=
  let n := nat_of_ascii c in
  (Nat.leb 9 n && Nat.leb n 13) || (Nat.leb 28 n && Nat.leb n 32).

Fixpoint lstrip_chars (s : list ascii) : list ascii :=
  match s with
  | [] => []
  | c :: r => if is_space c then lstrip_chars r else s
  end.

Definition strip_chars (s : list ascii) : list ascii :=
  rev (lstrip_chars (rev (lstrip_chars s))).

(** [s.strip()] *)
Definition str_strip (s : string) : string :=
  string_of_list_ascii (strip_chars (list_ascii_of_string s)).

Fixpoint split_chars (sep : ascii) (s : list ascii) : list (list ascii) :=
  match s with
  | [] => [[]]
  | c :: r =>
      if Ascii.eqb c sep then [] :: split_chars sep r
      else match split_chars sep r with
           | piece :: pieces => (c :: piece) :: pieces
           | [] => [[c]]
           end
  end.

(** [s.split(sep)] for a separator of one character. *)
Definition str_split (sep : ascii) (s : string) : list string :=
  map string_of_list_ascii (split_chars sep (list_ascii_of_string s)).

(** [s.replace(old, "")] for an [old] of one character. *)
Definition str_remove (old : ascii) (s : string) : string :=
  string_of_list_ascii
    (List.filter (fun c => negb (Ascii.eqb c old)) (list_ascii_of_string s)).

(** [s[start:stop]] *)
Definition str_slice (s : string) (start stop : Z) : string :=
  string_of_list_ascii (py_slice (list_ascii_of_string s) start stop).

Definition digit_value (c : ascii) : option Z :=
  let n := nat_of_ascii c in
  if Nat.leb 48 n && Nat.leb n 57 then Some (Z.of_nat (n - 48)) else None.

(** The digits of a decimal literal: single underscores are allowed between
    digits only. *)
Fixpoint int_digits (acc : Z) (after_digit : bool) (s : list ascii) : option Z :=
  match s with
  | [] => if after_digit then Some acc else None
  | c :: r =>
      match digit_value c with
      | Some v => int_digits (10 * acc + v) true r
      | None =>
          if Ascii.eqb c "_" && after_digit then int_digits acc false r else None
      end
  end.

(** [int(s)] on an ASCII string: blanks around, an optional sign, decimal
    digits; anything else is a [ValueError]. *)
Definition py_int (s : string) : res Z :=
  let body := strip_chars (list_ascii_of_string s) in
  let signed :=
    match body with
    | c :: r =>
        if Ascii.eqb c "-" then (-1, r)
        else if Ascii.eqb c "+" then (1, r)
        else (1, body)
    | [] => (1, body)
    end in
  match int_digits 0 false (snd signed) with
  | Some n => Ok (fst signed * n)
  | None => Raise ValueError
  end.

(** A [datetime.date]. *)
Record pydate : Type := mkDate { year : Z; month : Z; day : Z }.

Definition is_leap (y : Z) : bool :=
  (y mod 4 =? 0) && (negb (y mod 100 =? 0) || (y mod 400 =? 0)).

Definition days_in_month (y m : Z) : Z :=
  if m =? 2 then (if is_leap y then 29 else 28)
  else if (m =? 4) || (m =? 6) || (m =? 9) || (m =? 11) then 30
  else 31.

(** [date(y, m, d)]: a date out of the calendar is a [ValueError]. *)
Definition make_date (y m d : Z) : res pydate :=
  if (1 <=? y) && (y <=? 9999) && (1 <=? m) && (m <=? 12)
     && (1 <=? d) && (d <=? days_in_month y m)
  then Ok (mkDate y m d)
  else Raise ValueError.

(** What [kill_processes_by_name] does, in order. *)
Inductive process_action : Type :=
| RunPgrep (keyword : string)
| LogKilling (pid : string)
| RunKill (pid : string)
| LogAllKilled (keyword : string)
| LogNoneFound (keyword : string)
| PrintError (e : exn).

(** ** The ThetaData backtesting source ([lumibot/backtesting/thetadata_backtesting.py]) *)

(** [START_BUFFER = timedelta(days=5)] *)
Definition START_BUFFER : Z := timedelta_days 5.

(** The [asset] argument: an asset, or an (asset, quote) tuple. *)
Inductive asset_arg : Type :=
| AssetOf (a : Asset)
| AssetPair (a q : Asset).

(** One call of [thetadata_helper.get_price_data], with its arguments. *)
Record FetchRequest : Type := mkFetch {
  fr_username : option string;
  fr_password : option string;
  fr_asset : Asset;
  fr_start : Z;
  fr_end : Z;
  fr_timespan : Timestep;
  fr_quote : Asset;
  fr_dt : Z
}.

(** What is written with [logging.info]. *)
Inductive log_entry : Type :=
| LogTraceback (e : exn)
| LogLastPriceError (e : exn) (dt : Z) (asset : asset_arg).

Module ThetaDataBacktesting.

(** The instance: the cache maps, the clock and the bounds of the run, the
    credentials, and two histories kept to state the properties, the calls
    made to the provider and the lines logged. *)
Record t : Type := mk {
  pandas_data : gmap (Asset * Asset) Data.t;
  _data_store : gmap (Asset * Asset) Data.t;
  datetime : Z;
  datetime_start : Z;
  datetime_end : Z;
  _username : option string;
  _password : option string;
  fetches : list FetchRequest;
  info_log : list log_entry
}.

Definition get_datetime (self : t) : Z := datetime self.

Definition with_pandas_data (self : t) (m : gmap (Asset * Asset) Data.t) : t :=
  {| pandas_data := m; _data_store := _data_store self;
     datetime := datetime self; datetime_start := datetime_start self;
     datetime_end := datetime_end self;
     _username := _username self; _password := _password self;
     fetches := fetches self; info_log := info_log self |}.

Definition with_data_store (self : t) (m : gmap (Asset * Asset) Data.t) : t :=
  {| pandas_data := pandas_data self; _data_store := m;
     datetime := datetime self; datetime_start := datetime_start self;
     datetime_end := datetime_end self;
     _username := _username self; _password := _password self;
     fetches := fetches self; info_log := info_log self |}.

Definition record_fetch (self : t) (r : FetchRequest) : t :=
  {| pandas_data := pandas_data self; _data_store := _data_store self;
     datetime := datetime self; datetime_start := datetime_start self;
     datetime_end := datetime_end self;
     _username := _username self; _password := _password self;
     fetches := fetches self ++ [r]; info_log := info_log self |}.

Definition logging_info (self : t) (l : log_entry) : t :=
  {| pandas_data := pandas_data self; _data_store := _data_store self;
     datetime := datetime self; datetime_start := datetime_start self;
     datetime_end := datetime_end self;
     _username := _username self; _password := _password self;
     fetches := fetches self; info_log := info_log self ++ [l] |}.

(** [d1.update(d2)] on the cache maps. *)
Definition dict_update (d1 d2 : gmap (Asset * Asset) Data.t) : gmap (Asset * Asset) Data.t :=
  d2 ∪ d1.

(** Modelled from the spec: the duration of one bar of a resolution (the
    conversion of a timestep to a timedelta belongs to the data-source base
    class, which this development does not embed). *)
Definition resolution_duration (ts : Timestep) : Z :=
  match ts with
  | Minute => 60000000
  | Hour => 3600000000
  | Day => MICROS_PER_DAY
  end.

(** Modelled from the spec: [get_start_datetime_and_ts_unit] of the
    data-source base class, which this development does not embed.  "the
    required start time [is the] now-equivalent reference minus (length x
    resolution duration) minus a fixed safety buffer.  If an explicit start
    time is supplied by the caller, it is used as the lower bound instead of
    the length-derived one." *)
Definition get_start_datetime_and_ts_unit (self : t) (length : Z) (timestep : Timestep)
           (start_dt : option Z) (start_buffer : Z) : Z * Timestep :=
  (match start_dt with
   | Some s => s
   | None => get_datetime self - length * resolution_duration timestep - start_buffer
   end,
   timestep).

(** Modelled from the spec: [_set_pandas_data_keys] of the pandas data
    source, which this development does not embed.  Every series is
    filed under its asset-quote key, the quote defaulting to the canonical
    currency; a series holds an asset and no quote. *)
Definition data_key (d : Data.t) : Asset * Asset :=
  (Data.asset d, mkAsset "USD" "forex").

(** Modelled from the spec: the dictionary [_set_pandas_data_keys] makes of
    a list of series, each under its asset-quote key. *)
Definition _set_pandas_data_keys (l : list Data.t) : gmap (Asset * Asset) Data.t :=
  fold_left (fun m d => <[data_key d := d]> m) l ∅.

(** The resolution checks of [update_pandas_data] on a cached entry, for a
    request at [ts_unit].  [held] is the condition [data_timestep == ...] for
    each resolution; [enough] is the test
    [(data_start_datetime - start_datetime) < START_BUFFER].  [None] is the
    early [return None]; otherwise the resolution to fetch at. *)
Definition check_cached (held : Timestep -> res bool) (ts_unit : Timestep) (enough : bool)
  : res (option Timestep) :=
  let? same := held ts_unit in
  if same && enough then Ok None
  else
    let? after_day :=
      if bool_decide (ts_unit = Day) then
        let? minute := held Minute in
        if minute then Ok (if enough then None else Some Minute)
        else
          let? hour := held Hour in
          if hour then Ok (if enough then None else Some Hour)
          else Ok (Some ts_unit)
      else Ok (Some ts_unit) in
    match after_day with
    | None => Ok None
    | Some ts_unit =>
        if bool_decide (ts_unit = Hour) then
          let? minute := held Minute in
          if minute then Ok (if enough then None else Some Minute)
          else Ok (Some ts_unit)
        else Ok (Some ts_unit)
    end.

Definition split_asset (asset : asset_arg) (quote : option Asset) : Asset * Asset :=
  let quote_asset := match quote with Some q => q | None => mkAsset "USD" "forex" end in
  match asset with
  | AssetPair a q => (a, q)
  | AssetOf a => (a, quote_asset)
  end.

Section Provider.

(** numpy's [array == text] taken as the condition of an [if], for the text
    of a resolution: the truth value of the comparison, or the error it
    raises.  An array is the one thing [asset_data.timestep] can give. *)
Variable array_is : list Z -> Timestep -> res bool.

(** [thetadata_helper.get_price_data]: the external provider.  It answers
    with a table, with [None] when it has no data, or raises. *)
Variable get_price_data : FetchRequest -> res (option DataFrame).

(** [PandasData.get_last_price], the last-price lookup of the parent class. *)
Variable super_get_last_price : t -> asset_arg -> option Asset -> res (option cell_result).

(** The part of [update_pandas_data] that looks at the entry cached for the
    key.  [asset_data.df.index[0]] needs [df] to be the frame, an array has no
    [index], and a first row; [asset_data.timestep] is an attribute only when
    a column of that name was bound to the instance. *)
Definition check_entry (asset_data : Data.t) (ts_unit : Timestep) (start_datetime : Z)
  : res (option Timestep) :=
  let? data_start_datetime :=
    if Data.shadowed asset_data "df" then Raise AttributeError
    else Data.first_label (Data.df asset_data) in
  let? data_timestep :=
    match dict_get "timestep" (Data.arrays asset_data) with
    | None => Raise AttributeError
    | Some a => Ok a
    end in
  check_cached (array_is data_timestep) ts_unit
               (data_start_datetime - start_datetime <? START_BUFFER).

(** [update_pandas_data] *)
Definition update_pandas_data (self : t) (asset : asset_arg) (quote : option Asset)
           (length : Z) (timestep : Timestep) (start_dt : option Z)
  : res (option (gmap (Asset * Asset) Data.t)) * t :=
  let '(asset_separated, quote_asset) := split_asset asset quote in
  let search_asset := (asset_separated, quote_asset) in
  let '(start_datetime, ts_unit) :=
    get_start_datetime_and_ts_unit self length timestep start_dt START_BUFFER in
  let checked : res (option Timestep) :=
    match pandas_data self !! search_asset with
    | None => Ok (Some ts_unit)
    | Some asset_data => check_entry asset_data ts_unit start_datetime
    end in
  match checked with
  | Raise e => (Raise e, self)
  | Ok None => (Ok None, self)
  | Ok (Some ts_unit) =>
      let date_time_now := get_datetime self in
      let request :=
        {| fr_username := _username self; fr_password := _password self;
           fr_asset := asset_separated; fr_start := start_datetime;
           fr_end := datetime_end self; fr_timespan := ts_unit;
           fr_quote := quote_asset; fr_dt := date_time_now |} in
      let self := record_fetch self request in
      match get_price_data request with
      | Raise e =>
          (Raise (Exception "Error getting data from ThetaData" e),
           logging_info self (LogTraceback e))
      | Ok None => (Ok None, self)
      | Ok (Some fetched) =>
          match Data.new [PyAsset asset_separated; PyFrame fetched]
                         [("timestep", PyTimestep ts_unit); ("quote", PyAsset quote_asset)] with
          | Raise e => (Raise e, self)
          | Ok data => (Ok (Some (_set_pandas_data_keys [data])), self)
          end
      end
  end.

(** Modelled from the spec: [PandasData._pull_source_symbol_bars], which
    this development does not embed.  It "delegates to the (possibly new)
    Point-in-Time Series' window", as of the simulated now, and answers "no
    data" when there is no series for the key. *)
Definition super_pull_source_symbol_bars (self : t) (asset : asset_arg) (length : Z)
           (timestep : Timestep) (timeshift : option Z) (quote : option Asset)
  : res (option Bars) :=
  match pandas_data self !! split_asset asset quote with
  | None => Ok None
  | Some data =>
      let? bars := Data.get_bars data (get_datetime self) length timestep
                     (match timeshift with Some n => n | None => 0 end) in
      Ok (Some bars)
  end.

(** [_pull_source_symbol_bars], the bar-window request. *)
Definition _pull_source_symbol_bars (self : t) (asset : asset_arg) (length : Z)
           (timestep : Timestep) (timeshift : option Z) (quote : option Asset)
  : res (option Bars) * t :=
  match update_pandas_data self asset quote length timestep None with
  | (Raise e, self) => (Raise e, self)
  | (Ok pandas_data_update, self) =>
      let self :=
        match pandas_data_update with
        | Some upd => with_pandas_data self (dict_update (pandas_data self) upd)
        | None => self
        end in
      (super_pull_source_symbol_bars self asset length timestep timeshift quote, self)
  end.

(** [get_last_price], the last-price request. *)
Definition get_last_price (self : t) (asset : asset_arg) (timestep : Timestep)
           (quote : option Asset) : res (option cell_result) * t :=
  let dt := get_datetime self in
  let self :=
    match update_pandas_data self asset quote 1 timestep (Some dt) with
    | (Raise e, self) => logging_info self (LogLastPriceError e dt asset)
    | (Ok None, self) => self
    | (Ok (Some upd), self) =>
        let self := with_pandas_data self (dict_update (pandas_data self) upd) in
        with_data_store self (dict_update (_data_store self) upd)
    end in
  (super_get_last_price self asset quote, self).

End Provider.

Section BetweenDates.

Variable array_is : list Z -> Timestep -> res bool.
Variable get_price_data : FetchRequest -> res (option DataFrame).

(** The response of the parent class and the bars parsed from it. *)
Variables Response ParsedBars : Type.

(** [PandasData._pull_source_symbol_bars_between_dates] *)
Variable super_pull_source_symbol_bars_between_dates :
  t -> asset_arg -> Timestep -> option Asset -> option Z -> option Z -> res (option Response).

(** [_parse_source_symbol_bars] *)
Variable _parse_source_symbol_bars :
  t -> Response -> asset_arg -> option Asset -> res ParsedBars.

(** [get_historical_prices_between_dates] *)
Definition get_historical_prices_between_dates (self : t) (asset : asset_arg)
           (timestep : Timestep) (quote : option Asset) (start_date end_date : option Z)
  : res (option ParsedBars) * t :=
  match update_pandas_data array_is get_price_data self asset quote 1 timestep None with
  | (Raise e, self) => (Raise e, self)
  | (Ok pandas_data_update, self) =>
      let self :=
        match pandas_data_update with
        | Some upd => with_pandas_data self (dict_update (pandas_data self) upd)
        | None => self
        end in
      match super_pull_source_symbol_bars_between_dates
              self asset timestep quote start_date end_date with
      | Raise e => (Raise e, self)
      | Ok None => (Ok None, self)
      | Ok (Some response) =>
          match _parse_source_symbol_bars self response asset quote with
          | Raise e => (Raise e, self)
          | Ok bars => (Ok (Some bars), self)
          end
      end
  end.

End BetweenDates.

Section Chains.

(** The strikes as the provider gives them. *)
Variable StrikeList : Type.

(** [thetadata_helper.get_expirations] and [thetadata_helper.get_strikes];
    the day asked for is the day number of the simulated now. *)
Variable get_expirations : option string -> option string -> string -> Z -> res (list string).
Variable get_strikes : option string -> option string -> string -> pydate -> res StrikeList.

(** The dictionary of one exchange. *)
Record contracts : Type := mkContracts {
  TradingClass : string;
  Multiplier : Z;
  Expirations : list string;
  Strikes : StrikeList
}.

(** [get_chains]: the dictionary returned has the one key SMART. *)
Definition get_chains (self : t) (asset : Asset) : res (list (string * contracts)) :=
  let today := get_datetime self / MICROS_PER_DAY in
  let? expirations := get_expirations (_username self) (_password self) (symbol asset) today in
  let? first := match expirations with
                | [] => Raise IndexError
                | x :: _ => Ok x
                end in
  let expiration := str_remove "-" first in
  let? y := py_int (str_slice expiration 0 4) in
  let? m := py_int (str_slice expiration 4 6) in
  let? d := py_int (str_slice expiration 6 8) in
  let? expiration_dt := make_date y m d in
  let? strikes := get_strikes (_username self) (_password self) (symbol asset) expiration_dt in
  Ok [("SMART", {| TradingClass := symbol asset; Multiplier := 100;
                   Expirations := expirations; Strikes := strikes |})].

End Chains.

Section Processes.

(** [subprocess.run] of [pgrep -f keyword], which gives the text it printed,
    and of [kill -9 pid]. *)
Variable run_pgrep : string -> res string.
Variable run_kill : string -> res unit.

(** The loop over the pids: what it did, and the exception that stopped it. *)
Fixpoint kill_each (pids : list string) : list process_action * option exn :=
  match pids with
  | [] => ([], None)
  | pid :: rest =>
      if String.eqb pid "" then kill_each rest
      else
        match run_kill pid with
        | Raise e => ([LogKilling pid; RunKill pid], Some e)
        | Ok _ =>
            (LogKilling pid :: RunKill pid :: fst (kill_each rest), snd (kill_each rest))
        end
  end.

(** [kill_processes_by_name]: it returns nothing; the result is what it did. *)
Definition kill_processes_by_name (keyword : string) : list process_action :=
  RunPgrep keyword ::
  match run_pgrep keyword with
  | Raise e => [PrintError e]
  | Ok stdout =>
      let pids := str_split "010" (str_strip stdout) in
      match pids with
      | [] => [LogNoneFound keyword]
      | _ :: _ =>
          fst (kill_each pids) ++
          match snd (kill_each pids) with
          | Some e => [PrintError e]
          | None => [LogAllKilled keyword]
          end
      end
  end.

End Processes.

End ThetaDataBacktesting.

(** ** The Alpaca data source ([lumibot/data_sources/alpaca_data.py]) *)

Module AlpacaData.

Section Api.

(** [api.get_latest_crypto_trade(symbol, exchange=...)] and
    [api.get_latest_trade(symbol)], each giving the price [p] of the trade. *)
Variable get_latest_crypto_trade : string -> string -> res Z.
Variable get_latest_trade : string -> res Z.

(** [get_last_price]; a bare [except] catches whatever the first exchange
    raises. *)
Definition get_last_price (asset : asset_arg) (quote : option Asset) : res Z :=
  let symbol_ :=
    match quote with
    | Some q =>
        match asset with
        | AssetOf a =>
            if String.eqb (asset_type a) "stock" then symbol a
            else String.append (symbol a) (symbol q)
        | AssetPair a _ => String.append (symbol a) (symbol q)
        end
    | None =>
        match asset with
        | AssetPair a q => String.append (symbol a) (symbol q)
        | AssetOf a => symbol a
        end
    end in
  let crypto :=
    match asset with
    | AssetPair a _ => String.eqb (asset_type a) "crypto"
    | AssetOf a => String.eqb (asset_type a) "crypto"
    end in
  if crypto then
    match get_latest_crypto_trade symbol_ "CBSE" with
    | Ok p => Ok p
    | Raise _ => get_latest_crypto_trade symbol_ "FTXU"
    end
  else get_latest_trade symbol_.

End Api.

End AlpacaData.

(** * Notions used in the statements *)

Import ThetaDataBacktesting.

Definition strictly_increasing (l : list Z) : Prop := StronglySorted Z.lt l.

(** Sorted by time, repetitions allowed. *)
Definition sorted (l : list Z) : Prop := StronglySorted Z.le l.

(** The number of rows of an index at or before a timestamp. *)
Definition rows_at_or_before (ts : Z) (ix : list Z) : nat :=
  List.length (List.filter (fun t => t <=? ts) ix).

(** A table to run the statements on, three bars, and the series the
    constructor makes of it. *)
Definition three_bars : DataFrame := frame_of [10; 20; 30] [101; 102; 103].

Definition three_bar_series : Data.t :=
  {| Data.strategy := PyNone; Data.asset := SPY; Data.symbol := "SPY";
     Data.df := {| df_index_name := Some "datetime";
                   df_index := {| idx_values := [10; 20; 30]; idx_tz := Some DEFAULT_PYTZ |};
                   df_columns := [("close", [101; 102; 103])] |};
     Data.date_start := 10; Data.date_end := 30;
     Data.iter_index := [(10, 0); (20, 1); (30, 2)];
     Data.datalines := [("datetime", [10; 20; 30]); ("close", [101; 102; 103])];
     Data.arrays := [("datetime", [10; 20; 30]); ("close", [101; 102; 103])] |}.

(** The three bars with one more column. *)
Definition three_bars_and (name : string) (cells : list Z) : DataFrame :=
  {| df_index_name := None;
     df_index := {| idx_values := [10; 20; 30]; idx_tz := None |};
     df_columns := [("Close", [101; 102; 103]); (name, cells)] |}.

(** No column of the table bears one of the names. *)
Definition no_column_named (names : list string) (d : DataFrame) : Prop :=
  Forall (fun name => ~ In name (column_names d)) names.

(** The names [get_bars] reads on the instance on its way to the window (its
    own, that of the row lookup, that of the series of the row numbers and
    that of the dictionary of the datalines), and the name under which the
    index is filed among the datalines. *)
Definition window_names : list string :=
  ["get_bars"; "get_iter_count"; "iter_index"; "datalines"; "datetime"].

(** A table fit for windows: its index is strictly increasing (the
    constructor neither sorts nor removes duplicates) and no data column
    bears a name the window is read through. *)
Definition valid_input (d : DataFrame) : Prop :=
  strictly_increasing (idx_values (df_index d)) /\ no_column_named window_names d.

(** The request [update_pandas_data] sends to the provider, if it sends one. *)
Definition planned_request (array_is : list Z -> Timestep -> res bool)
           (self : ThetaDataBacktesting.t) (asset : asset_arg)
           (quote : option Asset) (length : Z) (timestep : Timestep) (start_dt : option Z)
  : res (option FetchRequest) :=
  let key := split_asset asset quote in
  let start_datetime :=
    fst (get_start_datetime_and_ts_unit self length timestep start_dt START_BUFFER) in
  let? unit :=
    match pandas_data self !! key with
    | None => Ok (Some timestep)
    | Some asset_data => check_entry array_is asset_data timestep start_datetime
    end in
  Ok (option_map
        (fun u => {| fr_username := _username self; fr_password := _password self;
                     fr_asset := fst key; fr_start := start_datetime;
                     fr_end := datetime_end self; fr_timespan := u;
                     fr_quote := snd key; fr_dt := get_datetime self |})
        unit).

(** What [update_pandas_data] does once the request is sent. *)
Definition complete_fetch (get_price_data : FetchRequest -> res (option DataFrame))
           (self : ThetaDataBacktesting.t) (r : FetchRequest)
  : res (option (gmap (Asset * Asset) Data.t)) * ThetaDataBacktesting.t :=
  match get_price_data r with
  | Raise e =>
      (Raise (Exception "Error getting data from ThetaData" e),
       logging_info self (LogTraceback e))
  | Ok None => (Ok None, self)
  | Ok (Some fetched) =>
      match Data.new [PyAsset (fr_asset r); PyFrame fetched]
                     [("timestep", PyTimestep (fr_timespan r));
                      ("quote", PyAsset (fr_quote r))] with
      | Raise e => (Raise e, self)
      | Ok data => (Ok (Some (_set_pandas_data_keys [data])), self)
      end
  end.

(** The statement that the error a bar-window request raises after a provider
    failure tells which asset failed: some reading of the error gives the
    asset back. *)
Definition error_names_asset (asset_of : exn -> Asset) : Prop :=
  forall (array_is : list Z -> Timestep -> res bool)
         (gp : FetchRequest -> res (option DataFrame)) (self : ThetaDataBacktesting.t)
         (a : Asset) (length : Z) (timestep : Timestep) (timeshift : option Z)
         (quote : option Asset) (r : FetchRequest) (e0 err : exn)
         (s : ThetaDataBacktesting.t),
    fetches (snd (update_pandas_data array_is gp self (AssetOf a) quote length timestep None))
    = fetches self ++ [r] ->
    gp r = Raise e0 ->
    _pull_source_symbol_bars array_is gp self (AssetOf a) length timestep timeshift quote
    = (Raise err, s) ->
    asset_of err = a.

(** Tables whose index is not strictly increasing: a repeated timestamp, and
    timestamps out of order between the first and the last. *)
Definition repeated_bars : DataFrame := frame_of [10; 10] [101; 102].

Definition shuffled_bars : DataFrame := frame_of [10; 15; 12; 20] [101; 102; 103; 104].

Definition zigzag_bars : DataFrame :=
  frame_of [10; 14; 12; 13; 20] [101; 102; 103; 104; 105].

(** A comparison of an array with the text of a resolution that finds them
    different. *)
Definition never_equal : list Z -> Timestep -> res bool := fun _ _ => Ok false.

(** A backtest on day 100 of the time line, running to day 120, with nothing
    cached. *)
Definition empty_backtest : ThetaDataBacktesting.t :=
  {| pandas_data := ∅; _data_store := ∅;
     datetime := timedelta_days 100;
     datetime_start := timedelta_days 90;
     datetime_end := timedelta_days 120;
     _username := None; _password := None;
     fetches := []; info_log := [] |}.

(** The request for five day bars of SPY that [empty_backtest] sends. *)
Definition five_days_request : FetchRequest :=
  {| fr_username := None; fr_password := None;
     fr_asset := SPY; fr_start := timedelta_days 90; fr_end := timedelta_days 120;
     fr_timespan := Day; fr_quote := USD; fr_dt := timedelta_days 100 |}.

(** Bars of days 91, 99 and 100, and the series the constructor makes of
    them, whatever the [timestep] it is given. *)
Definition bars_from_day (first : Z) : DataFrame :=
  frame_of [timedelta_days first; timedelta_days 99; timedelta_days 100] [101; 102; 103].

Definition series_from_day_91 : Data.t :=
  {| Data.strategy := PyNone; Data.asset := SPY; Data.symbol := "SPY";
     Data.df := {| df_index_name := Some "datetime";
                   df_index := {| idx_values := [timedelta_days 91; timedelta_days 99;
                                                 timedelta_days 100];
                                  idx_tz := Some DEFAULT_PYTZ |};
                   df_columns := [("close", [101; 102; 103])] |};
     Data.date_start := timedelta_days 91; Data.date_end := timedelta_days 100;
     Data.iter_index := [(timedelta_days 91, 0); (timedelta_days 99, 1);
                         (timedelta_days 100, 2)];
     Data.datalines := [("datetime", [timedelta_days 91; timedelta_days 99;
                                      timedelta_days 100]);
                        ("close", [101; 102; 103])];
     Data.arrays := [("datetime", [timedelta_days 91; timedelta_days 99;
                                   timedelta_days 100]);
                     ("close", [101; 102; 103])] |}.

(** The same backtest with that series held for SPY. *)
Definition cached_backtest : ThetaDataBacktesting.t :=
  with_pandas_data empty_backtest {[ (SPY, USD) := series_from_day_91 ]}.

(** Three providers: one whose data starts on day 91, one that is down, and
    one that has no data. *)
Definition early_provider : FetchRequest -> res (option DataFrame) :=
  fun _ => Ok (Some (bars_from_day 91)).

Definition failing_provider : FetchRequest -> res (option DataFrame) :=
  fun _ => Raise (ProviderError 503).

Definition silent_provider : FetchRequest -> res (option DataFrame) :=
  fun _ => Ok None.

(** The statement that a bar-window request asked twice gives the same answer
    twice and sends at most one request to the provider in all. *)
Definition asked_twice_fetches_once (array_is : list Z -> Timestep -> res bool)
           (gp : FetchRequest -> res (option DataFrame))
           (self : ThetaDataBacktesting.t) (asset : asset_arg) (length : Z)
           (timestep : Timestep) (timeshift : option Z) (quote : option Asset) : Prop :=
  let out1 :=
    _pull_source_symbol_bars array_is gp self asset length timestep timeshift quote in
  let out2 :=
    _pull_source_symbol_bars array_is gp (snd out1) asset length timestep timeshift quote in
  fst out1 = fst out2 /\
  (List.length (fetches (snd out2)) <= List.length (fetches self) + 1)%nat.

(** ** Notions for the further properties *)

(** The bound a caller gives when it is a full datetime, and else the
    default, a label of the index. *)
Definition bound_or (b : bound_arg) (default : Z) : Z :=
  match b with
  | BDatetime t => t
  | _ => default
  end.

(** The test [between_time] makes on one timestamp. *)
Definition in_time_window (start_time end_time : Z) (t : Z) : bool :=
  let tod := time_of_day t in
  if start_time <=? end_time
  then (start_time <=? tod) && (tod <=? end_time)
  else (start_time <=? tod) || (tod <=? end_time).

(** The test of lying between two bounds, both included. *)
Definition in_date_range (start stop : Z) (t : Z) : bool :=
  (start <=? t) && (t <=? stop).

(** A table is rectangular when every column has one cell per label. *)
Definition rectangular (d : DataFrame) : Prop :=
  Forall (fun c => List.length (snd c) = List.length (idx_values (df_index d)))
         (df_columns d).

(** The request [update_pandas_data] makes when it fetches at a resolution:
    the asset and the quote of the key, from the required start to the end of
    the run, as of now. *)
Definition request_for (self : ThetaDataBacktesting.t) (asset : asset_arg)
           (quote : option Asset) (length : Z) (timestep : Timestep) (start_dt : option Z)
           (unit : Timestep) : FetchRequest :=
  {| fr_username := _username self; fr_password := _password self;
     fr_asset := fst (split_asset asset quote);
     fr_start := fst (get_start_datetime_and_ts_unit self length timestep start_dt
                        START_BUFFER);
     fr_end := datetime_end self;
     fr_timespan := unit;
     fr_quote := snd (split_asset asset quote);
     fr_dt := get_datetime self |}.

(** A series with no row, as the constructor makes it of the three bars with
    a start bound after them, and a backtest that holds it for SPY. *)
Definition no_bar_series : Data.t :=
  {| Data.strategy := PyNone; Data.asset := SPY; Data.symbol := "SPY";
     Data.df := {| df_index_name := Some "datetime";
                   df_index := {| idx_values := []; idx_tz := Some DEFAULT_PYTZ |};
                   df_columns := [("close", [])] |};
     Data.date_start := 40; Data.date_end := 30;
     Data.iter_index := [];
     Data.datalines := [("datetime", []); ("close", [])];
     Data.arrays := [("datetime", []); ("close", [])] |}.

Definition backtest_with_no_bar : ThetaDataBacktesting.t :=
  with_pandas_data empty_backtest {[ (SPY, USD) := no_bar_series ]}.

(** A provider that answers with a table of no row. *)
Definition blank_provider : FetchRequest -> res (option DataFrame) :=
  fun _ => Ok (Some (frame_of [] [])).

(** A parent last-price lookup that knows no price. *)
Definition no_price_lookup : ThetaDataBacktesting.t -> asset_arg -> option Asset ->
                             res (option cell_result) :=
  fun _ _ _ => Ok None.

(** The statement that a window asked at a label of the series made of the
    three bars and one more column raises. *)
Definition get_bars_raises_with_column (name : string) (dt length timeshift : Z)
           (e : exn) : Prop :=
  exists self,
    Data.__init__ PyNone SPY (three_bars_and name [1; 2; 3]) BNone BNone
                  (PyTimestep Day) PyNone = Ok self /\
    In dt (idx_values (df_index (Data.df self))) /\
    Data.get_bars self dt length Data.MIN_TIMESTEP timeshift = Raise e.

(** The decimal digit of a number below ten, and a date written as
    YYYY-MM-DD. *)
Definition digit_char (n : Z) : ascii := ascii_of_nat (48 + Z.to_nat n).

Definition iso_date (dte : pydate) : string :=
  String (digit_char (year dte / 1000))
    (String (digit_char (year dte / 100 mod 10))
       (String (digit_char (year dte / 10 mod 10))
          (String (digit_char (year dte mod 10))
             (String "-"
                (String (digit_char (month dte / 10))
                   (String (digit_char (month dte mod 10))
                      (String "-"
                         (String (digit_char (day dte / 10))
                            (String (digit_char (day dte mod 10)) EmptyString))))))))).

(** A date of the calendar. *)
Definition valid_date (dte : pydate) : Prop :=
  1 <= year dte <= 9999 /\ 1 <= month dte <= 12 /\
  1 <= day dte <= days_in_month (year dte) (month dte).

(** The date [get_chains] reads in the first expiration. *)
Definition expiration_date (first : string) : res pydate :=
  let expiration := str_remove "-" first in
  let? y := py_int (str_slice expiration 0 4) in
  let? m := py_int (str_slice expiration 4 6) in
  let? d := py_int (str_slice expiration 6 8) in
  make_date y m d.

(** * Properties *)
(** ** Sequences *)

Lemma mask_select_Forall {A} (P : A -> Prop) (mask : list bool) (l : list A) :
  Forall P l -> Forall P (mask_select mask l).
Proof.
  intros H. revert mask.
  induction H as [|x l Hx Hl IH]; intros [|b mask]; simpl; try constructor.
  destruct b; [constructor; [exact Hx | apply IH] | apply IH].
Qed.

Lemma mask_select_increasing (mask : list bool) (l : list Z) :
  strictly_increasing l -> strictly_increasing (mask_select mask l).
Proof.
  unfold strictly_increasing. intros H. revert mask.
  induction H as [|x l Hl IH Hx]; intros [|b mask]; simpl; try constructor.
  destruct b; [constructor; [apply IH | now apply mask_select_Forall] | apply IH].
Qed.

Lemma skipn_Forall {A} (P : A -> Prop) (n : nat) (l : list A) :
  Forall P l -> Forall P (skipn n l).
Proof.
  intros H. revert n. induction H as [|x l Hx Hl IH]; intros [|n]; simpl;
    try constructor; auto.
Qed.

Lemma firstn_Forall {A} (P : A -> Prop) (n : nat) (l : list A) :
  Forall P l -> Forall P (firstn n l).
Proof.
  intros H. revert n. induction H as [|x l Hx Hl IH]; intros [|n]; simpl;
    try constructor; auto.
Qed.

Lemma skipn_increasing (n : nat) (l : list Z) :
  strictly_increasing l -> strictly_increasing (skipn n l).
Proof.
  unfold strictly_increasing. intros H. revert n.
  induction H as [|x l Hl IH Hx]; intros [|n]; simpl; try constructor; auto.
Qed.

Lemma firstn_increasing (n : nat) (l : list Z) :
  strictly_increasing l -> strictly_increasing (firstn n l).
Proof.
  unfold strictly_increasing. intros H. revert n.
  induction H as [|x l Hl IH Hx]; intros [|n]; simpl; try constructor.
  - apply IH.
  - now apply firstn_Forall.
Qed.

(** A Python slice of an increasing array is increasing. *)
Lemma py_slice_increasing (l : list Z) (start stop : Z) :
  strictly_increasing l -> strictly_increasing (py_slice l start stop).
Proof.
  intros H. unfold py_slice. apply firstn_increasing. now apply skipn_increasing.
Qed.

Lemma slice_bound_in_range (n i : Z) : 0 <= i <= n -> slice_bound n i = i.
Proof. intros H. unfold slice_bound. destruct (Z.ltb_spec i 0); lia. Qed.

Lemma slice_bound_negative (n i : Z) : i < 0 -> slice_bound n i = Z.max 0 (i + n).
Proof. intros H. unfold slice_bound. destruct (Z.ltb_spec i 0); lia. Qed.

Lemma py_slice_in_range {A} (l : list A) (start stop : Z) :
  0 <= start <= stop -> stop <= Z.of_nat (List.length l) ->
  py_slice l start stop = firstn (Z.to_nat (stop - start)) (skipn (Z.to_nat start) l).
Proof.
  intros H1 H2. unfold py_slice.
  rewrite !slice_bound_in_range by lia. reflexivity.
Qed.

Lemma py_slice_from_end {A} (l : list A) (stop : Z) :
  stop < 0 ->
  py_slice l 0 stop = firstn (Z.to_nat (Z.of_nat (List.length l) + stop)) l.
Proof.
  intros H. unfold py_slice.
  rewrite slice_bound_negative by lia.
  rewrite slice_bound_in_range by lia. simpl.
  f_equal. lia.
Qed.

Lemma py_slice_length_eq {A B} (l1 : list A) (l2 : list B) (start stop : Z) :
  List.length l1 = List.length l2 ->
  List.length (py_slice l1 start stop) = List.length (py_slice l2 start stop).
Proof.
  intros H. unfold py_slice. rewrite !List.length_firstn, !List.length_skipn, H.
  reflexivity.
Qed.

Lemma mask_select_map {A} (f : A -> bool) (l : list A) :
  mask_select (map f l) l = List.filter f l.
Proof.
  induction l as [|x l IH]; simpl; [reflexivity|].
  destruct (f x); now rewrite IH.
Qed.

Lemma mask_select_length {A B} (mask : list bool) (l1 : list A) (l2 : list B) :
  List.length l1 = List.length l2 ->
  List.length (mask_select mask l1) = List.length (mask_select mask l2).
Proof.
  revert l1 l2. induction mask as [|b mask IH]; intros [|x l1] [|y l2] H;
    simpl in *; try reflexivity; try discriminate.
  injection H as H. destruct b; simpl; auto.
Qed.

Lemma filter_all {A} (f : A -> bool) (l : list A) :
  Forall (fun x => f x = true) l -> List.filter f l = l.
Proof. induction 1 as [|x l Hx _ IH]; simpl; [reflexivity|]. now rewrite Hx, IH. Qed.

Lemma filter_none {A} (f : A -> bool) (l : list A) :
  Forall (fun x => f x = false) l -> List.filter f l = [].
Proof. induction 1 as [|x l Hx _ IH]; simpl; [reflexivity|]. now rewrite Hx, IH. Qed.

(** ** Dictionaries *)

Lemma mem_string_In (s : string) (l : list string) : mem_string s l = true <-> In s l.
Proof.
  induction l as [|x l IH]; simpl; [split; [discriminate | tauto]|].
  rewrite orb_true_iff, IH. split; intros [H|H]; auto.
  - left. symmetry. now apply String.eqb_eq.
  - left. subst. apply String.eqb_refl.
Qed.

Lemma mem_string_absent (s : string) (l : list string) : ~ In s l -> mem_string s l = false.
Proof.
  intros Hn. destruct (mem_string s l) eqn:Hm; [|reflexivity].
  apply mem_string_In in Hm. contradiction.
Qed.

Lemma dict_get_set {V} (k k' : string) (v : V) (d : list (string * V)) :
  dict_get k (dict_set k' v d) = if String.eqb k k' then Some v else dict_get k d.
Proof.
  induction d as [|[k0 v0] d IH]; simpl.
  - reflexivity.
  - destruct (String.eqb_spec k' k0) as [->|Hne]; simpl.
    + destruct (String.eqb_spec k k0); reflexivity.
    + rewrite IH. destruct (String.eqb_spec k k0) as [->|Hk]; [|reflexivity].
      destruct (String.eqb_spec k0 k'); congruence.
Qed.

Lemma dict_set_keys {V} (x k : string) (v : V) (d : list (string * V)) :
  mem_string x (map fst (dict_set k v d)) = String.eqb x k || mem_string x (map fst d).
Proof.
  induction d as [|[k0 v0] d IH]; simpl.
  - reflexivity.
  - destruct (String.eqb_spec k k0) as [->|Hne]; simpl.
    + destruct (String.eqb x k0), (mem_string x (map fst d)); reflexivity.
    + rewrite IH.
      destruct (String.eqb x k0), (String.eqb x k), (mem_string x (map fst d)); reflexivity.
Qed.

Lemma dict_get_fold_other {V} (k : string) (cols : list (string * V)) (acc : list (string * V)) :
  ~ In k (map fst cols) ->
  dict_get k (fold_left (fun a c => dict_set (fst c) (snd c) a) cols acc) = dict_get k acc.
Proof.
  revert acc. induction cols as [|[k0 v0] cols IH]; intros acc Hk; simpl in *.
  - reflexivity.
  - rewrite IH by tauto. rewrite dict_get_set.
    destruct (String.eqb_spec k k0); [subst; tauto | reflexivity].
Qed.

Lemma fold_dict_set_keys {V} (x : string) (cols acc : list (string * V)) :
  mem_string x (map fst (fold_left (fun a c => dict_set (fst c) (snd c) a) cols acc))
  = mem_string x (map fst cols) || mem_string x (map fst acc).
Proof.
  revert acc. induction cols as [|[k0 v0] cols IH]; intros acc; simpl.
  - reflexivity.
  - rewrite IH, dict_set_keys.
    destruct (mem_string x (map fst cols)), (String.eqb x k0), (mem_string x (map fst acc));
      reflexivity.
Qed.

Lemma dict_get_map {V W} (f : V -> W) (k : string) (d : list (string * V)) :
  dict_get k (map (fun dl => (fst dl, f (snd dl))) d) = option_map f (dict_get k d).
Proof.
  induction d as [|[k0 v0] d IH]; simpl; [reflexivity|].
  destruct (String.eqb k k0); [reflexivity | exact IH].
Qed.

Lemma dict_get_In {V} (k : string) (v : V) (d : list (string * V)) :
  dict_get k d = Some v -> In (k, v) d.
Proof.
  induction d as [|[k0 v0] d IH]; simpl; [discriminate|].
  destruct (String.eqb_spec k k0) as [->|Hne].
  - intros [= ->]. now left.
  - intros H. right. now apply IH.
Qed.

Lemma dict_del_incl {V} (k : string) (d : list (string * V)) (x : string * V) :
  In x (dict_del k d) -> In x d.
Proof.
  induction d as [|[k0 v0] d IH]; simpl; [tauto|].
  destruct (String.eqb k k0); simpl; intros H; [right; now apply IH|].
  destruct H as [H|H]; [now left | right; now apply IH].
Qed.

(** ** Column names *)

Lemma count_name_In (x : string) (l : list string) :
  In x l -> (1 <= List.length (List.filter (String.eqb x) l))%nat.
Proof.
  induction l as [|y l IH]; simpl; [tauto|].
  intros [->|H].
  - rewrite String.eqb_refl. simpl. lia.
  - destruct (String.eqb x y); simpl; [lia | auto].
Qed.

Lemma count_name_absent (x : string) (l : list string) :
  mem_string x l = false -> List.filter (String.eqb x) l = [].
Proof.
  induction l as [|y l IH]; simpl; [reflexivity|].
  intros H. apply orb_false_elim in H. destruct H as [H1 H2].
  rewrite H1. auto.
Qed.

(** Names are distinct exactly when none of them is counted twice. *)
Lemma has_dup_count (l : list string) :
  has_dup l = false <->
  forall x, (List.length (List.filter (String.eqb x) l) <= 1)%nat.
Proof.
  induction l as [|y l IH]; simpl.
  - split; [intros _ x; lia | reflexivity].
  - split.
    + intros H x. apply orb_false_elim in H. destruct H as [Hm Hd].
      destruct (String.eqb_spec x y) as [->|Hne]; simpl.
      * rewrite (count_name_absent _ _ Hm). simpl. lia.
      * now apply IH.
    + intros H. apply orb_false_intro.
      * destruct (mem_string y l) eqn:Hm; [|reflexivity].
        apply mem_string_In in Hm. apply count_name_In in Hm.
        specialize (H y). rewrite String.eqb_refl in H. simpl in H. lia.
      * apply IH. intros x. specialize (H x).
        destruct (String.eqb x y); simpl in H; lia.
Qed.

Lemma select_rows_names (mask : list bool) (d : DataFrame) :
  column_names (select_rows mask d) = column_names d.
Proof.
  unfold column_names, select_rows. simpl. rewrite List.map_map. reflexivity.
Qed.

Lemma slice_rows_names (lo hi : Z) (d : DataFrame) :
  column_names (slice_rows lo hi d) = column_names d.
Proof.
  unfold column_names, slice_rows. simpl. rewrite List.map_map. reflexivity.
Qed.

(** Renaming gives a name that is none of the five price names only to the
    column that has it already. *)
Lemma rename_column_other (col name : string) :
  mem_string name Data.ohlcv = false ->
  Data.rename_column col = name -> col = name.
Proof.
  unfold Data.rename_column. intros Hn.
  destruct (mem_string (lower col) Data.ohlcv) eqn:Hm; [|tauto].
  intros Heq. rewrite Heq in Hm. congruence.
Qed.

Lemma columns_keeps_absent (name : string) (d : DataFrame) :
  mem_string name Data.ohlcv = false ->
  ~ In name (column_names d) -> ~ In name (column_names (Data.columns d)).
Proof.
  intros Hn. unfold column_names, Data.columns. simpl. rewrite List.map_map.
  induction (df_columns d) as [|[k v] cols IH]; simpl; [tauto|].
  intros Hk [Heq|Hin]; [|tauto].
  apply (rename_column_other _ _ Hn) in Heq. tauto.
Qed.

(** ** Construction *)

(** What the loop of [to_datalines] has done when it comes to its end: the
    datalines and the arrays are the same, one per column after the index,
    and no column name occurs twice. *)
Lemma add_columns_inv (names : list string) (cols : list (string * list Z))
      (st : list (string * list Z) * list (string * list Z))
      (dls arrs : list (string * list Z)) :
  Data.add_columns names st cols = Ok (dls, arrs) ->
  dls = fold_left (fun acc c => dict_set (fst c) (snd c) acc) cols (fst st) /\
  arrs = fold_left (fun acc c => dict_set (fst c) (snd c) acc) cols (snd st) /\
  Forall (fun c => (List.length (List.filter (String.eqb (fst c)) names) <= 1)%nat) cols.
Proof.
  revert st. induction cols as [|c cols IH]; intros st; simpl.
  - intros [= ->]. simpl. auto.
  - unfold Data.add_column.
    destruct (mem_string "datalines" (map fst (snd st))); [discriminate|].
    destruct (mem_string "df" (map fst (snd st))); [discriminate|].
    destruct (Nat.leb_spec 2 (List.length (List.filter (String.eqb (fst c)) names)))
      as [Hge|Hlt]; [discriminate|].
    cbn [rbind]. intros H. destruct (IH _ H) as (H1 & H2 & H3). simpl in H1, H2.
    split; [exact H1|]. split; [exact H2|]. constructor; [lia | exact H3].
Qed.

(** The loop goes through when the names are distinct and no column is called
    datalines or df. *)
Lemma add_columns_ok (names : list string) (cols : list (string * list Z))
      (st : list (string * list Z) * list (string * list Z)) :
  has_dup names = false ->
  ~ In "datalines" (map fst cols) -> ~ In "df" (map fst cols) ->
  mem_string "datalines" (map fst (snd st)) = false ->
  mem_string "df" (map fst (snd st)) = false ->
  Data.add_columns names st cols =
  Ok (fold_left (fun acc c => dict_set (fst c) (snd c) acc) cols (fst st),
      fold_left (fun acc c => dict_set (fst c) (snd c) acc) cols (snd st)).
Proof.
  intros Hdup. revert st. induction cols as [|[k v] cols IH]; intros st Hdl Hdf Hs1 Hs2;
    simpl in *.
  - now destruct st.
  - unfold Data.add_column. rewrite Hs1, Hs2. simpl fst.
    pose proof (proj1 (has_dup_count names) Hdup k) as Hk.
    destruct (Nat.leb_spec 2 (List.length (List.filter (String.eqb k) names)))
      as [Hge|Hlt]; [lia|].
    cbn [rbind]. rewrite IH; simpl; try tauto.
    + rewrite dict_set_keys, Hs1.
      destruct (String.eqb_spec "datalines" k); [subst; tauto | reflexivity].
    + rewrite dict_set_keys, Hs2.
      destruct (String.eqb_spec "df" k); [subst; tauto | reflexivity].
Qed.

(** What a successful construction leaves in the instance. *)
Lemma init_inv (strategy : pyval) (a : Asset) (d : DataFrame) (ds de : bound_arg)
      (tstep cols : pyval) (self : Data.t) :
  Data.__init__ strategy a d ds de tstep cols = Ok self ->
  idx_tz (df_index d) = None /\
  idx_tz (df_index (Data.df self)) = Some DEFAULT_PYTZ /\
  (exists lo hi m,
      idx_values (df_index (Data.df self)) =
      mask_select m (py_slice (idx_values (df_index d)) lo hi)) /\
  column_names (Data.df self) = column_names (Data.columns d) /\
  Data.iter_index self = Data.make_iter_index (idx_values (df_index (Data.df self))) /\
  Data.datalines self =
    fold_left (fun acc c => dict_set (fst c) (snd c) acc) (df_columns (Data.df self))
              [("datetime", idx_values (df_index (Data.df self)))] /\
  Data.arrays self = Data.datalines self /\
  has_dup (column_names (Data.df self)) = false /\
  Data.asset self = a.
Proof.
  unfold Data.__init__, Data.set_date_format. simpl.
  destruct (idx_tz (df_index d)) eqn:Htz; simpl; [discriminate|].
  match goal with |- context [Data.set_dates ?x ds de] => set (d1 := x) end.
  destruct (Data.set_dates d1 ds de) as [[s e]|] eqn:Hd; simpl; [|discriminate].
  unfold Data.trim_data, loc_slice.
  destruct (get_slice_bound (idx_values (df_index d1)) s true) as [lo|] eqn:Hlo;
    cbn [rbind]; [|discriminate].
  destruct (get_slice_bound (idx_values (df_index d1)) e false) as [hi|] eqn:Hhi;
    cbn [rbind]; [|discriminate].
  match goal with |- context [Data.to_datalines ?x] => set (d2 := x) end.
  destruct (Data.to_datalines d2) as [[dls arrs]|] eqn:Hto; cbn [rbind]; [|discriminate].
  intros H. injection H as <-. cbn [Data.df Data.iter_index Data.datalines Data.arrays
                                   Data.asset].
  unfold Data.to_datalines in Hto.
  destruct (add_columns_inv _ _ _ _ _ Hto) as (H1 & H2 & H3). simpl in H1, H2.
  repeat split; try reflexivity.
  - eexists lo, hi, _. reflexivity.
  - unfold d2. rewrite select_rows_names, slice_rows_names. reflexivity.
  - exact H1.
  - congruence.
  - apply has_dup_count. intros x.
    destruct (mem_string x (column_names d2)) eqn:Hx.
    + apply mem_string_In in Hx. unfold column_names in Hx.
      apply List.in_map_iff in Hx. destruct Hx as (c & <- & Hc).
      rewrite List.Forall_forall in H3. exact (H3 c Hc).
    + rewrite (count_name_absent _ _ Hx). simpl. lia.
Qed.

(** On a constructed series a name gives an array exactly when it is
    datetime or the name of a column. *)
Lemma init_shadowed (strategy : pyval) (a : Asset) (d : DataFrame) (ds de : bound_arg)
      (tstep cols : pyval) (self : Data.t) (name : string) :
  Data.__init__ strategy a d ds de tstep cols = Ok self ->
  Data.shadowed self name =
  mem_string name (column_names (Data.columns d)) || String.eqb name "datetime".
Proof.
  intros Hinit.
  destruct (init_inv _ _ _ _ _ _ _ _ Hinit) as (_ & _ & _ & Hnames & _ & Hdl & Harr & _).
  unfold Data.shadowed. rewrite Harr, Hdl, fold_dict_set_keys.
  fold (column_names (Data.df self)). rewrite Hnames. simpl.
  now rewrite orb_false_r.
Qed.

(** A name that no column of the table bears, and that is neither datetime
    nor one of the five price names, still gives what the class put under
    it. *)
Lemma init_unshadowed (strategy : pyval) (a : Asset) (d : DataFrame) (ds de : bound_arg)
      (tstep cols : pyval) (self : Data.t) (name : string) :
  Data.__init__ strategy a d ds de tstep cols = Ok self ->
  mem_string name Data.ohlcv = false ->
  String.eqb name "datetime" = false ->
  ~ In name (column_names d) ->
  Data.shadowed self name = false.
Proof.
  intros Hinit Hn Hdt Hcol.
  rewrite (init_shadowed _ _ _ _ _ _ _ _ name Hinit), Hdt, orb_false_r.
  apply mem_string_absent. now apply columns_keeps_absent.
Qed.

Lemma init_increasing (strategy : pyval) (a : Asset) (d : DataFrame) (ds de : bound_arg)
      (tstep cols : pyval) (self : Data.t) :
  strictly_increasing (idx_values (df_index d)) ->
  Data.__init__ strategy a d ds de tstep cols = Ok self ->
  strictly_increasing (idx_values (df_index (Data.df self))).
Proof.
  intros Hs Hinit.
  destruct (init_inv _ _ _ _ _ _ _ _ Hinit) as (_ & _ & (lo & hi & m & Hix) & _).
  rewrite Hix. apply mask_select_increasing. now apply py_slice_increasing.
Qed.

(** The datetime line of a constructed series is its index, unless a data
    column takes the name. *)
Lemma init_datetime_line (strategy : pyval) (a : Asset) (d : DataFrame) (ds de : bound_arg)
      (tstep cols : pyval) (self : Data.t) :
  ~ In "datetime" (column_names d) ->
  Data.__init__ strategy a d ds de tstep cols = Ok self ->
  dict_get "datetime" (Data.datalines self) = Some (idx_values (df_index (Data.df self))).
Proof.
  intros Hn Hinit.
  destruct (init_inv _ _ _ _ _ _ _ _ Hinit) as (_ & _ & _ & Hnames & _ & Hdl & _).
  rewrite Hdl. rewrite dict_get_fold_other.
  - reflexivity.
  - fold (column_names (Data.df self)). rewrite Hnames.
    now apply columns_keeps_absent.
Qed.

(** ** Row lookup *)

Lemma increasing_split (pre post : list Z) (ts : Z) :
  strictly_increasing (pre ++ ts :: post) ->
  Forall (fun t => t < ts) pre /\ Forall (fun t => ts < t) post.
Proof.
  unfold strictly_increasing. induction pre as [|x pre IH]; simpl; intros H.
  - split; [constructor|]. now inversion H.
  - inversion H as [|? ? Hs Hx]; subst.
    destruct (IH Hs) as [H1 H2]. split; [|exact H2].
    constructor; [|exact H1].
    rewrite List.Forall_forall in Hx. apply Hx. apply in_or_app. right. now left.
Qed.

Lemma iter_rows_absent (ts : Z) (l : list Z) (k : nat) :
  ~ In ts l ->
  List.filter (fun p : Z * Z => fst p =? ts)
              (combine l (map Z.of_nat (seq k (List.length l)))) = [].
Proof.
  revert k. induction l as [|x l IH]; intros k Hn; simpl in *; [reflexivity|].
  destruct (Z.eqb_spec x ts); [tauto|]. apply IH. tauto.
Qed.

Lemma iter_rows_unique (ts : Z) (pre post : list Z) (k : nat) :
  ~ In ts pre -> ~ In ts post ->
  List.filter (fun p : Z * Z => fst p =? ts)
              (combine (pre ++ ts :: post)
                       (map Z.of_nat (seq k (List.length (pre ++ ts :: post))))) =
  [(ts, Z.of_nat (k + List.length pre))].
Proof.
  revert k. induction pre as [|x pre IH]; intros k Hpre Hpost; simpl in *.
  - rewrite Z.eqb_refl. rewrite iter_rows_absent by exact Hpost.
    do 3 f_equal. lia.
  - destruct (Z.eqb_spec x ts); [tauto|].
    rewrite IH by tauto. do 3 f_equal. lia.
Qed.

(** When the method and the series of the row numbers are in their places,
    the row lookup is the lookup in that series. *)
Lemma get_iter_count_locate (self : Data.t) (dt : Z) :
  Data.shadowed self "get_iter_count" = false ->
  Data.shadowed self "iter_index" = false ->
  Data.get_iter_count self dt = Data.locate self dt.
Proof. intros H1 H2. unfold Data.get_iter_count. now rewrite H1, H2. Qed.

(** On a strictly increasing index every label has one row. *)
Lemma locate_row (self : Data.t) (pre post : list Z) (ts : Z) :
  Data.iter_index self = Data.make_iter_index (pre ++ ts :: post) ->
  strictly_increasing (pre ++ ts :: post) ->
  Data.locate self ts = Ok (LScalar (Z.of_nat (List.length pre))).
Proof.
  intros Hit Hs. destruct (increasing_split _ _ _ Hs) as [Hpre Hpost].
  unfold Data.locate. rewrite Hit. unfold Data.make_iter_index.
  rewrite iter_rows_unique.
  - reflexivity.
  - intros Hin. rewrite List.Forall_forall in Hpre. specialize (Hpre _ Hin). lia.
  - intros Hin. rewrite List.Forall_forall in Hpost. specialize (Hpost _ Hin). lia.
Qed.

(** [get_bars] once the row is known, with the method and the dictionary of
    the datalines in their places: every dataline is cut by the same Python
    slice, and the cut of the datetime line becomes the index. *)
Lemma get_bars_at_row (self : Data.t) (ts i length timeshift : Z) (tstep : Timestep)
      (ix : list Z) :
  Data.shadowed self "get_bars" = false ->
  Data.shadowed self "datalines" = false ->
  Data.get_iter_count self ts = Ok (LScalar i) ->
  dict_get "datetime" (Data.datalines self) = Some ix ->
  let end_row := i + 1 - timeshift in
  let start_row := Z.max 0 (end_row - length) in
  Data.get_bars self ts length tstep timeshift =
  Ok {| bars_index := py_slice ix start_row end_row;
        bars_columns :=
          dict_del "datetime"
            (map (fun dl => (fst dl, py_slice (snd dl) start_row end_row))
                 (Data.datalines self)) |}.
Proof.
  intros Hgb Hdls Hrow Hdt end_row start_row.
  unfold Data.get_bars. rewrite Hgb, Hrow. cbn [rbind]. cbv zeta. rewrite Hdls.
  fold end_row.
  replace (if end_row - length <? 0 then 0 else end_row - length) with start_row
    by (unfold start_row; destruct (Z.ltb_spec (end_row - length) 0); lia).
  unfold Data.set_index.
  pose proof (dict_get_map (fun a : list Z => py_slice a start_row end_row)
                "datetime" (Data.datalines self)) as E.
  cbv beta in E. rewrite E, Hdt. reflexivity.
Qed.

(** What the window is read through is in its place on a series made of a
    table that has no column of these names. *)
Lemma init_reads (strategy : pyval) (a : Asset) (d : DataFrame) (ds de : bound_arg)
      (tstep cols : pyval) (self : Data.t) :
  no_column_named window_names d ->
  Data.__init__ strategy a d ds de tstep cols = Ok self ->
  Data.shadowed self "get_bars" = false /\
  Data.shadowed self "get_iter_count" = false /\
  Data.shadowed self "iter_index" = false /\
  Data.shadowed self "datalines" = false /\
  dict_get "datetime" (Data.datalines self) = Some (idx_values (df_index (Data.df self))).
Proof.
  intros Hno Hinit. unfold no_column_named, window_names in Hno.
  inversion Hno as [|? ? H1 Hno1]; subst. inversion Hno1 as [|? ? H2 Hno2]; subst.
  inversion Hno2 as [|? ? H3 Hno3]; subst. inversion Hno3 as [|? ? H4 Hno4]; subst.
  inversion Hno4 as [|? ? H5 _]; subst.
  repeat split;
    try (apply (init_unshadowed _ _ _ _ _ _ _ _ _ Hinit); [reflexivity | reflexivity | assumption]).
  now apply (init_datetime_line _ _ _ _ _ _ _ _ H5 Hinit).
Qed.

(** ** The lookback window *)

Lemma rows_at_or_before_split (pre post : list Z) (ts : Z) :
  strictly_increasing (pre ++ ts :: post) ->
  rows_at_or_before ts (pre ++ ts :: post) = S (List.length pre).
Proof.
  intros Hs. destruct (increasing_split _ _ _ Hs) as [Hpre Hpost].
  unfold rows_at_or_before. rewrite List.filter_app. simpl.
  rewrite Z.leb_refl.
  rewrite (filter_all _ pre), (filter_none _ post).
  - rewrite List.length_app. simpl. lia.
  - eapply List.Forall_impl; [|exact Hpost]. simpl. intros t Ht.
    destruct (Z.leb_spec t ts); [lia | reflexivity].
  - eapply List.Forall_impl; [|exact Hpre]. simpl. intros t Ht.
    destruct (Z.leb_spec t ts); [reflexivity | lia].
Qed.

(** The rows from [s] up to and including the row of [ts]. *)
Lemma rows_up_to (pre post : list Z) (ts : Z) (s : nat) :
  (s <= List.length pre)%nat ->
  firstn (S (List.length pre) - s) (skipn s (pre ++ ts :: post)) = skipn s pre ++ [ts].
Proof.
  intros Hs.
  rewrite List.skipn_app.
  replace (s - List.length pre)%nat with 0%nat by lia. simpl skipn at 2.
  rewrite List.firstn_app, List.length_skipn.
  rewrite List.firstn_all2 by (rewrite List.length_skipn; lia).
  replace (S (List.length pre) - s - (List.length pre - s))%nat with 1%nat by lia.
  reflexivity.
Qed.

(** The shape of the window with no timeshift, on a series with a strictly
    increasing index on which the window is read through what the class put
    in place. *)
Lemma window_rows (self : Data.t) (pre post : list Z) (ts length : Z) :
  Data.shadowed self "get_bars" = false ->
  Data.shadowed self "get_iter_count" = false ->
  Data.shadowed self "iter_index" = false ->
  Data.shadowed self "datalines" = false ->
  Data.iter_index self = Data.make_iter_index (pre ++ ts :: post) ->
  dict_get "datetime" (Data.datalines self) = Some (pre ++ ts :: post) ->
  strictly_increasing (pre ++ ts :: post) ->
  1 <= length ->
  exists bars,
    Data.window self ts length = Ok bars /\
    bars_index bars =
      skipn (Z.to_nat (Z.max 0 (Z.of_nat (List.length pre) + 1 - length))) pre ++ [ts].
Proof.
  intros Hgb Hgic Hii Hdls Hit Hdl Hs Hlen.
  pose proof (locate_row _ _ _ _ Hit Hs) as Hrow.
  rewrite <- (get_iter_count_locate _ _ Hgic Hii) in Hrow.
  unfold Data.window.
  rewrite (get_bars_at_row _ _ _ length 0 Data.MIN_TIMESTEP _ Hgb Hdls Hrow Hdl).
  eexists. split; [reflexivity|]. simpl bars_index.
  set (n := List.length pre) in *.
  replace (Z.of_nat n + 1 - 0) with (Z.of_nat n + 1) by lia.
  set (s := Z.max 0 (Z.of_nat n + 1 - length)).
  rewrite py_slice_in_range.
  - replace (Z.to_nat (Z.of_nat n + 1 - s)) with (S n - Z.to_nat s)%nat by lia.
    apply rows_up_to. fold n. lia.
  - lia.
  - rewrite List.length_app. simpl. fold n. lia.
Qed.

(** C1, as amended.  On a series constructed from a table whose index is
    strictly increasing and that has no data column called get_bars,
    get_iter_count, iter_index, datalines or datetime, for every timestamp
    [ts] of the index and every [length >= 1], the window with the default
    timeshift is returned, holds only rows whose timestamp is at most [ts],
    holds at most [length] rows, and holds fewer than [length] rows only when
    the series has fewer than [length] rows at or before [ts]. *)
Theorem window_no_lookahead (strategy : pyval) (a : Asset) (d : DataFrame)
        (ds de : bound_arg) (tstep cols : pyval) (self : Data.t) (ts length : Z) :
  valid_input d ->
  Data.__init__ strategy a d ds de tstep cols = Ok self ->
  In ts (idx_values (df_index (Data.df self))) ->
  1 <= length ->
  exists bars,
    Data.window self ts length = Ok bars /\
    Forall (fun t => t <= ts) (bars_index bars) /\
    Z.of_nat (List.length (bars_index bars)) <= length /\
    (Z.of_nat (List.length (bars_index bars)) < length ->
     Z.of_nat (rows_at_or_before ts (idx_values (df_index (Data.df self)))) < length).
Proof.
  intros [Hinc Hcol] Hinit Hin Hlen.
  pose proof (init_increasing _ _ _ _ _ _ _ _ Hinc Hinit) as Hs.
  destruct (init_reads _ _ _ _ _ _ _ _ Hcol Hinit) as (Hgb & Hgic & Hii & Hdls & Hdl).
  destruct (init_inv _ _ _ _ _ _ _ _ Hinit) as (_ & _ & _ & _ & Hit & _).
  destruct (List.in_split _ _ Hin) as (pre & post & Hix).
  rewrite Hix in *.
  destruct (window_rows _ _ _ _ _ Hgb Hgic Hii Hdls Hit Hdl Hs Hlen) as (bars & Hw & Hbars).
  exists bars. split; [exact Hw|].
  rewrite Hbars, rows_at_or_before_split by exact Hs.
  destruct (increasing_split _ _ _ Hs) as [Hpre _].
  rewrite List.length_app, List.length_skipn. simpl.
  repeat split.
  - apply List.Forall_app. split.
    + apply skipn_Forall.
      eapply List.Forall_impl; [|exact Hpre]. simpl. intros t Ht. lia.
    + constructor; [lia | constructor].
  - lia.
  - lia.
Qed.

Lemma three_bars_valid : valid_input three_bars.
Proof.
  split.
  - unfold strictly_increasing. simpl. repeat constructor; lia.
  - unfold no_column_named, window_names.
    repeat constructor; simpl; intros [H|[]]; discriminate H.
Defined.

Lemma three_bars_init :
  Data.__init__ PyNone SPY three_bars BNone BNone (PyTimestep Day) PyNone
  = Ok three_bar_series.
Proof. reflexivity. Defined.

Lemma window_no_lookahead_witness :
  exists bars,
    Data.window three_bar_series 20 5 = Ok bars /\
    Forall (fun t => t <= 20) (bars_index bars) /\
    Z.of_nat (List.length (bars_index bars)) <= 5 /\
    (Z.of_nat (List.length (bars_index bars)) < 5 ->
     Z.of_nat (rows_at_or_before 20 (idx_values (df_index (Data.df three_bar_series)))) < 5).
Proof.
  apply (window_no_lookahead PyNone SPY three_bars BNone BNone (PyTimestep Day) PyNone
           three_bar_series 20 5).
  - exact three_bars_valid.
  - exact three_bars_init.
  - simpl. tauto.
  - lia.
Defined.

(** C10, as amended.  On a series constructed from a table whose index is
    strictly increasing and that has no data column called get_bars,
    get_iter_count, iter_index, datalines or datetime, with [n] rows, for a
    timestamp [ts] at row [i] and every [length >= 1]: whenever
    [timeshift > i + 1] the end row [i + 1 - timeshift] is negative and is the
    endpoint of the Python slice, which therefore counts from the end of the
    arrays; and when moreover [timeshift < n] the window is not empty, holds a
    row whose timestamp is strictly greater than [ts], and has
    [n + i + 1 - timeshift] rows whatever [length] is, so more than [length]
    rows whenever [length] is smaller than that. *)
Theorem get_bars_negative_end_row (strategy : pyval) (a : Asset) (d : DataFrame)
        (ds de : bound_arg) (tstep cols : pyval) (self : Data.t)
        (ts i length timeshift : Z) (timestep : Timestep) :
  valid_input d ->
  Data.__init__ strategy a d ds de tstep cols = Ok self ->
  0 <= i ->
  nth_error (idx_values (df_index (Data.df self))) (Z.to_nat i) = Some ts ->
  1 <= length ->
  i + 1 < timeshift ->
  let ix := idx_values (df_index (Data.df self)) in
  let n := Z.of_nat (List.length ix) in
  exists bars,
    Data.get_bars self ts length timestep timeshift = Ok bars /\
    i + 1 - timeshift < 0 /\
    bars_index bars = py_slice ix 0 (i + 1 - timeshift) /\
    bars_index bars = firstn (Z.to_nat (n - (timeshift - (i + 1)))) ix /\
    (timeshift < n ->
     bars_index bars <> [] /\
     Exists (fun t => ts < t) (bars_index bars) /\
     Z.of_nat (List.length (bars_index bars)) = n + i + 1 - timeshift /\
     (length < n + i + 1 - timeshift ->
      length < Z.of_nat (List.length (bars_index bars)))).
Proof.
  intros [Hinc Hcol] Hinit Hi Hnth Hlen Hshift ix n.
  pose proof (init_increasing _ _ _ _ _ _ _ _ Hinc Hinit) as Hs.
  destruct (init_reads _ _ _ _ _ _ _ _ Hcol Hinit) as (Hgb & Hgic & Hii & Hdls & Hdl).
  destruct (init_inv _ _ _ _ _ _ _ _ Hinit) as (_ & _ & _ & _ & Hit & _).
  fold ix in Hs, Hdl, Hit, Hnth.
  destruct (List.nth_error_split _ _ Hnth) as (pre & post & Hix & Hpre).
  assert (Hn : n = Z.of_nat (List.length pre) + 1 + Z.of_nat (List.length post)).
  { unfold n. rewrite Hix, List.length_app. simpl. lia. }
  assert (Hrow : Data.get_iter_count self ts = Ok (LScalar i)).
  { rewrite (get_iter_count_locate _ _ Hgic Hii).
    replace i with (Z.of_nat (List.length pre)) by lia.
    apply (locate_row self pre post ts); rewrite <- Hix; assumption. }
  rewrite (get_bars_at_row _ _ _ length timeshift timestep _ Hgb Hdls Hrow Hdl).
  eexists. split; [reflexivity|]. simpl bars_index.
  replace (Z.max 0 (i + 1 - timeshift - length)) with 0 by lia.
  assert (Hcut : py_slice ix 0 (i + 1 - timeshift)
                 = firstn (Z.to_nat (n - (timeshift - (i + 1)))) ix).
  { rewrite py_slice_from_end by lia. f_equal. unfold n. lia. }
  split; [lia|]. split; [reflexivity|]. split; [exact Hcut|].
  intros Hlt. rewrite Hcut.
  assert (Hk : (Z.to_nat (n - (timeshift - (i + 1))) <= List.length ix)%nat)
    by (unfold n; lia).
  assert (Hcount : Z.of_nat (List.length (firstn (Z.to_nat (n - (timeshift - (i + 1)))) ix))
                   = n + i + 1 - timeshift).
  { rewrite List.length_firstn. unfold n in *. lia. }
  split; [|split; [|split]].
  - intros Hnil. rewrite Hnil in Hcount. simpl in Hcount. lia.
  - destruct post as [|p post'].
    { simpl in Hn. lia. }
    destruct (increasing_split pre (p :: post') ts) as [_ Hpost].
    { rewrite <- Hix. exact Hs. }
    rewrite Hix, List.firstn_app.
    apply List.Exists_app. right.
    remember (Z.to_nat (n - (timeshift - (i + 1))) - List.length pre)%nat as k eqn:Hkdef.
    destruct k as [|[|k]]; [lia | lia |]. simpl.
    apply Exists_cons_tl. apply Exists_cons_hd.
    now inversion Hpost.
  - exact Hcount.
  - lia.
Qed.

Lemma get_bars_negative_end_row_witness :
  exists bars,
    Data.get_bars three_bar_series 10 1 Minute 2 = Ok bars /\
    0 + 1 - 2 < 0 /\
    bars_index bars = py_slice [10; 20; 30] 0 (0 + 1 - 2) /\
    bars_index bars = firstn (Z.to_nat (3 - (2 - (0 + 1)))) [10; 20; 30] /\
    (2 < 3 ->
     bars_index bars <> [] /\
     Exists (fun t => 10 < t) (bars_index bars) /\
     Z.of_nat (List.length (bars_index bars)) = 3 + 0 + 1 - 2 /\
     (1 < 3 + 0 + 1 - 2 -> 1 < Z.of_nat (List.length (bars_index bars)))).
Proof.
  apply (get_bars_negative_end_row PyNone SPY three_bars BNone BNone (PyTimestep Day)
           PyNone three_bar_series 10 0 1 2 Minute).
  - exact three_bars_valid.
  - exact three_bars_init.
  - lia.
  - reflexivity.
  - lia.
  - lia.
Defined.

(** C2.  The window at the input where the statement fails: on the three-bar
    series, at the first timestamp with [length = 1] and [timeshift = 2], the
    end row is [-1]; the rows returned are [0, 2) and not the empty range
    [0, -1), so the window has two rows, more than [length], and its second
    row is later than the timestamp asked for. *)
Theorem get_bars_timeshift_past_first_row :
  Data.get_bars three_bar_series 10 1 Minute 2 =
  Ok {| bars_index := [10; 20]; bars_columns := [("close", [101; 102])] |}.
Proof. reflexivity. Qed.

(** Within the series, that is for [0 <= timeshift <= i + 1], the window is
    the rows [start_row, end_row) of every dataline, and it is shorter than
    [length] exactly when the start row was clamped. *)
Lemma get_bars_rows_in_range (self : Data.t) (ts i length timeshift : Z) (tstep : Timestep)
      (ix : list Z) :
  Data.shadowed self "get_bars" = false ->
  Data.shadowed self "datalines" = false ->
  Data.get_iter_count self ts = Ok (LScalar i) ->
  dict_get "datetime" (Data.datalines self) = Some ix ->
  i < Z.of_nat (List.length ix) ->
  1 <= length -> 0 <= timeshift <= i + 1 ->
  let end_row := i + 1 - timeshift in
  let start_row := Z.max 0 (end_row - length) in
  exists bars,
    Data.get_bars self ts length tstep timeshift = Ok bars /\
    bars_index bars =
      firstn (Z.to_nat (end_row - start_row)) (skipn (Z.to_nat start_row) ix) /\
    Z.of_nat (List.length (bars_index bars)) = end_row - start_row /\
    (end_row - length < 0 -> Z.of_nat (List.length (bars_index bars)) < length).
Proof.
  intros Hgb Hdls Hrow Hdl Hi Hlen Hshift end_row start_row.
  rewrite (get_bars_at_row _ _ _ length timeshift tstep _ Hgb Hdls Hrow Hdl).
  eexists. split; [reflexivity|]. simpl bars_index.
  fold end_row. fold start_row.
  rewrite py_slice_in_range by (unfold start_row, end_row; lia).
  assert (Hcount : Z.of_nat (List.length
             (firstn (Z.to_nat (end_row - start_row)) (skipn (Z.to_nat start_row) ix)))
           = end_row - start_row).
  { rewrite List.length_firstn, List.length_skipn. unfold start_row, end_row. lia. }
  split; [reflexivity|]. split; [exact Hcount|].
  intros Hclamp. rewrite Hcount. unfold start_row, end_row in *. lia.
Qed.

(** ** The call of the constructor in the refresh *)

Lemma bind_positional_error (params : list (string * option pyval)) (args : list pyval)
      (e : exn) :
  bind_positional params args = Raise e -> e = TypeError.
Proof.
  revert params. induction args as [|v args IH]; intros params; simpl; [discriminate|].
  destruct params as [|[name default] params]; [now intros [= <-]|].
  destruct (bind_positional params args) as [bound|e'] eqn:Hb; simpl; [discriminate|].
  intros [= <-]. now apply (IH params).
Qed.

Lemma bind_keywords_unknown (names : list string) (keywords : list (string * pyval))
      (bound : list (string * pyval)) (k : string) :
  mem_string k names = false ->
  In k (map fst keywords) ->
  bind_keywords names bound keywords = Raise TypeError.
Proof.
  intros Hk. revert bound. induction keywords as [|[k0 v0] keywords IH]; intros bound;
    simpl; [tauto|].
  intros Hin.
  destruct (mem_string k0 names) eqn:Hk0; simpl; [|reflexivity].
  destruct (mem_string k0 (map fst bound)); [reflexivity|].
  apply IH. destruct Hin as [->|Hin]; [congruence | exact Hin].
Qed.

(** A call of the constructor that passes a [quote] keyword is a [TypeError]
    whatever the arguments are: the class has no such parameter. *)
Lemma new_with_quote (positional : list pyval) (keywords : list (string * pyval)) :
  In "quote" (map fst keywords) ->
  Data.new positional keywords = Raise TypeError.
Proof.
  intros Hin. unfold Data.new, bind_arguments.
  destruct (bind_positional Data.parameters positional) as [bound|e] eqn:Hb; cbn [rbind].
  - rewrite (bind_keywords_unknown _ _ _ "quote"); [reflexivity | reflexivity | exact Hin].
  - now rewrite (bind_positional_error _ _ _ Hb).
Qed.

(** ** The sufficiency policy *)

Lemma update_pandas_data_eq (array_is : list Z -> Timestep -> res bool)
      (gp : FetchRequest -> res (option DataFrame))
      (self : ThetaDataBacktesting.t) (asset : asset_arg) (quote : option Asset)
      (length : Z) (timestep : Timestep) (start_dt : option Z) :
  update_pandas_data array_is gp self asset quote length timestep start_dt =
  match planned_request array_is self asset quote length timestep start_dt with
  | Raise e => (Raise e, self)
  | Ok None => (Ok None, self)
  | Ok (Some r) => complete_fetch gp (record_fetch self r) r
  end.
Proof.
  unfold update_pandas_data, planned_request, complete_fetch.
  destruct (split_asset asset quote) as [a q] eqn:Hkey. simpl.
  destruct (pandas_data self !! (a, q)) as [entry|]; simpl; [|reflexivity].
  destruct (check_entry array_is entry timestep _) as [[u|]|e]; reflexivity.
Qed.

(** Once the request is sent: an error of the provider is wrapped and logged,
    no data is no update, and a table is a [TypeError] at the call of the
    constructor. *)
Lemma complete_fetch_cases (gp : FetchRequest -> res (option DataFrame))
      (self : ThetaDataBacktesting.t) (r : FetchRequest) :
  complete_fetch gp self r =
  match gp r with
  | Raise e =>
      (Raise (Exception "Error getting data from ThetaData" e),
       logging_info self (LogTraceback e))
  | Ok None => (Ok None, self)
  | Ok (Some _) => (Raise TypeError, self)
  end.
Proof.
  unfold complete_fetch. destruct (gp r) as [[fetched|]|e]; [|reflexivity|reflexivity].
  rewrite new_with_quote; [reflexivity|]. simpl. tauto.
Qed.

Lemma complete_fetch_fetches (gp : FetchRequest -> res (option DataFrame))
      (self : ThetaDataBacktesting.t) (r : FetchRequest) :
  fetches (snd (complete_fetch gp self r)) = fetches self /\
  pandas_data (snd (complete_fetch gp self r)) = pandas_data self /\
  datetime (snd (complete_fetch gp self r)) = datetime self.
Proof.
  rewrite complete_fetch_cases. destruct (gp r) as [[fetched|]|e]; simpl; auto.
Qed.

(** One call sends no request or one, and says which. *)
Lemma update_fetches (array_is : list Z -> Timestep -> res bool)
      (gp : FetchRequest -> res (option DataFrame))
      (self : ThetaDataBacktesting.t) (asset : asset_arg) (quote : option Asset)
      (length : Z) (timestep : Timestep) (start_dt : option Z) :
  fetches (snd (update_pandas_data array_is gp self asset quote length timestep start_dt)) =
  fetches self ++
  match planned_request array_is self asset quote length timestep start_dt with
  | Ok (Some r) => [r]
  | _ => []
  end.
Proof.
  rewrite update_pandas_data_eq.
  destruct (planned_request array_is self asset quote length timestep start_dt)
    as [[r|]|e]; simpl.
  - destruct (complete_fetch_fetches gp (record_fetch self r) r) as (-> & _). reflexivity.
  - now rewrite List.app_nil_r.
  - now rewrite List.app_nil_r.
Qed.

Lemma app_one_neq {A} (l : list A) (x : A) : l ++ [x] <> l.
Proof.
  intros H. apply (f_equal (@List.length A)) in H.
  rewrite List.length_app in H. simpl in H. lia.
Qed.

Lemma planned_of_fetches (array_is : list Z -> Timestep -> res bool)
      (gp : FetchRequest -> res (option DataFrame))
      (self : ThetaDataBacktesting.t) (asset : asset_arg) (quote : option Asset)
      (length : Z) (timestep : Timestep) (start_dt : option Z) (r : FetchRequest) :
  fetches (snd (update_pandas_data array_is gp self asset quote length timestep start_dt))
  = fetches self ++ [r] ->
  planned_request array_is self asset quote length timestep start_dt = Ok (Some r).
Proof.
  rewrite update_fetches. intros H. apply List.app_inv_head in H.
  destruct (planned_request array_is self asset quote length timestep start_dt)
    as [[r'|]|e]; try discriminate.
  now injection H as ->.
Qed.

(** The policy on an entry that has no array called timestep, which is every
    entry the constructor makes of a table with no such column: reading the
    resolution of the entry is an [AttributeError], unless the frame is in its
    place and has no row, which is an [IndexError] before that. *)
Lemma check_entry_no_timestep (array_is : list Z -> Timestep -> res bool)
      (entry : Data.t) (ts_unit : Timestep) (start_datetime : Z) :
  dict_get "timestep" (Data.arrays entry) = None ->
  check_entry array_is entry ts_unit start_datetime =
  if Data.shadowed entry "df" then Raise AttributeError
  else match idx_values (df_index (Data.df entry)) with
       | [] => Raise IndexError
       | _ :: _ => Raise AttributeError
       end.
Proof.
  intros Hts. unfold check_entry, Data.first_label. rewrite Hts.
  destruct (Data.shadowed entry "df"); [reflexivity|].
  destruct (idx_values (df_index (Data.df entry))); reflexivity.
Qed.

(** C3.  The policy at an input where the statement fails.  On day 100 the
    cache holds for SPY the series the constructor makes, with the resolution
    day, of bars that start on day 91; five day bars are asked, so the
    required start is day 90 and the series starts one day after it, less
    than the buffer.  [update_pandas_data] does not answer that the cache is
    enough: reading the resolution of the series is an [AttributeError], and
    nothing is sent to the provider. *)
Theorem same_resolution_entry_raises (array_is : list Z -> Timestep -> res bool)
        (gp : FetchRequest -> res (option DataFrame)) :
  Data.__init__ PyNone SPY (bars_from_day 91) BNone BNone (PyTimestep Day) PyNone
  = Ok series_from_day_91 /\
  pandas_data cached_backtest !! split_asset (AssetOf SPY) None = Some series_from_day_91 /\
  fst (get_start_datetime_and_ts_unit cached_backtest 5 Day None START_BUFFER)
  = timedelta_days 90 /\
  timedelta_days 91 - timedelta_days 90 < timedelta_days 5 /\
  update_pandas_data array_is gp cached_backtest (AssetOf SPY) None 5 Day None
  = (Raise AttributeError, cached_backtest).
Proof.
  assert (Hentry : pandas_data cached_backtest !! split_asset (AssetOf SPY) None
                   = Some series_from_day_91) by (vm_compute; reflexivity).
  split; [vm_compute; reflexivity|]. split; [exact Hentry|].
  split; [vm_compute; reflexivity|]. split; [vm_compute; reflexivity|].
  rewrite update_pandas_data_eq. unfold planned_request. cbv zeta. rewrite Hentry.
  rewrite check_entry_no_timestep by reflexivity. reflexivity.
Qed.

(** C4.  The policy at an input where the statement fails.  The cache holds
    for SPY the series the constructor makes, with the resolution minute, of
    the bars that start on day 91, and day bars are asked, from whatever start.
    [update_pandas_data] neither answers that the cache is enough nor sends a
    request for minute bars: it raises an [AttributeError] and sends
    nothing. *)
Theorem day_request_on_minute_entry_raises (array_is : list Z -> Timestep -> res bool)
        (gp : FetchRequest -> res (option DataFrame)) (length : Z) (start_dt : option Z) :
  Data.__init__ PyNone SPY (bars_from_day 91) BNone BNone (PyTimestep Minute) PyNone
  = Ok series_from_day_91 /\
  pandas_data cached_backtest !! split_asset (AssetOf SPY) None = Some series_from_day_91 /\
  update_pandas_data array_is gp cached_backtest (AssetOf SPY) None length Day start_dt
  = (Raise AttributeError, cached_backtest) /\
  fetches (snd (update_pandas_data array_is gp cached_backtest (AssetOf SPY) None
                                   length Day start_dt)) = [].
Proof.
  assert (Hentry : pandas_data cached_backtest !! split_asset (AssetOf SPY) None
                   = Some series_from_day_91) by (vm_compute; reflexivity).
  assert (Hup : update_pandas_data array_is gp cached_backtest (AssetOf SPY) None
                                   length Day start_dt
                = (Raise AttributeError, cached_backtest)).
  { rewrite update_pandas_data_eq. unfold planned_request. cbv zeta. rewrite Hentry.
    rewrite check_entry_no_timestep by reflexivity. reflexivity. }
  split; [vm_compute; reflexivity|]. split; [exact Hentry|].
  split; [exact Hup|]. rewrite Hup. reflexivity.
Qed.

(** ** Refresh *)

Lemma planned_request_fields (array_is : list Z -> Timestep -> res bool)
      (self : ThetaDataBacktesting.t) (asset : asset_arg)
      (quote : option Asset) (length : Z) (timestep : Timestep) (start_dt : option Z)
      (r : FetchRequest) :
  planned_request array_is self asset quote length timestep start_dt = Ok (Some r) ->
  (fr_asset r, fr_quote r) = split_asset asset quote /\
  fr_start r = fst (get_start_datetime_and_ts_unit self length timestep start_dt START_BUFFER).
Proof.
  unfold planned_request. cbv zeta.
  destruct (match pandas_data self !! split_asset asset quote with
            | Some _ => _ | None => _ end) as [[u|]|e]; simpl; try discriminate.
  intros H. injection H as <-. simpl.
  destruct (split_asset asset quote); auto.
Qed.

(** [update_pandas_data] never returns an update: the one place that would
    build it is the call of the constructor. *)
Lemma update_never_builds (array_is : list Z -> Timestep -> res bool)
      (gp : FetchRequest -> res (option DataFrame))
      (self : ThetaDataBacktesting.t) (asset : asset_arg) (quote : option Asset)
      (length : Z) (timestep : Timestep) (start_dt : option Z) :
  fst (update_pandas_data array_is gp self asset quote length timestep start_dt) = Ok None \/
  exists e,
    fst (update_pandas_data array_is gp self asset quote length timestep start_dt) = Raise e.
Proof.
  rewrite update_pandas_data_eq.
  destruct (planned_request array_is self asset quote length timestep start_dt)
    as [[r|]|e]; simpl; eauto.
  rewrite complete_fetch_cases. destruct (gp r) as [[fetched|]|e]; simpl; eauto.
Qed.

Lemma update_keeps_cache (array_is : list Z -> Timestep -> res bool)
      (gp : FetchRequest -> res (option DataFrame))
      (self : ThetaDataBacktesting.t) (asset : asset_arg) (quote : option Asset)
      (length : Z) (timestep : Timestep) (start_dt : option Z) :
  let s := snd (update_pandas_data array_is gp self asset quote length timestep start_dt) in
  pandas_data s = pandas_data self /\ _data_store s = _data_store self /\
  datetime s = datetime self /\ datetime_end s = datetime_end self /\
  _username s = _username self /\ _password s = _password self.
Proof.
  cbv zeta. rewrite update_pandas_data_eq.
  destruct (planned_request array_is self asset quote length timestep start_dt)
    as [[r|]|e]; simpl; auto 10.
  rewrite complete_fetch_cases. destruct (gp r) as [[fetched|]|e]; simpl; auto 10.
Qed.

(** C5.  The refresh at an input where the statement fails.  Nothing is
    cached, five day bars of SPY are asked on day 100 and the provider answers
    with bars that start on day 91.  No series is made of them: the call of
    the constructor is a [TypeError], which the bar-window request raises,
    and the cache is as empty as before. *)
Theorem refresh_builds_no_series (array_is : list Z -> Timestep -> res bool) :
  early_provider five_days_request = Ok (Some (bars_from_day 91)) /\
  Data.new [PyAsset SPY; PyFrame (bars_from_day 91)]
           [("timestep", PyTimestep Day); ("quote", PyAsset USD)] = Raise TypeError /\
  _pull_source_symbol_bars array_is early_provider empty_backtest (AssetOf SPY)
                           5 Day None None
  = (Raise TypeError, record_fetch empty_backtest five_days_request) /\
  pandas_data (record_fetch empty_backtest five_days_request) = ∅.
Proof.
  split; [reflexivity|]. split; [reflexivity|]. split; [|reflexivity].
  unfold _pull_source_symbol_bars. rewrite update_pandas_data_eq.
  replace (planned_request array_is empty_backtest (AssetOf SPY) None 5 Day None)
    with (Ok (Some five_days_request)) by (vm_compute; reflexivity).
  rewrite complete_fetch_cases. reflexivity.
Qed.

(** ** Asking twice *)

(** What the policy plans depends on the cache, the clock, the end of the run
    and the credentials only. *)
Lemma planned_request_same (array_is : list Z -> Timestep -> res bool)
      (s s' : ThetaDataBacktesting.t) (asset : asset_arg) (quote : option Asset)
      (length : Z) (timestep : Timestep) (start_dt : option Z) :
  pandas_data s = pandas_data s' -> datetime s = datetime s' ->
  datetime_end s = datetime_end s' ->
  _username s = _username s' -> _password s = _password s' ->
  planned_request array_is s asset quote length timestep start_dt
  = planned_request array_is s' asset quote length timestep start_dt.
Proof.
  intros H1 H2 H3 H4 H5.
  unfold planned_request, get_start_datetime_and_ts_unit, get_datetime.
  now rewrite H1, H2, H3, H4, H5.
Qed.

Lemma fst_complete_fetch (gp : FetchRequest -> res (option DataFrame))
      (s s' : ThetaDataBacktesting.t) (r : FetchRequest) :
  fst (complete_fetch gp s r) = fst (complete_fetch gp s' r).
Proof. rewrite !complete_fetch_cases. destruct (gp r) as [[fetched|]|e]; reflexivity. Qed.

Lemma super_pull_same (s s' : ThetaDataBacktesting.t) (asset : asset_arg) (length : Z)
      (timestep : Timestep) (timeshift : option Z) (quote : option Asset) :
  pandas_data s = pandas_data s' -> datetime s = datetime s' ->
  super_pull_source_symbol_bars s asset length timestep timeshift quote
  = super_pull_source_symbol_bars s' asset length timestep timeshift quote.
Proof.
  intros H1 H2. unfold super_pull_source_symbol_bars, get_datetime. now rewrite H1, H2.
Qed.

(** A bar-window request, since no update is ever built: the error of
    [update_pandas_data], or the window read from the cache as it was. *)
Lemma pull_eq (array_is : list Z -> Timestep -> res bool)
      (gp : FetchRequest -> res (option DataFrame))
      (self : ThetaDataBacktesting.t) (asset : asset_arg) (length : Z)
      (timestep : Timestep) (timeshift : option Z) (quote : option Asset) :
  _pull_source_symbol_bars array_is gp self asset length timestep timeshift quote =
  (match fst (update_pandas_data array_is gp self asset quote length timestep None) with
   | Raise e => Raise e
   | Ok _ => super_pull_source_symbol_bars self asset length timestep timeshift quote
   end,
   snd (update_pandas_data array_is gp self asset quote length timestep None)).
Proof.
  unfold _pull_source_symbol_bars.
  pose proof (update_never_builds array_is gp self asset quote length timestep None) as Hnb.
  pose proof (update_keeps_cache array_is gp self asset quote length timestep None) as Hk.
  cbv zeta in Hk.
  destruct (update_pandas_data array_is gp self asset quote length timestep None)
    as [[[upd|]|e] s]; simpl in *.
  - destruct Hnb as [H|[e H]]; discriminate H.
  - f_equal. apply super_pull_same; tauto.
  - reflexivity.
Qed.

(** C6, as amended.  A bar-window request asked twice gives the same answer
    twice; each of the two sends at most one request to the provider, and the
    second sends none when the first sent none.  A request that the provider
    answers with no data, or with an error, leaves nothing in the cache, and
    the second asks it again. *)
Theorem get_bars_twice_one_fetch (array_is : list Z -> Timestep -> res bool)
        (gp : FetchRequest -> res (option DataFrame))
        (self : ThetaDataBacktesting.t) (asset : asset_arg) (length : Z)
        (timestep : Timestep) (timeshift : option Z) (quote : option Asset) :
  let out1 :=
    _pull_source_symbol_bars array_is gp self asset length timestep timeshift quote in
  let out2 :=
    _pull_source_symbol_bars array_is gp (snd out1) asset length timestep timeshift quote in
  fst out2 = fst out1 /\
  (List.length (fetches (snd out1)) <= List.length (fetches self) + 1)%nat /\
  (List.length (fetches (snd out2)) <= List.length (fetches (snd out1)) + 1)%nat /\
  (fetches (snd out1) = fetches self -> fetches (snd out2) = fetches self) /\
  (forall r, fetches (snd out1) = fetches self ++ [r] ->
             gp r = Ok None \/ (exists e, gp r = Raise e) ->
             fetches (snd out2) = fetches self ++ [r; r]).
Proof.
  cbv zeta. rewrite !pull_eq. cbn [fst snd].
  set (s1 := snd (update_pandas_data array_is gp self asset quote length timestep None)).
  pose proof (update_keeps_cache array_is gp self asset quote length timestep None) as Hk.
  cbv zeta in Hk. fold s1 in Hk. destruct Hk as (Hpd & _ & Hdt & Hde & Hu & Hp).
  assert (Hplan : planned_request array_is s1 asset quote length timestep None
                  = planned_request array_is self asset quote length timestep None)
    by (now apply planned_request_same).
  assert (Hfst : fst (update_pandas_data array_is gp s1 asset quote length timestep None)
                 = fst (update_pandas_data array_is gp self asset quote length timestep None)).
  { rewrite !update_pandas_data_eq, Hplan.
    destruct (planned_request array_is self asset quote length timestep None)
      as [[r|]|e]; try reflexivity.
    apply fst_complete_fetch. }
  assert (Hf1 : fetches s1 = fetches self ++
                match planned_request array_is self asset quote length timestep None with
                | Ok (Some r) => [r]
                | _ => []
                end) by (unfold s1; apply update_fetches).
  assert (Hf2 : fetches (snd (update_pandas_data array_is gp s1 asset quote length
                                                 timestep None))
                = fetches s1 ++
                  match planned_request array_is self asset quote length timestep None with
                  | Ok (Some r) => [r]
                  | _ => []
                  end) by (rewrite update_fetches, Hplan; reflexivity).
  split.
  { rewrite Hfst.
    destruct (fst (update_pandas_data array_is gp self asset quote length timestep None));
      [|reflexivity].
    now apply super_pull_same. }
  rewrite Hf2, Hf1.
  destruct (planned_request array_is self asset quote length timestep None) as [[r|]|e];
    rewrite ?List.app_nil_r, ?List.length_app; simpl.
  - split; [lia|]. split; [lia|]. split.
    + intros H. exfalso. exact (app_one_neq _ _ H).
    + intros r' H _. apply List.app_inv_head in H. injection H as <-.
      now rewrite <- List.app_assoc.
  - split; [lia|]. split; [lia|]. split; [reflexivity|].
    intros r' H. exfalso. symmetry in H. exact (app_one_neq _ _ H).
  - split; [lia|]. split; [lia|]. split; [reflexivity|].
    intros r' H. exfalso. symmetry in H. exact (app_one_neq _ _ H).
Qed.

Lemma get_bars_twice_one_fetch_witness :
  let out1 :=
    _pull_source_symbol_bars never_equal silent_provider empty_backtest (AssetOf SPY)
                             5 Day None None in
  let out2 :=
    _pull_source_symbol_bars never_equal silent_provider (snd out1) (AssetOf SPY)
                             5 Day None None in
  fst out2 = fst out1 /\
  fetches (snd out2) = fetches empty_backtest ++ [five_days_request; five_days_request].
Proof.
  cbv zeta.
  pose proof (get_bars_twice_one_fetch never_equal silent_provider empty_backtest
                (AssetOf SPY) 5 Day None None) as H.
  cbv zeta in H. destruct H as (Hsame & _ & _ & _ & Hagain).
  split; [exact Hsame|].
  apply (Hagain five_days_request); [vm_compute; reflexivity | left; reflexivity].
Defined.

(** C6, the statement as it stands, on a provider that has no data: five day
    bars of SPY are asked on day 100 with nothing cached, the provider answers
    that it has none, nothing is cached, and the second request goes to the
    provider again.  The two answers are the same, and two requests were
    sent. *)
Lemma asked_twice_fetches_twice :
  ~ asked_twice_fetches_once never_equal silent_provider empty_backtest (AssetOf SPY)
      5 Day None None.
Proof.
  unfold asked_twice_fetches_once. cbv zeta. intros [_ H].
  vm_compute in H. lia.
Qed.

(** ** Provider errors *)

(** C8, as amended.  When the provider raises on the request of a bar-window
    request, the caller gets an [Exception] whose message is the fixed text
    "Error getting data from ThetaData" and whose cause is the provider's
    error; the traceback is logged and the cache is left as it was. *)
Theorem provider_error_is_wrapped (array_is : list Z -> Timestep -> res bool)
        (gp : FetchRequest -> res (option DataFrame))
        (self : ThetaDataBacktesting.t) (asset : asset_arg) (length : Z)
        (timestep : Timestep) (timeshift : option Z) (quote : option Asset)
        (r : FetchRequest) (e0 : exn) :
  fetches (snd (update_pandas_data array_is gp self asset quote length timestep None))
  = fetches self ++ [r] ->
  gp r = Raise e0 ->
  exists s,
    _pull_source_symbol_bars array_is gp self asset length timestep timeshift quote
    = (Raise (Exception "Error getting data from ThetaData" e0), s) /\
    pandas_data s = pandas_data self /\
    fetches s = fetches self ++ [r] /\
    info_log s = info_log self ++ [LogTraceback e0].
Proof.
  intros Hf Hgp. apply planned_of_fetches in Hf.
  unfold _pull_source_symbol_bars. rewrite update_pandas_data_eq, Hf.
  unfold complete_fetch. rewrite Hgp.
  eexists. split; [reflexivity|]. simpl. auto.
Qed.

Lemma provider_error_is_wrapped_witness :
  exists s,
    _pull_source_symbol_bars never_equal failing_provider empty_backtest (AssetOf SPY)
                             5 Day None None
    = (Raise (Exception "Error getting data from ThetaData" (ProviderError 503)), s) /\
    pandas_data s = pandas_data empty_backtest /\
    fetches s = fetches empty_backtest ++ [five_days_request] /\
    info_log s = info_log empty_backtest ++ [LogTraceback (ProviderError 503)].
Proof.
  apply (provider_error_is_wrapped never_equal failing_provider empty_backtest (AssetOf SPY)
           5 Day None None five_days_request (ProviderError 503)).
  - vm_compute. reflexivity.
  - reflexivity.
Defined.

(** C8, the statement as it stands: the provider being down, the requests for
    SPY and for QQQ raise the very same error, so nothing read off the error
    can tell which asset failed. *)
Lemma wrapped_error_names_no_asset : ~ exists asset_of, error_names_asset asset_of.
Proof.
  intros [asset_of H].
  pose (err := Exception "Error getting data from ThetaData" (ProviderError 503)).
  assert (H1 : asset_of err = mkAsset "SPY" "stock").
  { eapply (H never_equal failing_provider empty_backtest (mkAsset "SPY" "stock")
              5 Day None None).
    - vm_compute. reflexivity.
    - reflexivity.
    - vm_compute. reflexivity. }
  assert (H2 : asset_of err = mkAsset "QQQ" "stock").
  { eapply (H never_equal failing_provider empty_backtest (mkAsset "QQQ" "stock")
              5 Day None None).
    - vm_compute. reflexivity.
    - reflexivity.
    - vm_compute. reflexivity. }
  rewrite H1 in H2. discriminate H2.
Qed.

(** ** Last price *)

(** C9.  A last-price request always ends in the last-price lookup of the
    parent class and returns what that lookup returns; when the sufficiency
    and refresh path raises, whatever the error, the error is logged with the
    time and the asset, the cache maps are left as they were, and the lookup
    is made all the same. *)
Theorem get_last_price_falls_through (array_is : list Z -> Timestep -> res bool)
        (gp : FetchRequest -> res (option DataFrame))
        (sup : ThetaDataBacktesting.t -> asset_arg -> option Asset -> res (option cell_result))
        (self : ThetaDataBacktesting.t) (asset : asset_arg) (timestep : Timestep)
        (quote : option Asset) :
  exists self',
    get_last_price array_is gp sup self asset timestep quote
    = (sup self' asset quote, self') /\
    forall e s,
      update_pandas_data array_is gp self asset quote 1 timestep (Some (get_datetime self))
      = (Raise e, s) ->
      self' = logging_info s (LogLastPriceError e (get_datetime self) asset) /\
      info_log self' = info_log s ++ [LogLastPriceError e (get_datetime self) asset] /\
      pandas_data self' = pandas_data self /\
      _data_store self' = _data_store self.
Proof.
  unfold get_last_price.
  pose proof (update_keeps_cache array_is gp self asset quote 1 timestep
                (Some (get_datetime self))) as Hkeep. cbv zeta in Hkeep.
  destruct (update_pandas_data array_is gp self asset quote 1 timestep
              (Some (get_datetime self))) as [[[upd|]|e] s]; simpl in Hkeep.
  - eexists. split; [reflexivity|]. intros e' s' H. discriminate H.
  - eexists. split; [reflexivity|]. intros e' s' H. discriminate H.
  - eexists. split; [reflexivity|]. intros e' s' H. injection H as <- <-.
    simpl. tauto.
Qed.

(** ** The index invariant *)

Lemma perform_all_same (self : Data.t) (calls : list Data.call) :
  Data.perform_all self calls = self.
Proof.
  unfold Data.perform_all. induction calls as [|c calls IH]; simpl; [reflexivity|].
  destruct c; simpl; exact IH.
Qed.

(** C7, as amended.  For every table whose index is strictly increasing, the
    index of the series constructed from it is strictly increasing and
    timezone-aware, and it is still so, and the same, after any sequence of
    calls of the read operations. *)
Theorem index_increasing_and_aware (strategy : pyval) (a : Asset) (d : DataFrame)
        (ds de : bound_arg) (tstep cols : pyval) (self : Data.t)
        (calls : list Data.call) :
  strictly_increasing (idx_values (df_index d)) ->
  Data.__init__ strategy a d ds de tstep cols = Ok self ->
  strictly_increasing (idx_values (df_index (Data.df (Data.perform_all self calls)))) /\
  idx_tz (df_index (Data.df (Data.perform_all self calls))) = Some DEFAULT_PYTZ /\
  idx_values (df_index (Data.df (Data.perform_all self calls)))
  = idx_values (df_index (Data.df self)).
Proof.
  intros Hinc Hinit. rewrite perform_all_same.
  split; [exact (init_increasing _ _ _ _ _ _ _ _ Hinc Hinit)|].
  split; [|reflexivity].
  now destruct (init_inv _ _ _ _ _ _ _ _ Hinit) as (_ & Htz & _).
Qed.

(** ** The statements on the sample inputs *)

Lemma index_increasing_and_aware_witness :
  strictly_increasing
    (idx_values (df_index (Data.df (Data.perform_all three_bar_series
                                      [Data.GetBars 20 2 Minute 0; Data.LastPrice 30])))) /\
  idx_tz (df_index (Data.df (Data.perform_all three_bar_series
                               [Data.GetBars 20 2 Minute 0; Data.LastPrice 30])))
  = Some DEFAULT_PYTZ /\
  idx_values (df_index (Data.df (Data.perform_all three_bar_series
                                   [Data.GetBars 20 2 Minute 0; Data.LastPrice 30])))
  = idx_values (df_index (Data.df three_bar_series)).
Proof.
  apply (index_increasing_and_aware PyNone SPY three_bars BNone BNone (PyTimestep Day)
           PyNone three_bar_series).
  - exact (proj1 three_bars_valid).
  - exact three_bars_init.
Defined.

(** C1, the statement as it stands.  The constructor keeps the order of the
    timestamps it is given, and on the series it makes of a table whose
    timestamps are out of order the window of two rows at timestamp 12 holds
    the row of timestamp 15.  On the series made of the three bars and a
    column called datetime, the window at timestamp 20 is labelled by the
    cells of that column, 99 among them.  And with a column called get_bars,
    get_iter_count, iter_index or datalines in the table, the window at a
    label of the series raises. *)
Lemma window_looks_ahead_or_raises :
  (exists self bars,
      Data.__init__ PyNone SPY shuffled_bars BNone BNone (PyTimestep Day) PyNone = Ok self /\
      In 12 (idx_values (df_index (Data.df self))) /\
      Data.window self 12 2 = Ok bars /\
      bars_index bars = [15; 12] /\
      ~ Forall (fun t => t <= 12) (bars_index bars)) /\
  (exists self bars,
      Data.__init__ PyNone SPY (three_bars_and "datetime" [7; 99; 8]) BNone BNone
                    (PyTimestep Day) PyNone = Ok self /\
      In 20 (idx_values (df_index (Data.df self))) /\
      Data.window self 20 2 = Ok bars /\
      bars_index bars = [7; 99] /\
      ~ Forall (fun t => t <= 20) (bars_index bars)) /\
  get_bars_raises_with_column "get_bars" 20 2 0 TypeError /\
  get_bars_raises_with_column "get_iter_count" 20 2 0 TypeError /\
  get_bars_raises_with_column "iter_index" 20 2 0 IndexError /\
  get_bars_raises_with_column "datalines" 20 2 0 AttributeError.
Proof.
  split; [|split].
  - eexists. eexists.
    split; [reflexivity|]. split; [simpl; tauto|].
    split; [reflexivity|]. split; [reflexivity|].
    simpl. intros H. inversion H. lia.
  - eexists. eexists.
    split; [reflexivity|]. split; [simpl; tauto|].
    split; [reflexivity|]. split; [reflexivity|].
    simpl. intros H. inversion H as [|? ? _ H']. inversion H'. lia.
  - repeat split; eexists; (split; [reflexivity|]); (split; [simpl; tauto | reflexivity]).
Qed.

(** C7, the statement as it stands: the constructor accepts a table with a
    repeated timestamp and a table with timestamps out of order, and the
    index of the series is that of the table, not strictly increasing. *)
Lemma construction_keeps_disorder :
  (exists self,
      Data.__init__ PyNone SPY repeated_bars BNone BNone (PyTimestep Day) PyNone = Ok self /\
      idx_values (df_index (Data.df self)) = [10; 10] /\
      ~ strictly_increasing (idx_values (df_index (Data.df self)))) /\
  (exists self,
      Data.__init__ PyNone SPY shuffled_bars BNone BNone (PyTimestep Day) PyNone = Ok self /\
      idx_values (df_index (Data.df self)) = [10; 15; 12; 20] /\
      ~ strictly_increasing (idx_values (df_index (Data.df self)))).
Proof.
  split; eexists; (split; [reflexivity|]); (split; [reflexivity|]);
    unfold strictly_increasing; simpl; intros H.
  - inversion H as [|? ? _ Hall]. inversion Hall. lia.
  - inversion H as [|? ? Htail _]. inversion Htail as [|? ? _ Hall].
    inversion Hall. lia.
Qed.

(** C10, the statement as it stands.  On the series made of a table whose
    timestamps are out of order, with the timestamp 14 at row 1 of 5,
    [length = 1] and [timeshift = 3], the window is the first four rows and
    none of them is later than 14.  On the series made of the three bars and
    a column called datetime, the window at the first timestamp with
    [timeshift = 2] is labelled by the cells of that column, none of them
    later than the timestamp.  And with a column called get_bars,
    get_iter_count, iter_index or datalines in the table, no window is
    returned. *)
Lemma wrapped_window_misses_or_raises :
  (exists self bars,
      Data.__init__ PyNone SPY zigzag_bars BNone BNone (PyTimestep Day) PyNone = Ok self /\
      nth_error (idx_values (df_index (Data.df self))) 1 = Some 14 /\
      Data.get_bars self 14 1 Minute 3 = Ok bars /\
      bars_index bars = [10; 14; 12; 13] /\
      ~ Exists (fun t => 14 < t) (bars_index bars)) /\
  (exists self bars,
      Data.__init__ PyNone SPY (three_bars_and "datetime" [1; 2; 3]) BNone BNone
                    (PyTimestep Day) PyNone = Ok self /\
      nth_error (idx_values (df_index (Data.df self))) 0 = Some 10 /\
      Data.get_bars self 10 1 Minute 2 = Ok bars /\
      bars_index bars = [1; 2] /\
      ~ Exists (fun t => 10 < t) (bars_index bars)) /\
  get_bars_raises_with_column "get_bars" 10 1 2 TypeError /\
  get_bars_raises_with_column "get_iter_count" 10 1 2 TypeError /\
  get_bars_raises_with_column "iter_index" 10 1 2 IndexError /\
  get_bars_raises_with_column "datalines" 10 1 2 AttributeError.
Proof.
  split; [|split].
  - eexists. eexists.
    split; [reflexivity|]. split; [reflexivity|].
    split; [reflexivity|]. split; [reflexivity|].
    simpl. rewrite List.Exists_exists. intros [t [Hin Ht]].
    simpl in Hin. destruct Hin as [<-|[<-|[<-|[<-|[]]]]]; lia.
  - eexists. eexists.
    split; [reflexivity|]. split; [reflexivity|].
    split; [reflexivity|]. split; [reflexivity|].
    simpl. rewrite List.Exists_exists. intros [t [Hin Ht]].
    simpl in Hin. destruct Hin as [<-|[<-|[]]]; lia.
  - repeat split; eexists; (split; [reflexivity|]); (split; [simpl; tauto | reflexivity]).
Qed.

(** * Further properties of the [Data] entity *)

(** ** Label slices of a sorted index *)

Lemma monotonic_sorted (l : list Z) : is_monotonic_increasing l = true -> sorted l.
Proof.
  unfold sorted. induction l as [|x l IH]; [constructor|].
  destruct l as [|y l]; [intros _; repeat constructor|].
  intros H. cbn [is_monotonic_increasing] in H.
  apply andb_prop in H. destruct H as [Hxy Hl]. apply Z.leb_le in Hxy.
  specialize (IH Hl). constructor; [exact IH|].
  inversion IH as [|? ? _ Hy]; subst.
  constructor; [exact Hxy|].
  eapply List.Forall_impl; [|exact Hy]. simpl. intros; lia.
Qed.

Lemma count_le_split (x : Z) (l : list Z) :
  List.length (List.filter (fun t => t <=? x) l)
  = Nat.add (List.length (List.filter (fun t => t <? x) l))
            (List.length (List.filter (Z.eqb x) l)).
Proof.
  induction l as [|a l IH]; simpl; [reflexivity|].
  destruct (Z.leb_spec a x), (Z.ltb_spec a x), (Z.eqb_spec x a); simpl; lia.
Qed.

Lemma filter_absent (x : Z) (l : list Z) : ~ In x l -> List.filter (Z.eqb x) l = [].
Proof.
  intros Hn. apply filter_none. apply List.Forall_forall. intros t Ht.
  destruct (Z.eqb_spec x t); [subst; contradiction | reflexivity].
Qed.

(** On a sorted index the first row of a label comes after the rows of the
    smaller labels. *)
Lemma first_position_sorted (x : Z) (l : list Z) :
  sorted l -> In x l ->
  first_position x l = List.length (List.filter (fun t => t <? x) l).
Proof.
  unfold sorted. induction 1 as [|a l Hl IH Ha]; simpl; [tauto|].
  intros Hin. destruct (Z.eqb_spec a x) as [->|Hne].
  - destruct (Z.ltb_spec x x); [lia|].
    rewrite filter_none; [reflexivity|].
    eapply List.Forall_impl; [|exact Ha]. simpl. intros t Ht.
    destruct (Z.ltb_spec t x); [lia | reflexivity].
  - destruct Hin as [Heq|Hin]; [congruence|].
    rewrite List.Forall_forall in Ha. specialize (Ha _ Hin).
    destruct (Z.ltb_spec a x); [|lia]. simpl. now rewrite IH.
Qed.

Lemma run_prefix (x : Z) (l : list Z) :
  sorted l -> Forall (fun t => x <= t) l ->
  forallb (Z.eqb x) (firstn (List.length (List.filter (Z.eqb x) l)) l) = true.
Proof.
  unfold sorted. induction 1 as [|a l Hl IH Ha]; simpl; [reflexivity|].
  intros Hx. inversion Hx as [|? ? Hxa Hxl]; subst.
  destruct (Z.eqb_spec x a) as [->|Hne]; simpl.
  - rewrite Z.eqb_refl. simpl. now apply IH.
  - rewrite filter_none; [reflexivity|].
    eapply List.Forall_impl; [|exact Ha]. simpl. intros t Ht.
    destruct (Z.eqb_spec x t); [lia | reflexivity].
Qed.

(** On a sorted index the rows of a label are next to each other. *)
Lemma run_sorted (x : Z) (l : list Z) :
  sorted l ->
  forallb (Z.eqb x)
          (firstn (List.length (List.filter (Z.eqb x) l)) (skipn (first_position x l) l))
  = true.
Proof.
  unfold sorted. induction 1 as [|a l Hl IH Ha]; simpl; [reflexivity|].
  destruct (Z.eqb_spec a x) as [->|Hne].
  - rewrite Z.eqb_refl. simpl. rewrite Z.eqb_refl. simpl.
    apply run_prefix; assumption.
  - destruct (Z.eqb_spec x a); [congruence|]. simpl. exact IH.
Qed.

(** On a sorted index a label slice starts after the labels smaller than the
    start and stops after the labels up to the end, whether the bounds are
    labels of the index or not. *)
Lemma get_slice_bound_sorted (l : list Z) (x : Z) :
  is_monotonic_increasing l = true ->
  get_slice_bound l x true = Ok (count_labels (fun t => t <? x) l) /\
  get_slice_bound l x false = Ok (count_labels (fun t => t <=? x) l).
Proof.
  intros Hm. pose proof (monotonic_sorted _ Hm) as Hs.
  unfold get_slice_bound. rewrite Hm.
  destruct (List.filter (Z.eqb x) l) as [|y r] eqn:Hf; cbn [List.length].
  - split; reflexivity.
  - assert (Hin : In x l).
    { assert (Hy : In y (List.filter (Z.eqb x) l)) by (rewrite Hf; now left).
      apply List.filter_In in Hy. destruct Hy as [Hy Heq].
      apply Z.eqb_eq in Heq. now subst. }
    pose proof (run_sorted x l Hs) as Hrun. rewrite Hf in Hrun. cbn [List.length] in Hrun.
    rewrite Hrun. rewrite (first_position_sorted x l Hs Hin).
    unfold count_labels. rewrite count_le_split, Hf. cbn [List.length].
    split; reflexivity.
Qed.

Lemma count_labels_range (f : Z -> bool) (l : list Z) :
  0 <= count_labels f l <= Z.of_nat (List.length l).
Proof.
  unfold count_labels. pose proof (List.filter_length_le f l). lia.
Qed.

Lemma prefix_sorted (e : Z) (l : list Z) :
  sorted l ->
  firstn (List.length (List.filter (fun t => t <=? e) l)) l
  = List.filter (fun t => t <=? e) l.
Proof.
  unfold sorted. induction 1 as [|a l Hl IH Ha]; simpl; [reflexivity|].
  destruct (Z.leb_spec a e); simpl.
  - now rewrite IH.
  - rewrite filter_none; [reflexivity|].
    eapply List.Forall_impl; [|exact Ha]. simpl. intros t Ht.
    destruct (Z.leb_spec t e); [lia | reflexivity].
Qed.

(** The rows between the two positions are the labels between the two
    bounds. *)
Lemma sorted_slice_filter (s e : Z) (l : list Z) :
  sorted l ->
  py_slice l (count_labels (fun t => t <? s) l) (count_labels (fun t => t <=? e) l)
  = List.filter (fun t => (s <=? t) && (t <=? e)) l.
Proof.
  intros Hs. unfold py_slice.
  rewrite !slice_bound_in_range by apply count_labels_range.
  unfold count_labels. rewrite Nat2Z.id.
  revert Hs. unfold sorted. induction 1 as [|a l Hl IH Ha]; [reflexivity|].
  cbn [List.filter].
  destruct (Z.ltb_spec a s) as [Has|Has].
  - destruct (Z.leb_spec s a); [lia|]. cbn [andb List.length skipn].
    destruct (Z.leb_spec a e) as [Hae|Hae]; cbn [List.length].
    + rewrite <- IH. f_equal. lia.
    + rewrite (filter_none (fun t => t <=? e)).
      * rewrite (filter_none (fun t => (s <=? t) && (t <=? e))).
        -- cbn [List.length].
           replace (Z.to_nat (Z.of_nat 0
                              - Z.of_nat (S (List.length (List.filter (fun t => t <? s) l)))))
             with 0%nat by lia.
           reflexivity.
        -- apply List.Forall_forall. intros t _.
           destruct (Z.leb_spec s t), (Z.leb_spec t e); try reflexivity; lia.
      * eapply List.Forall_impl; [|exact Ha]. simpl. intros t Ht.
        destruct (Z.leb_spec t e); [lia | reflexivity].
  - assert (Hnone : List.filter (fun t => t <? s) l = []).
    { apply filter_none. eapply List.Forall_impl; [|exact Ha]. simpl. intros t Ht.
      destruct (Z.ltb_spec t s); [lia | reflexivity]. }
    rewrite Hnone. cbn [List.length skipn]. rewrite Z.sub_0_r, Nat2Z.id.
    pose proof (prefix_sorted e (a :: l)) as Hp. cbn [List.filter] in Hp.
    rewrite Hp by (constructor; assumption).
    change (if a <=? e then a :: List.filter (fun t => t <=? e) l
            else List.filter (fun t => t <=? e) l)
      with (List.filter (fun t => t <=? e) (a :: l)).
    change (if (s <=? a) && (a <=? e)
            then a :: List.filter (fun t => (s <=? t) && (t <=? e)) l
            else List.filter (fun t => (s <=? t) && (t <=? e)) l)
      with (List.filter (fun t => (s <=? t) && (t <=? e)) (a :: l)).
    apply List.filter_ext_in. intros t Ht.
    assert (Hst : s <= t).
    { destruct Ht as [<-|Ht]; [lia|].
      rewrite List.Forall_forall in Ha. specialize (Ha _ Ht). lia. }
    destruct (Z.leb_spec s t); [reflexivity | lia].
Qed.

(** ** What the constructor keeps *)

Lemma first_label_hd (d : DataFrame) (x : Z) :
  Data.first_label d = Ok x -> List.hd 0 (idx_values (df_index d)) = x.
Proof.
  unfold Data.first_label. destruct (idx_values (df_index d)); simpl; [discriminate|].
  now intros [= ->].
Qed.

Lemma last_label_last (d : DataFrame) (y : Z) :
  Data.last_label d = Ok y -> List.last (idx_values (df_index d)) 0 = y.
Proof.
  unfold Data.last_label.
  destruct (rev (idx_values (df_index d))) as [|z r] eqn:Hrev; [discriminate|].
  intros [= ->].
  apply (f_equal (@rev Z)) in Hrev. rewrite List.rev_involutive in Hrev.
  rewrite Hrev. simpl. apply List.last_last.
Qed.

Lemma set_dates_bounds (d : DataFrame) (ds de : bound_arg) (s e : Z) :
  Data.set_dates d ds de = Ok (s, e) ->
  s = bound_or ds (List.hd 0 (idx_values (df_index d))) /\
  e = bound_or de (List.last (idx_values (df_index d)) 0).
Proof.
  unfold Data.set_dates, to_datetime_aware.
  destruct (Data.check_bound ds) eqn:Hcs; simpl; [|discriminate].
  destruct (Data.check_bound de) eqn:Hce; simpl; [|discriminate].
  assert (Hs : forall x, match ds with BDatetime s0 => Ok s0 | _ => Data.first_label d end
                         = Ok x ->
                         x = bound_or ds (List.hd 0 (idx_values (df_index d)))).
  { intros x. destruct ds; simpl; intros H;
      try (symmetry; now apply first_label_hd); now injection H. }
  assert (He : forall y, match de with BDatetime e0 => Ok e0 | _ => Data.last_label d end
                         = Ok y ->
                         y = bound_or de (List.last (idx_values (df_index d)) 0)).
  { intros y. destruct de; simpl; intros H;
      try (symmetry; now apply last_label_last); now injection H. }
  destruct (match ds with BDatetime s0 => Ok s0 | _ => Data.first_label d end)
    as [x|] eqn:Hx; simpl; [|discriminate].
  destruct (match de with BDatetime e0 => Ok e0 | _ => Data.last_label d end)
    as [y|] eqn:Hy; simpl; [|discriminate].
  intros [= <- <-]. split; [now apply Hs | now apply He].
Qed.

(** The frame a successful construction holds: the bounds are the ones given
    or else the first and last label, the label slice goes from the position
    of the start to the position of the end, and of its rows those are kept
    whose time of day lies in the window of the bounds; every column is cut
    like the index. *)
Lemma init_frame (strategy : pyval) (a : Asset) (d : DataFrame) (ds de : bound_arg)
      (tstep cols : pyval) (self : Data.t) :
  Data.__init__ strategy a d ds de tstep cols = Ok self ->
  let ix := idx_values (df_index d) in
  let s := Data.date_start self in
  let e := Data.date_end self in
  s = bound_or ds (List.hd 0 ix) /\
  e = bound_or de (List.last ix 0) /\
  exists lo hi,
    get_slice_bound ix s true = Ok lo /\
    get_slice_bound ix e false = Ok hi /\
    idx_values (df_index (Data.df self)) =
      List.filter (in_time_window (time_of_day s) (time_of_day e)) (py_slice ix lo hi) /\
    df_columns (Data.df self) =
      map (fun c => (Data.rename_column (fst c),
                     mask_select (map (in_time_window (time_of_day s) (time_of_day e))
                                      (py_slice ix lo hi))
                                 (py_slice (snd c) lo hi)))
          (df_columns d).
Proof.
  unfold Data.__init__, Data.set_date_format. simpl.
  destruct (idx_tz (df_index d)) eqn:Htz; simpl; [discriminate|].
  match goal with |- context [Data.set_dates ?x ds de] => set (d1 := x) end.
  destruct (Data.set_dates d1 ds de) as [[s e]|] eqn:Hd; simpl; [|discriminate].
  destruct (set_dates_bounds _ _ _ _ _ Hd) as [Hs He]. simpl in Hs, He.
  unfold Data.trim_data, loc_slice.
  change (idx_values (df_index d1)) with (idx_values (df_index d)).
  destruct (get_slice_bound (idx_values (df_index d)) s true) as [lo|] eqn:Hlo;
    cbn [rbind]; [|discriminate].
  destruct (get_slice_bound (idx_values (df_index d)) e false) as [hi|] eqn:Hhi;
    cbn [rbind]; [|discriminate].
  match goal with |- context [Data.to_datalines ?x] => set (d2 := x) end.
  destruct (Data.to_datalines d2) as [[dls arrs]|] eqn:Hto; cbn [rbind]; [|discriminate].
  intros H. injection H as <-.
  cbn [Data.df Data.date_start Data.date_end].
  split; [exact Hs|]. split; [exact He|].
  exists lo, hi. split; [exact Hlo|]. split; [exact Hhi|].
  unfold d2, select_rows, slice_rows, d1. cbn [df_index idx_values df_columns].
  change (between_time_mask ?l ?x ?y) with (map (in_time_window x y) l).
  rewrite mask_select_map. split; [reflexivity|].
  rewrite !List.map_map. reflexivity.
Qed.

(** On a table sorted by time, the series a constructor makes holds the
    labels of the table that lie between its bounds and in the time-of-day
    window of its bounds, in the order of the table and with their
    repetitions; its bounds are those the caller gave, or else the first and
    the last label of the table. *)
Theorem constructed_index_is_trimmed (strategy : pyval) (a : Asset) (d : DataFrame)
        (ds de : bound_arg) (tstep cols : pyval) (self : Data.t) :
  is_monotonic_increasing (idx_values (df_index d)) = true ->
  Data.__init__ strategy a d ds de tstep cols = Ok self ->
  let s := Data.date_start self in
  let e := Data.date_end self in
  s = bound_or ds (List.hd 0 (idx_values (df_index d))) /\
  e = bound_or de (List.last (idx_values (df_index d)) 0) /\
  idx_values (df_index (Data.df self)) =
    List.filter (in_time_window (time_of_day s) (time_of_day e))
                (List.filter (in_date_range s e) (idx_values (df_index d))) /\
  forall t, In t (idx_values (df_index (Data.df self))) ->
            In t (idx_values (df_index d)) /\ s <= t <= e /\
            in_time_window (time_of_day s) (time_of_day e) t = true.
Proof.
  intros Hm Hinit s e.
  destruct (init_frame _ _ _ _ _ _ _ _ Hinit) as (Hs & He & lo & hi & Hlo & Hhi & Hix & _).
  fold s in Hs, Hlo, Hix. fold e in He, Hhi, Hix.
  destruct (get_slice_bound_sorted _ s Hm) as [Hlo' _].
  destruct (get_slice_bound_sorted _ e Hm) as [_ Hhi'].
  rewrite Hlo' in Hlo. rewrite Hhi' in Hhi. injection Hlo as <-. injection Hhi as <-.
  rewrite (sorted_slice_filter s e _ (monotonic_sorted _ Hm)) in Hix.
  split; [exact Hs|]. split; [exact He|]. split; [exact Hix|].
  intros t Ht. rewrite Hix in Ht.
  apply List.filter_In in Ht. destruct Ht as [Ht Hw].
  apply List.filter_In in Ht. destruct Ht as [Ht Hr].
  split; [exact Ht|]. split; [|exact Hw].
  apply andb_prop in Hr. destruct Hr as [H1 H2].
  apply Z.leb_le in H1. apply Z.leb_le in H2. lia.
Qed.

Lemma constructed_index_is_trimmed_witness :
  let s := Data.date_start three_bar_series in
  let e := Data.date_end three_bar_series in
  s = bound_or BNone (List.hd 0 (idx_values (df_index three_bars))) /\
  e = bound_or BNone (List.last (idx_values (df_index three_bars)) 0) /\
  idx_values (df_index (Data.df three_bar_series)) =
    List.filter (in_time_window (time_of_day s) (time_of_day e))
                (List.filter (in_date_range s e) (idx_values (df_index three_bars))) /\
  forall t, In t (idx_values (df_index (Data.df three_bar_series))) ->
            In t (idx_values (df_index three_bars)) /\ s <= t <= e /\
            in_time_window (time_of_day s) (time_of_day e) t = true.
Proof.
  apply (constructed_index_is_trimmed PyNone SPY three_bars BNone BNone (PyTimestep Day)
           PyNone three_bar_series).
  - reflexivity.
  - exact three_bars_init.
Defined.

(** ** Alignment *)

Lemma dict_set_Forall {V} (P : string * V -> Prop) (k : string) (v : V)
      (d : list (string * V)) :
  P (k, v) -> Forall P d -> Forall P (dict_set k v d).
Proof.
  intros Hkv H. induction H as [|[k0 v0] d Hx Hd IH]; simpl.
  - constructor; [exact Hkv | constructor].
  - destruct (String.eqb k k0); constructor; assumption.
Qed.

Lemma fold_dict_set_Forall {V} (P : string * V -> Prop) (cols acc : list (string * V)) :
  Forall P cols -> Forall P acc ->
  Forall P (fold_left (fun a c => dict_set (fst c) (snd c) a) cols acc).
Proof.
  intros Hc. revert acc. induction Hc as [|[k v] cols Hx Hcols IH]; intros acc Ha; simpl.
  - exact Ha.
  - apply IH. now apply dict_set_Forall.
Qed.

Lemma frame_rectangular (strategy : pyval) (a : Asset) (d : DataFrame) (ds de : bound_arg)
      (tstep cols : pyval) (self : Data.t) :
  rectangular d ->
  Data.__init__ strategy a d ds de tstep cols = Ok self ->
  rectangular (Data.df self).
Proof.
  intros Hrect Hinit.
  destruct (init_frame _ _ _ _ _ _ _ _ Hinit) as (_ & _ & lo & hi & _ & _ & Hix & Hcols).
  cbv zeta in Hix, Hcols.
  unfold rectangular. rewrite Hcols, Hix.
  rewrite <- mask_select_map. apply List.Forall_map. simpl.
  eapply List.Forall_impl; [|exact Hrect]. simpl. intros c Hc.
  apply mask_select_length. now apply py_slice_length_eq.
Qed.

Lemma init_aligned (strategy : pyval) (a : Asset) (d : DataFrame) (ds de : bound_arg)
      (tstep cols : pyval) (self : Data.t) :
  rectangular d ->
  Data.__init__ strategy a d ds de tstep cols = Ok self ->
  Forall (fun dl => List.length (snd dl)
                    = List.length (idx_values (df_index (Data.df self))))
         (Data.datalines self).
Proof.
  intros Hrect Hinit.
  destruct (init_inv _ _ _ _ _ _ _ _ Hinit) as (_ & _ & _ & _ & _ & Hdl & _).
  rewrite Hdl. apply fold_dict_set_Forall.
  - exact (frame_rectangular _ _ _ _ _ _ _ _ Hrect Hinit).
  - constructor; [reflexivity | constructor].
Qed.

(** Every dataline of a series made of a rectangular table has one cell per
    label of the series, and the frame the series holds is rectangular. *)
Theorem datalines_aligned (strategy : pyval) (a : Asset) (d : DataFrame)
        (ds de : bound_arg) (tstep cols : pyval) (self : Data.t) :
  rectangular d ->
  Data.__init__ strategy a d ds de tstep cols = Ok self ->
  Forall (fun dl => List.length (snd dl)
                    = List.length (idx_values (df_index (Data.df self))))
         (Data.datalines self) /\
  rectangular (Data.df self).
Proof.
  intros Hrect Hinit. split.
  - exact (init_aligned _ _ _ _ _ _ _ _ Hrect Hinit).
  - exact (frame_rectangular _ _ _ _ _ _ _ _ Hrect Hinit).
Qed.

Lemma three_bars_rectangular : rectangular three_bars.
Proof. unfold rectangular. simpl. repeat constructor. Defined.

Lemma datalines_aligned_witness :
  Forall (fun dl => List.length (snd dl)
                    = List.length (idx_values (df_index (Data.df three_bar_series))))
         (Data.datalines three_bar_series) /\
  rectangular (Data.df three_bar_series).
Proof.
  apply (datalines_aligned PyNone SPY three_bars BNone BNone (PyTimestep Day) PyNone
           three_bar_series).
  - exact three_bars_rectangular.
  - exact three_bars_init.
Defined.

(** Whatever the timestamp, the length and the timeshift, a window returned
    for a series made of a rectangular table is rectangular: every column has
    as many rows as the index of the window. *)
Theorem window_is_rectangular (strategy : pyval) (a : Asset) (d : DataFrame)
        (ds de : bound_arg) (tstep cols : pyval) (self : Data.t)
        (dt length timeshift : Z) (timestep : Timestep) (bars : Bars) :
  rectangular d ->
  Data.__init__ strategy a d ds de tstep cols = Ok self ->
  Data.get_bars self dt length timestep timeshift = Ok bars ->
  Forall (fun c => List.length (snd c) = List.length (bars_index bars))
         (bars_columns bars).
Proof.
  intros Hrect Hinit.
  pose proof (init_aligned _ _ _ _ _ _ _ _ Hrect Hinit) as Hal.
  unfold Data.get_bars.
  destruct (Data.shadowed self "get_bars"); [discriminate|].
  destruct (Data.get_iter_count self dt) as [[i|rows]|e]; simpl; try discriminate.
  destruct (Data.shadowed self "datalines"); [discriminate|].
  set (end_row := i + 1 - timeshift).
  set (start_row := if end_row - length <? 0 then 0 else end_row - length).
  unfold Data.set_index.
  pose proof (dict_get_map (fun c : list Z => py_slice c start_row end_row)
                "datetime" (Data.datalines self)) as E.
  cbv beta in E. rewrite E. clear E.
  destruct (dict_get "datetime" (Data.datalines self)) as [ix|] eqn:Hdt; simpl;
    [|discriminate].
  intros [= <-]. simpl.
  rewrite List.Forall_forall in Hal |- *.
  pose proof (Hal _ (dict_get_In _ _ _ Hdt)) as Hix. simpl in Hix.
  intros c Hc. apply dict_del_incl in Hc.
  apply List.in_map_iff in Hc. destruct Hc as (dl & <- & Hdl). simpl.
  apply py_slice_length_eq. rewrite Hix. now apply Hal.
Qed.

Lemma window_is_rectangular_witness :
  Forall (fun c => List.length (snd c) = List.length [10; 20])
         [("close", [101; 102])].
Proof.
  apply (window_is_rectangular PyNone SPY three_bars BNone BNone (PyTimestep Day) PyNone
           three_bar_series 10 1 2 Minute
           {| bars_index := [10; 20]; bars_columns := [("close", [101; 102])] |}).
  - exact three_bars_rectangular.
  - exact three_bars_init.
  - reflexivity.
Defined.

(** ** Row lookup on any index *)

(** A name of a list that no column of the table bears still gives, on the
    series made of the table, what the class put under it. *)
Lemma init_clear (strategy : pyval) (a : Asset) (d : DataFrame) (ds de : bound_arg)
      (tstep cols : pyval) (self : Data.t) (names : list string) (name : string) :
  Data.__init__ strategy a d ds de tstep cols = Ok self ->
  no_column_named names d ->
  In name names ->
  mem_string name Data.ohlcv = false ->
  String.eqb name "datetime" = false ->
  Data.shadowed self name = false.
Proof.
  intros Hinit Hno Hin Hn Hdt.
  apply (init_unshadowed _ _ _ _ _ _ _ _ _ Hinit Hn Hdt).
  unfold no_column_named in Hno. rewrite List.Forall_forall in Hno. now apply Hno.
Qed.

Lemma iter_rows_sound (l : list Z) (k : nat) (t z : Z) :
  In (t, z) (combine l (map Z.of_nat (seq k (List.length l)))) ->
  exists j, z = Z.of_nat (k + j) /\ nth_error l j = Some t.
Proof.
  revert k. induction l as [|x l IH]; intros k H; simpl in H; [tauto|].
  destruct H as [H|H].
  - injection H as -> <-. exists 0%nat. split; [f_equal; lia | reflexivity].
  - destruct (IH _ H) as (j & -> & Hj). exists (S j). split; [f_equal; lia | exact Hj].
Qed.

Lemma iter_rows_count (dt : Z) (l : list Z) (k : nat) :
  List.length (List.filter (fun p : Z * Z => fst p =? dt)
                           (combine l (map Z.of_nat (seq k (List.length l)))))
  = count_occ Z.eq_dec l dt.
Proof.
  revert k. induction l as [|x l IH]; intros k; simpl; [reflexivity|].
  destruct (Z.eqb_spec x dt) as [Heq|Hne]; destruct (Z.eq_dec x dt) as [Heq'|Hne'];
    simpl; try congruence; now rewrite IH.
Qed.

Lemma locate_missing (strategy : pyval) (a : Asset) (d : DataFrame) (ds de : bound_arg)
      (tstep cols : pyval) (self : Data.t) (dt : Z) :
  Data.__init__ strategy a d ds de tstep cols = Ok self ->
  ~ In dt (idx_values (df_index (Data.df self))) ->
  Data.locate self dt = Raise KeyError.
Proof.
  intros Hinit Hnot.
  destruct (init_inv _ _ _ _ _ _ _ _ Hinit) as (_ & _ & _ & _ & Hit & _).
  unfold Data.locate. rewrite Hit. unfold Data.make_iter_index.
  now rewrite iter_rows_absent.
Qed.

(** What the row lookup answers comes from the series of the row numbers. *)
Lemma get_iter_count_ok (self : Data.t) (dt : Z) (loc : loc_result) :
  Data.get_iter_count self dt = Ok loc -> Data.locate self dt = Ok loc.
Proof.
  unfold Data.get_iter_count.
  destruct (Data.shadowed self "get_iter_count"); [discriminate|].
  destruct (Data.shadowed self "iter_index"); [discriminate | tauto].
Qed.

(** A timestamp that is not a label of the series is a [KeyError] for the
    row lookup, for the last price and for the window, on a series made of a
    table with no column called like what they are read through. *)
Theorem missing_label_is_key_error (strategy : pyval) (a : Asset) (d : DataFrame)
        (ds de : bound_arg) (tstep cols : pyval) (self : Data.t)
        (dt length timeshift : Z) (timestep : Timestep) :
  Data.__init__ strategy a d ds de tstep cols = Ok self ->
  ~ In dt (idx_values (df_index (Data.df self))) ->
  no_column_named ["get_iter_count"; "iter_index"] d ->
  Data.get_iter_count self dt = Raise KeyError /\
  (no_column_named ["get_last_price"; "datalines"] d ->
   Data.get_last_price self dt = Raise KeyError) /\
  (no_column_named ["get_bars"] d ->
   Data.get_bars self dt length timestep timeshift = Raise KeyError).
Proof.
  intros Hinit Hnot Hno.
  assert (Hrow : Data.get_iter_count self dt = Raise KeyError).
  { rewrite get_iter_count_locate.
    - exact (locate_missing _ _ _ _ _ _ _ _ _ Hinit Hnot).
    - apply (init_clear _ _ _ _ _ _ _ _ _ "get_iter_count" Hinit Hno);
        [simpl; tauto | reflexivity | reflexivity].
    - apply (init_clear _ _ _ _ _ _ _ _ _ "iter_index" Hinit Hno);
        [simpl; tauto | reflexivity | reflexivity]. }
  split; [exact Hrow|]. split.
  - intros Hno'. unfold Data.get_last_price.
    rewrite (init_clear _ _ _ _ _ _ _ _ _ "get_last_price" Hinit Hno');
      [|simpl; tauto | reflexivity | reflexivity].
    rewrite (init_clear _ _ _ _ _ _ _ _ _ "datalines" Hinit Hno');
      [|simpl; tauto | reflexivity | reflexivity].
    rewrite Hrow.
    destruct (dict_get "close" (Data.datalines self)); reflexivity.
  - intros Hno'. unfold Data.get_bars.
    rewrite (init_clear _ _ _ _ _ _ _ _ _ "get_bars" Hinit Hno');
      [|simpl; tauto | reflexivity | reflexivity].
    rewrite Hrow. reflexivity.
Qed.

Lemma three_bars_columns (names : list string) :
  mem_string "Close" names = false -> no_column_named names three_bars.
Proof.
  intros Hm. unfold no_column_named. apply List.Forall_forall. intros name Hin.
  simpl. intros [H|[]]. subst name. apply mem_string_In in Hin. congruence.
Defined.

Lemma missing_label_is_key_error_witness :
  Data.get_iter_count three_bar_series 15 = Raise KeyError /\
  (no_column_named ["get_last_price"; "datalines"] three_bars ->
   Data.get_last_price three_bar_series 15 = Raise KeyError) /\
  (no_column_named ["get_bars"] three_bars ->
   Data.get_bars three_bar_series 15 2 Minute 0 = Raise KeyError).
Proof.
  apply (missing_label_is_key_error PyNone SPY three_bars BNone BNone (PyTimestep Day)
           PyNone three_bar_series).
  - exact three_bars_init.
  - simpl. intros [H|[H|[H|[]]]]; discriminate H.
  - apply three_bars_columns. reflexivity.
Defined.

(** A timestamp that labels two rows or more of the series is a [ValueError]
    for the window, whatever the length and the timeshift, on a series made
    of a table with no column called like what the row is read through. *)
Theorem repeated_label_is_value_error (strategy : pyval) (a : Asset) (d : DataFrame)
        (ds de : bound_arg) (tstep cols : pyval) (self : Data.t)
        (dt length timeshift : Z) (timestep : Timestep) :
  Data.__init__ strategy a d ds de tstep cols = Ok self ->
  (2 <= count_occ Z.eq_dec (idx_values (df_index (Data.df self))) dt)%nat ->
  no_column_named ["get_bars"; "get_iter_count"; "iter_index"] d ->
  Data.get_bars self dt length timestep timeshift = Raise ValueError.
Proof.
  intros Hinit Hcnt Hno.
  destruct (init_inv _ _ _ _ _ _ _ _ Hinit) as (_ & _ & _ & _ & Hit & _).
  unfold Data.get_bars.
  rewrite (init_clear _ _ _ _ _ _ _ _ _ "get_bars" Hinit Hno);
    [|simpl; tauto | reflexivity | reflexivity].
  rewrite get_iter_count_locate;
    [|apply (init_clear _ _ _ _ _ _ _ _ _ "get_iter_count" Hinit Hno);
      [simpl; tauto | reflexivity | reflexivity]
     |apply (init_clear _ _ _ _ _ _ _ _ _ "iter_index" Hinit Hno);
      [simpl; tauto | reflexivity | reflexivity]].
  unfold Data.locate. rewrite Hit. unfold Data.make_iter_index.
  pose proof (iter_rows_count dt (idx_values (df_index (Data.df self))) 0) as Hlen.
  destruct (List.filter _ _) as [|p1 [|p2 r]]; simpl in Hlen |- *; try lia.
  reflexivity.
Qed.

Lemma repeated_bars_columns (names : list string) :
  mem_string "Close" names = false -> no_column_named names repeated_bars.
Proof.
  intros Hm. unfold no_column_named. apply List.Forall_forall. intros name Hin.
  simpl. intros [H|[]]. subst name. apply mem_string_In in Hin. congruence.
Defined.

Lemma repeated_label_is_value_error_witness :
  Data.get_bars
    {| Data.strategy := PyNone; Data.asset := SPY; Data.symbol := "SPY";
       Data.df := {| df_index_name := Some "datetime";
                     df_index := {| idx_values := [10; 10]; idx_tz := Some DEFAULT_PYTZ |};
                     df_columns := [("close", [101; 102])] |};
       Data.date_start := 10; Data.date_end := 10;
       Data.iter_index := [(10, 0); (10, 1)];
       Data.datalines := [("datetime", [10; 10]); ("close", [101; 102])];
       Data.arrays := [("datetime", [10; 10]); ("close", [101; 102])] |}
    10 1 Minute 0
  = Raise ValueError.
Proof.
  apply (repeated_label_is_value_error PyNone SPY repeated_bars BNone BNone
           (PyTimestep Day) PyNone).
  - reflexivity.
  - simpl. lia.
  - apply repeated_bars_columns. reflexivity.
Defined.

Lemma locate_sound (strategy : pyval) (a : Asset) (d : DataFrame) (ds de : bound_arg)
      (tstep cols : pyval) (self : Data.t) (dt z : Z) :
  Data.__init__ strategy a d ds de tstep cols = Ok self ->
  Data.locate self dt = Ok (LScalar z) ->
  0 <= z /\ nth_error (idx_values (df_index (Data.df self))) (Z.to_nat z) = Some dt.
Proof.
  intros Hinit.
  destruct (init_inv _ _ _ _ _ _ _ _ Hinit) as (_ & _ & _ & _ & Hit & _).
  unfold Data.locate. rewrite Hit. unfold Data.make_iter_index.
  destruct (List.filter _ _) as [|[t z'] [|p2 r]] eqn:Hf; simpl; try discriminate.
  intros [= <-].
  assert (Hin : In (t, z') (List.filter (fun p : Z * Z => fst p =? dt)
                  (combine (idx_values (df_index (Data.df self)))
                     (map Z.of_nat
                        (seq 0 (List.length (idx_values (df_index (Data.df self)))))))))
    by (rewrite Hf; now left).
  apply List.filter_In in Hin. destruct Hin as [Hin Heq]. simpl in Heq.
  apply Z.eqb_eq in Heq. subst t.
  destruct (iter_rows_sound _ _ _ _ Hin) as (j & -> & Hj). simpl.
  split; [lia|]. now rewrite Nat2Z.id.
Qed.

Lemma locate_complete (strategy : pyval) (a : Asset) (d : DataFrame) (ds de : bound_arg)
      (tstep cols : pyval) (self : Data.t) (i : nat) (dt : Z) :
  Data.__init__ strategy a d ds de tstep cols = Ok self ->
  List.NoDup (idx_values (df_index (Data.df self))) ->
  nth_error (idx_values (df_index (Data.df self))) i = Some dt ->
  Data.locate self dt = Ok (LScalar (Z.of_nat i)).
Proof.
  intros Hinit Hnd Hnth.
  destruct (init_inv _ _ _ _ _ _ _ _ Hinit) as (_ & _ & _ & _ & Hit & _).
  destruct (List.nth_error_split _ _ Hnth) as (pre & post & Hix & Hlen).
  rewrite Hix in Hnd. apply List.NoDup_remove_2 in Hnd.
  unfold Data.locate. rewrite Hit, Hix. unfold Data.make_iter_index.
  rewrite iter_rows_unique.
  - simpl. now rewrite Hlen.
  - intros H. apply Hnd. apply List.in_or_app. now left.
  - intros H. apply Hnd. apply List.in_or_app. now right.
Qed.

(** The row lookup is sound on every series, and complete on a series whose
    labels are distinct and whose table has no column called like what the
    row is read through: the row it returns for a timestamp carries that
    timestamp, and it returns the row of every label. *)
Theorem row_lookup_round_trip (strategy : pyval) (a : Asset) (d : DataFrame)
        (ds de : bound_arg) (tstep cols : pyval) (self : Data.t) :
  Data.__init__ strategy a d ds de tstep cols = Ok self ->
  (forall dt z, Data.get_iter_count self dt = Ok (LScalar z) ->
                0 <= z /\
                nth_error (idx_values (df_index (Data.df self))) (Z.to_nat z) = Some dt) /\
  (no_column_named ["get_iter_count"; "iter_index"] d ->
   List.NoDup (idx_values (df_index (Data.df self))) ->
   forall i dt, nth_error (idx_values (df_index (Data.df self))) i = Some dt ->
                Data.get_iter_count self dt = Ok (LScalar (Z.of_nat i))).
Proof.
  intros Hinit. split.
  - intros dt z Hrow. apply get_iter_count_ok in Hrow.
    exact (locate_sound _ _ _ _ _ _ _ _ _ _ Hinit Hrow).
  - intros Hno Hnd i dt Hnth.
    rewrite get_iter_count_locate;
      [|apply (init_clear _ _ _ _ _ _ _ _ _ "get_iter_count" Hinit Hno);
        [simpl; tauto | reflexivity | reflexivity]
       |apply (init_clear _ _ _ _ _ _ _ _ _ "iter_index" Hinit Hno);
        [simpl; tauto | reflexivity | reflexivity]].
    exact (locate_complete _ _ _ _ _ _ _ _ _ _ Hinit Hnd Hnth).
Qed.

Lemma row_lookup_round_trip_witness :
  (forall dt z, Data.get_iter_count three_bar_series dt = Ok (LScalar z) ->
                0 <= z /\
                nth_error (idx_values (df_index (Data.df three_bar_series))) (Z.to_nat z)
                = Some dt) /\
  (no_column_named ["get_iter_count"; "iter_index"] three_bars ->
   List.NoDup (idx_values (df_index (Data.df three_bar_series))) ->
   forall i dt, nth_error (idx_values (df_index (Data.df three_bar_series))) i = Some dt ->
                Data.get_iter_count three_bar_series dt = Ok (LScalar (Z.of_nat i))).
Proof.
  apply (row_lookup_round_trip PyNone SPY three_bars BNone BNone (PyTimestep Day) PyNone
           three_bar_series).
  exact three_bars_init.
Defined.

(** ** The last price *)

Lemma dict_get_fold_column {V} (k : string) (v : V) (cols acc : list (string * V)) :
  has_dup (map fst cols) = false ->
  dict_get k cols = Some v ->
  dict_get k (fold_left (fun a c => dict_set (fst c) (snd c) a) cols acc) = Some v.
Proof.
  revert acc. induction cols as [|[k0 v0] cols IH]; intros acc Hdup Hget; simpl in *.
  - discriminate.
  - apply orb_false_elim in Hdup. destruct Hdup as [Hmem Hdup].
    destruct (String.eqb_spec k k0) as [->|Hne].
    + injection Hget as <-. rewrite dict_get_fold_other.
      * rewrite dict_get_set, String.eqb_refl. reflexivity.
      * intros Hin. apply mem_string_In in Hin. congruence.
    + now apply IH.
Qed.

Lemma array_at_nth (col : list Z) (z c : Z) :
  0 <= z -> nth_error col (Z.to_nat z) = Some c -> Data.array_at col z = Ok c.
Proof.
  intros Hz Hnth. unfold Data.array_at.
  assert (Hlt : (Z.to_nat z < List.length col)%nat)
    by (apply List.nth_error_Some; congruence).
  destruct (Z.ltb_spec z 0); [lia|].
  destruct (Z.leb_spec 0 z); [|lia].
  destruct (Z.ltb_spec z (Z.of_nat (List.length col))); [|lia].
  simpl. now rewrite Hnth.
Qed.

(** The last price at a timestamp is the cell of the close column in the row
    of the timestamp, on a series made of a table with no column called
    get_last_price or datalines. *)
Theorem last_price_is_close_of_row (strategy : pyval) (a : Asset) (d : DataFrame)
        (ds de : bound_arg) (tstep cols : pyval) (self : Data.t)
        (dt z c : Z) (close : list Z) :
  Data.__init__ strategy a d ds de tstep cols = Ok self ->
  no_column_named ["get_last_price"; "datalines"] d ->
  Data.get_iter_count self dt = Ok (LScalar z) ->
  dict_get "close" (df_columns (Data.df self)) = Some close ->
  nth_error close (Z.to_nat z) = Some c ->
  Data.get_last_price self dt = Ok (CScalar c).
Proof.
  intros Hinit Hno Hrow Hclose Hnth.
  destruct (init_inv _ _ _ _ _ _ _ _ Hinit) as (_ & _ & _ & _ & _ & Hdl & _ & Hdup & _).
  destruct (locate_sound _ _ _ _ _ _ _ _ _ _ Hinit (get_iter_count_ok _ _ _ Hrow))
    as [Hz _].
  unfold Data.get_last_price.
  rewrite (init_clear _ _ _ _ _ _ _ _ _ "get_last_price" Hinit Hno);
    [|simpl; tauto | reflexivity | reflexivity].
  rewrite (init_clear _ _ _ _ _ _ _ _ _ "datalines" Hinit Hno);
    [|simpl; tauto | reflexivity | reflexivity].
  rewrite Hdl.
  rewrite (dict_get_fold_column "close" close _ _ Hdup Hclose).
  rewrite Hrow. simpl.
  now rewrite (array_at_nth _ _ _ Hz Hnth).
Qed.

Lemma last_price_is_close_of_row_witness :
  Data.get_last_price three_bar_series 20 = Ok (CScalar 102).
Proof.
  apply (last_price_is_close_of_row PyNone SPY three_bars BNone BNone (PyTimestep Day)
           PyNone three_bar_series 20 1 102 [101; 102; 103]).
  - exact three_bars_init.
  - apply three_bars_columns. reflexivity.
  - reflexivity.
  - reflexivity.
  - reflexivity.
Defined.

Lemma rename_column_close (col : string) :
  Data.rename_column col = "close" -> lower col = "close".
Proof.
  unfold Data.rename_column.
  destruct (mem_string (lower col) Data.ohlcv); [tauto|].
  intros ->. reflexivity.
Qed.

(** When the table has no column whose name is close in any mix of upper and
    lower case, and none called get_last_price or datalines, the last price
    is a [KeyError] at every timestamp. *)
Theorem last_price_without_close_column (strategy : pyval) (a : Asset) (d : DataFrame)
        (ds de : bound_arg) (tstep cols : pyval) (self : Data.t) (dt : Z) :
  Data.__init__ strategy a d ds de tstep cols = Ok self ->
  no_column_named ["get_last_price"; "datalines"] d ->
  Forall (fun col => lower col <> "close") (column_names d) ->
  Data.get_last_price self dt = Raise KeyError.
Proof.
  intros Hinit Hnc Hno.
  destruct (init_inv _ _ _ _ _ _ _ _ Hinit) as (_ & _ & _ & Hnames & _ & Hdl & _).
  unfold Data.get_last_price.
  rewrite (init_clear _ _ _ _ _ _ _ _ _ "get_last_price" Hinit Hnc);
    [|simpl; tauto | reflexivity | reflexivity].
  rewrite (init_clear _ _ _ _ _ _ _ _ _ "datalines" Hinit Hnc);
    [|simpl; tauto | reflexivity | reflexivity].
  rewrite Hdl, dict_get_fold_other; [reflexivity|].
  fold (column_names (Data.df self)). rewrite Hnames.
  unfold column_names, Data.columns. simpl. rewrite List.map_map. simpl.
  intros Hin. apply List.in_map_iff in Hin. destruct Hin as (c & Hc & Hin).
  apply rename_column_close in Hc.
  rewrite List.Forall_forall in Hno. apply (Hno (fst c)); [|exact Hc].
  unfold column_names. now apply List.in_map.
Qed.

Lemma last_price_without_close_column_witness :
  Data.get_last_price
    {| Data.strategy := PyNone; Data.asset := SPY; Data.symbol := "SPY";
       Data.df := {| df_index_name := Some "datetime";
                     df_index := {| idx_values := [10; 20]; idx_tz := Some DEFAULT_PYTZ |};
                     df_columns := [("open", [1; 2])] |};
       Data.date_start := 10; Data.date_end := 20;
       Data.iter_index := [(10, 0); (20, 1)];
       Data.datalines := [("datetime", [10; 20]); ("open", [1; 2])];
       Data.arrays := [("datetime", [10; 20]); ("open", [1; 2])] |}
    10
  = Raise KeyError.
Proof.
  apply (last_price_without_close_column PyNone SPY
           {| df_index_name := None;
              df_index := {| idx_values := [10; 20]; idx_tz := None |};
              df_columns := [("OPEN", [1; 2])] |}
           BNone BNone (PyTimestep Day) PyNone).
  - reflexivity.
  - unfold no_column_named. repeat constructor; simpl; intros [H|[]]; discriminate H.
  - repeat constructor. vm_compute. discriminate.
Defined.

(** ** What the constructor refuses *)

(** A bound that is neither absent nor a datetime is a [TypeError] when it is
    truthy, whatever the table, and counts as absent when it is falsy; a table
    whose index is already timezone-aware is a [TypeError]. *)
Theorem constructor_type_errors (strategy : pyval) (a : Asset) (d : DataFrame)
        (ds de : bound_arg) (tstep cols : pyval) :
  Data.__init__ strategy a d (BOther true) de tstep cols = Raise TypeError /\
  Data.__init__ strategy a d ds (BOther true) tstep cols = Raise TypeError /\
  Data.__init__ strategy a d (BOther false) de tstep cols
  = Data.__init__ strategy a d BNone de tstep cols /\
  Data.__init__ strategy a d ds (BOther false) tstep cols
  = Data.__init__ strategy a d ds BNone tstep cols /\
  (forall zone, idx_tz (df_index d) = Some zone ->
                Data.__init__ strategy a d ds de tstep cols = Raise TypeError).
Proof.
  unfold Data.__init__, Data.set_date_format, Data.columns. simpl.
  destruct (idx_tz (df_index d)) as [zone|]; simpl.
  - repeat split; reflexivity.
  - repeat split; try reflexivity; try discriminate.
    unfold Data.set_dates. destruct ds as [|s|[|]]; reflexivity.
Qed.


(** ** What the constructor accepts *)

Lemma py_slice_past_end {A} (l : list A) (stop : Z) :
  py_slice l (Z.of_nat (List.length l)) stop = [].
Proof.
  unfold py_slice.
  assert (Hlo : slice_bound (Z.of_nat (List.length l)) (Z.of_nat (List.length l))
                = Z.of_nat (List.length l)).
  { unfold slice_bound. destruct (Z.ltb_spec (Z.of_nat (List.length l)) 0); lia. }
  rewrite Hlo, Nat2Z.id, List.skipn_all. apply List.firstn_nil.
Qed.

Lemma get_slice_bound_error (ix : list Z) (label : Z) (left : bool) (e : exn) :
  get_slice_bound ix label left = Raise e -> e = KeyError.
Proof.
  unfold get_slice_bound.
  destruct (List.length (List.filter (Z.eqb label) ix)).
  - destruct (is_monotonic_increasing ix); [discriminate|].
    destruct (is_monotonic_decreasing ix); [discriminate|]. now intros [= <-].
  - match goal with |- context [if ?c then _ else _] => destruct c end;
      [discriminate | now intros [= <-]].
Qed.

Lemma get_slice_bound_absent (ix : list Z) (label : Z) (left : bool) :
  is_monotonic_increasing ix = false ->
  is_monotonic_decreasing ix = false ->
  ~ In label ix ->
  get_slice_bound ix label left = Raise KeyError.
Proof.
  intros Hinc Hdec Hn. unfold get_slice_bound.
  rewrite (filter_absent label ix Hn). simpl. now rewrite Hinc, Hdec.
Qed.

(** The constructor goes through as soon as the index is not yet
    timezone-aware, the bounds are found, both are given a position, the
    columns stay distinct by name and none is called datalines or df. *)
Lemma init_ok (strategy : pyval) (a : Asset) (d : DataFrame) (ds de : bound_arg)
      (tstep cols : pyval) (s e lo hi : Z) :
  idx_tz (df_index d) = None ->
  Data.set_dates d ds de = Ok (s, e) ->
  get_slice_bound (idx_values (df_index d)) s true = Ok lo ->
  get_slice_bound (idx_values (df_index d)) e false = Ok hi ->
  has_dup (column_names (Data.columns d)) = false ->
  no_column_named ["datalines"; "df"] d ->
  exists self, Data.__init__ strategy a d ds de tstep cols = Ok self.
Proof.
  intros Htz Hsd Hlo Hhi Hdup Hcols.
  assert (Hdl : ~ In "datalines" (column_names (Data.columns d))).
  { apply columns_keeps_absent; [reflexivity|]. inversion Hcols; assumption. }
  assert (Hdf : ~ In "df" (column_names (Data.columns d))).
  { apply columns_keeps_absent; [reflexivity|].
    inversion Hcols as [|? ? _ Hrest]; inversion Hrest; assumption. }
  unfold Data.__init__, Data.set_date_format. simpl. rewrite Htz. simpl.
  match goal with |- context [Data.set_dates ?x ds de] =>
    change (Data.set_dates x ds de) with (Data.set_dates d ds de) end.
  rewrite Hsd. simpl. unfold Data.trim_data, loc_slice. simpl.
  rewrite Hlo. simpl. rewrite Hhi. simpl.
  unfold Data.to_datalines.
  rewrite add_columns_ok.
  - simpl. eauto.
  - rewrite select_rows_names, slice_rows_names. exact Hdup.
  - change (~ In "datalines" (column_names
              (select_rows
                 (between_time_mask
                    (py_slice (idx_values (df_index d)) lo hi)
                    (time_of_day (to_datetime_aware s)) (time_of_day (to_datetime_aware e)))
                 (slice_rows lo hi
                    {| df_index_name := Some "datetime";
                       df_index := {| idx_values := idx_values (df_index d);
                                      idx_tz := Some DEFAULT_PYTZ |};
                       df_columns := df_columns (Data.columns d) |})))).
    rewrite select_rows_names, slice_rows_names. exact Hdl.
  - change (~ In "df" (column_names
              (select_rows
                 (between_time_mask
                    (py_slice (idx_values (df_index d)) lo hi)
                    (time_of_day (to_datetime_aware s)) (time_of_day (to_datetime_aware e)))
                 (slice_rows lo hi
                    {| df_index_name := Some "datetime";
                       df_index := {| idx_values := idx_values (df_index d);
                                      idx_tz := Some DEFAULT_PYTZ |};
                       df_columns := df_columns (Data.columns d) |})))).
    rewrite select_rows_names, slice_rows_names. exact Hdf.
  - reflexivity.
  - reflexivity.
Qed.

(** ** Bounds outside the data *)

(** On a table sorted by time, of which no column is called datalines,
    df, get_bars, get_iter_count or iter_index, a start bound later than
    every label gives a series with no row, not an error; every window asked
    of that series is a [KeyError]. *)
Theorem start_after_data_gives_empty_series (strategy : pyval) (a : Asset)
        (d : DataFrame) (s : Z) (de : bound_arg) (tstep cols : pyval) :
  idx_tz (df_index d) = None ->
  is_monotonic_increasing (idx_values (df_index d)) = true ->
  idx_values (df_index d) <> [] ->
  Forall (fun t => t < s) (idx_values (df_index d)) ->
  Data.check_bound de = Ok tt ->
  has_dup (column_names (Data.columns d)) = false ->
  no_column_named ["datalines"; "df"; "get_bars"; "get_iter_count"; "iter_index"] d ->
  exists self,
    Data.__init__ strategy a d (BDatetime s) de tstep cols = Ok self /\
    idx_values (df_index (Data.df self)) = [] /\
    forall dt length timestep timeshift,
      Data.get_bars self dt length timestep timeshift = Raise KeyError.
Proof.
  intros Htz Hmono Hne Hlt Hde Hdup Hcols.
  assert (Hsd : exists e, Data.set_dates d (BDatetime s) de = Ok (s, e)).
  { unfold Data.set_dates. simpl. rewrite Hde. simpl.
    destruct de as [|e|[|]]; simpl; try discriminate; try (eexists; reflexivity);
      unfold Data.last_label;
      (destruct (rev (idx_values (df_index d))) as [|y r] eqn:Hrev;
       [ apply (f_equal (@List.length Z)) in Hrev; rewrite List.length_rev in Hrev;
         destruct (idx_values (df_index d)); [congruence | discriminate Hrev]
       | simpl; eexists; reflexivity ]). }
  destruct Hsd as [e Hsd].
  destruct (get_slice_bound_sorted (idx_values (df_index d)) s Hmono) as [Hlo _].
  destruct (get_slice_bound_sorted (idx_values (df_index d)) e Hmono) as [_ Hhi].
  assert (Hfull : count_labels (fun t => t <? s) (idx_values (df_index d))
                  = Z.of_nat (List.length (idx_values (df_index d)))).
  { unfold count_labels. rewrite filter_all; [reflexivity|].
    eapply List.Forall_impl; [|exact Hlt]. simpl. intros t Ht.
    apply Z.ltb_lt. exact Ht. }
  assert (Hsub : no_column_named ["datalines"; "df"] d).
  { inversion Hcols as [|? ? H1 Hr1]; inversion Hr1 as [|? ? H2 _].
    repeat constructor; assumption. }
  destruct (init_ok strategy a d (BDatetime s) de tstep cols s e _ _
              Htz Hsd Hlo Hhi Hdup Hsub) as [self Hinit].
  exists self. split; [exact Hinit|].
  destruct (init_frame _ _ _ _ _ _ _ _ Hinit) as (Hs & _ & lo & hi & Hlo' & _ & Hix & _).
  simpl in Hs. rewrite Hs in Hlo'. rewrite Hlo in Hlo'. injection Hlo' as <-.
  assert (Hempty : idx_values (df_index (Data.df self)) = []).
  { rewrite Hix, Hfull, py_slice_past_end. reflexivity. }
  split; [exact Hempty|].
  intros dt length timestep timeshift.
  unfold Data.get_bars.
  rewrite (init_clear _ _ _ _ _ _ _ _ _ "get_bars" Hinit Hcols);
    [| simpl; tauto | reflexivity | reflexivity].
  rewrite get_iter_count_locate.
  - rewrite (locate_missing _ _ _ _ _ _ _ _ dt Hinit); [reflexivity|].
    rewrite Hempty. simpl. tauto.
  - apply (init_clear _ _ _ _ _ _ _ _ _ "get_iter_count" Hinit Hcols);
      [simpl; tauto | reflexivity | reflexivity].
  - apply (init_clear _ _ _ _ _ _ _ _ _ "iter_index" Hinit Hcols);
      [simpl; tauto | reflexivity | reflexivity].
Qed.

Lemma start_after_data_gives_empty_series_witness :
  exists self,
    Data.__init__ PyNone SPY three_bars (BDatetime 40) BNone (PyTimestep Day) PyNone
    = Ok self /\
    idx_values (df_index (Data.df self)) = [] /\
    forall dt length timestep timeshift,
      Data.get_bars self dt length timestep timeshift = Raise KeyError.
Proof.
  apply (start_after_data_gives_empty_series PyNone SPY three_bars 40 BNone
           (PyTimestep Day) PyNone).
  - reflexivity.
  - reflexivity.
  - discriminate.
  - simpl. repeat constructor; lia.
  - reflexivity.
  - reflexivity.
  - apply three_bars_columns. reflexivity.
Defined.

(** On a table whose index is sorted neither forwards nor backwards, a
    bound that is not a label of the table is a [KeyError] at construction:
    a label that is absent is given a position by binary search, which needs
    a monotonic index. *)
Theorem unsorted_table_needs_labels_as_bounds (strategy : pyval) (a : Asset)
        (d : DataFrame) (s e : Z) (tstep cols : pyval) :
  idx_tz (df_index d) = None ->
  is_monotonic_increasing (idx_values (df_index d)) = false ->
  is_monotonic_decreasing (idx_values (df_index d)) = false ->
  ~ In s (idx_values (df_index d)) \/ ~ In e (idx_values (df_index d)) ->
  Data.__init__ strategy a d (BDatetime s) (BDatetime e) tstep cols = Raise KeyError.
Proof.
  intros Htz Hinc Hdec Hnot.
  unfold Data.__init__, Data.set_date_format. simpl. rewrite Htz. simpl.
  unfold Data.trim_data, loc_slice, to_datetime_aware. simpl.
  destruct (get_slice_bound (idx_values (df_index d)) s true) as [lo|err] eqn:Hlo.
  - destruct Hnot as [Hs|He].
    + rewrite (get_slice_bound_absent _ s true Hinc Hdec Hs) in Hlo. discriminate Hlo.
    + simpl. rewrite (get_slice_bound_absent _ e false Hinc Hdec He). reflexivity.
  - simpl. now rewrite (get_slice_bound_error _ _ _ _ Hlo).
Qed.

Lemma unsorted_table_needs_labels_as_bounds_witness :
  Data.__init__ PyNone SPY shuffled_bars (BDatetime 11) (BDatetime 20) (PyTimestep Day) PyNone
  = Raise KeyError.
Proof.
  apply (unsorted_table_needs_labels_as_bounds PyNone SPY shuffled_bars 11 20
           (PyTimestep Day) PyNone).
  - reflexivity.
  - reflexivity.
  - reflexivity.
  - left. simpl. intros [H|[H|[H|[H|[]]]]]; discriminate H.
Defined.

(** ** Column names *)

Lemma lower_ascii_idempotent (c : ascii) : lower_ascii (lower_ascii c) = lower_ascii c.
Proof. destruct c as [[] [] [] [] [] [] [] []]; reflexivity. Qed.

Lemma lower_idempotent (s : string) : lower (lower s) = lower s.
Proof.
  induction s as [|c s IH]; simpl; [reflexivity|].
  now rewrite lower_ascii_idempotent, IH.
Qed.

Lemma rename_column_idempotent (col : string) :
  Data.rename_column (Data.rename_column col) = Data.rename_column col.
Proof.
  unfold Data.rename_column.
  destruct (mem_string (lower col) Data.ohlcv) eqn:Hm.
  - now rewrite lower_idempotent, Hm.
  - now rewrite Hm.
Qed.

(** Renaming the columns a second time changes nothing, and renaming
    never touches the index, the cells or the number of columns; a column is
    renamed exactly when its name is one of open, high, low, close, volume
    in some mix of upper and lower case, and then to the lower-case name. *)
Theorem columns_renames_once (d : DataFrame) :
  Data.columns (Data.columns d) = Data.columns d /\
  df_index (Data.columns d) = df_index d /\
  map snd (df_columns (Data.columns d)) = map snd (df_columns d) /\
  column_names (Data.columns d)
  = map (fun col => if mem_string (lower col) Data.ohlcv then lower col else col)
        (column_names d).
Proof.
  unfold Data.columns, column_names. simpl. repeat split.
  - f_equal. rewrite List.map_map. simpl.
    apply List.map_ext. intros [k v]. simpl. now rewrite rename_column_idempotent.
  - rewrite List.map_map. reflexivity.
  - rewrite !List.map_map. reflexivity.
Qed.

(** ** Windows *)

(** On a series whose labels are distinct, the window at a timestamp
    with a timeshift of [k] rows is the window, with no timeshift, at the
    timestamp [k] rows earlier. *)
Theorem timeshift_is_earlier_window (strategy : pyval) (a : Asset) (d : DataFrame)
        (ds de : bound_arg) (tstep cols : pyval) (self : Data.t)
        (i k : nat) (dt dt' length : Z) (timestep timestep' : Timestep) :
  Data.__init__ strategy a d ds de tstep cols = Ok self ->
  List.NoDup (idx_values (df_index (Data.df self))) ->
  (k <= i)%nat ->
  nth_error (idx_values (df_index (Data.df self))) i = Some dt ->
  nth_error (idx_values (df_index (Data.df self))) (i - k) = Some dt' ->
  Data.get_bars self dt length timestep (Z.of_nat k)
  = Data.get_bars self dt' length timestep' 0.
Proof.
  intros Hinit Hnd Hk Hi Hik.
  unfold Data.get_bars, Data.get_iter_count.
  destruct (Data.shadowed self "get_bars"); [reflexivity|].
  destruct (Data.shadowed self "get_iter_count"); [reflexivity|].
  destruct (Data.shadowed self "iter_index"); [reflexivity|].
  rewrite (locate_complete _ _ _ _ _ _ _ _ _ _ Hinit Hnd Hi).
  rewrite (locate_complete _ _ _ _ _ _ _ _ _ _ Hinit Hnd Hik).
  cbn [rbind].
  replace (Z.of_nat (i - k) + 1 - 0) with (Z.of_nat i + 1 - Z.of_nat k) by lia.
  reflexivity.
Qed.

Lemma three_bar_series_nodup :
  List.NoDup (idx_values (df_index (Data.df three_bar_series))).
Proof.
  simpl. repeat constructor; simpl; intros H;
    repeat (destruct H as [H|H]; [discriminate H|]); exact H.
Defined.

Lemma timeshift_is_earlier_window_witness :
  Data.get_bars three_bar_series 30 2 Minute (Z.of_nat 1)
  = Data.get_bars three_bar_series 20 2 Day 0.
Proof.
  apply (timeshift_is_earlier_window PyNone SPY three_bars BNone BNone (PyTimestep Day)
           PyNone three_bar_series 2 1 30 20 2 Minute Day).
  - exact three_bars_init.
  - exact three_bar_series_nodup.
  - lia.
  - reflexivity.
  - reflexivity.
Defined.

Lemma dict_set_fresh {V} (k : string) (v : V) (d : list (string * V)) :
  ~ In k (map fst d) -> dict_set k v d = d ++ [(k, v)].
Proof.
  induction d as [|[k0 v0] d IH]; simpl; intros Hn; [reflexivity|].
  destruct (String.eqb_spec k k0) as [->|Hne]; [tauto|].
  rewrite IH by tauto. reflexivity.
Qed.

Lemma fold_dict_set_fresh {V} (cols acc : list (string * V)) :
  has_dup (map fst cols) = false ->
  (forall k, In k (map fst cols) -> ~ In k (map fst acc)) ->
  fold_left (fun a c => dict_set (fst c) (snd c) a) cols acc = acc ++ cols.
Proof.
  revert acc. induction cols as [|[k v] cols IH]; intros acc Hdup Hdis; simpl in *.
  - now rewrite List.app_nil_r.
  - apply orb_false_elim in Hdup. destruct Hdup as [Hmem Hdup].
    rewrite dict_set_fresh by (apply Hdis; now left).
    rewrite IH.
    + now rewrite <- List.app_assoc.
    + exact Hdup.
    + intros k' Hk'. rewrite List.map_app, List.in_app_iff. simpl.
      intros [H|[H|[]]].
      * apply (Hdis k'); [now right | exact H].
      * subst k'. apply mem_string_In in Hk'. congruence.
Qed.

Lemma dict_del_absent {V} (k : string) (d : list (string * V)) :
  ~ In k (map fst d) -> dict_del k d = d.
Proof.
  induction d as [|[k0 v0] d IH]; simpl; intros Hn; [reflexivity|].
  destruct (String.eqb_spec k k0) as [->|Hne]; [tauto|].
  rewrite IH by tauto. reflexivity.
Qed.

(** The datalines of a series are the index followed by the columns of its
    frame, in the order of the table, when no column is called datetime. *)
Lemma init_datalines (strategy : pyval) (a : Asset) (d : DataFrame) (ds de : bound_arg)
      (tstep cols : pyval) (self : Data.t) :
  ~ In "datetime" (column_names d) ->
  Data.__init__ strategy a d ds de tstep cols = Ok self ->
  ~ In "datetime" (column_names (Data.df self)) /\
  Data.datalines self
  = ("datetime", idx_values (df_index (Data.df self))) :: df_columns (Data.df self).
Proof.
  intros Hn Hinit.
  destruct (init_inv _ _ _ _ _ _ _ _ Hinit) as (_ & _ & _ & Hnames & _ & Hdl & _ & Hdup & _).
  assert (Hn' : ~ In "datetime" (column_names (Data.df self)))
    by (rewrite Hnames; apply columns_keeps_absent; [reflexivity | exact Hn]).
  split; [exact Hn'|].
  rewrite Hdl. rewrite fold_dict_set_fresh; [reflexivity | exact Hdup |].
  intros k Hk [H|[]]. simpl in H. subst k. exact (Hn' Hk).
Qed.

(** On a series made of a table of which no column is called datetime,
    get_bars or datalines, the window is the same Python slice of the index
    and of every column of the frame, in the order of the table: the rows
    from [max 0 (end_row - length)] to [end_row = row + 1 - timeshift]. *)
Theorem window_holds_every_column (strategy : pyval) (a : Asset) (d : DataFrame)
        (ds de : bound_arg) (tstep cols : pyval) (self : Data.t)
        (dt i length timeshift : Z) (timestep : Timestep) :
  no_column_named ["datetime"; "get_bars"; "datalines"] d ->
  Data.__init__ strategy a d ds de tstep cols = Ok self ->
  Data.get_iter_count self dt = Ok (LScalar i) ->
  let end_row := i + 1 - timeshift in
  let start_row := Z.max 0 (end_row - length) in
  Data.get_bars self dt length timestep timeshift =
  Ok {| bars_index := py_slice (idx_values (df_index (Data.df self))) start_row end_row;
        bars_columns :=
          map (fun c => (fst c, py_slice (snd c) start_row end_row))
              (df_columns (Data.df self)) |}.
Proof.
  intros Hcols Hinit Hrow end_row start_row.
  assert (Hn : ~ In "datetime" (column_names d)) by (inversion Hcols; assumption).
  destruct (init_datalines _ _ _ _ _ _ _ _ Hn Hinit) as [Hn' Hdl].
  rewrite (get_bars_at_row self dt i length timeshift timestep
             (idx_values (df_index (Data.df self)))).
  - fold end_row. fold start_row. rewrite Hdl. simpl.
    rewrite dict_del_absent; [reflexivity|].
    rewrite List.map_map. simpl. exact Hn'.
  - apply (init_clear _ _ _ _ _ _ _ _ _ "get_bars" Hinit Hcols);
      [simpl; tauto | reflexivity | reflexivity].
  - apply (init_clear _ _ _ _ _ _ _ _ _ "datalines" Hinit Hcols);
      [simpl; tauto | reflexivity | reflexivity].
  - exact Hrow.
  - rewrite Hdl. reflexivity.
Qed.

Lemma window_holds_every_column_witness :
  let end_row := 2 + 1 - 1 in
  let start_row := Z.max 0 (end_row - 5) in
  Data.get_bars three_bar_series 30 5 Minute 1 =
  Ok {| bars_index := py_slice (idx_values (df_index (Data.df three_bar_series)))
                               start_row end_row;
        bars_columns :=
          map (fun c => (fst c, py_slice (snd c) start_row end_row))
              (df_columns (Data.df three_bar_series)) |}.
Proof.
  apply (window_holds_every_column PyNone SPY three_bars BNone BNone (PyTimestep Day)
           PyNone three_bar_series 30 2 5 1 Minute).
  - apply three_bars_columns. reflexivity.
  - exact three_bars_init.
  - reflexivity.
Defined.

Lemma firstn_skipn_sub {A} (P : A -> Prop) (l : list A) (s n : nat) :
  Forall P (firstn (s + n) l) -> Forall P (firstn n (skipn s l)).
Proof.
  revert l. induction s as [|s IH]; intros l H; simpl in *; [exact H|].
  destruct l as [|x l]; simpl in *.
  - rewrite List.firstn_nil. constructor.
  - apply IH. now inversion H.
Qed.

Lemma firstn_before_row (pre post : list Z) (dt : Z) (n : nat) :
  strictly_increasing (pre ++ dt :: post) ->
  (n <= S (List.length pre))%nat ->
  Forall (fun t => t <= dt) (firstn n (pre ++ dt :: post)) /\
  ((n <= List.length pre)%nat -> Forall (fun t => t < dt) (firstn n (pre ++ dt :: post))).
Proof.
  intros Hs Hn. destruct (increasing_split _ _ _ Hs) as [Hpre _].
  rewrite List.firstn_app. split.
  - apply List.Forall_app. split.
    + apply firstn_Forall. eapply List.Forall_impl; [|exact Hpre]. simpl. intros; lia.
    + destruct (n - List.length pre)%nat as [|[|m]] eqn:Hm; simpl; try constructor;
        try lia; constructor.
  - intros Hle. replace (n - List.length pre)%nat with 0%nat by lia. simpl.
    rewrite List.app_nil_r. now apply firstn_Forall.
Qed.

(** On a series made of a table fit for windows (a strictly increasing
    index, no column called get_bars, get_iter_count, iter_index, datalines
    or datetime), with a timestamp at row [i] and a timeshift between 0 and
    [i + 1], the window has [min length (i + 1 - timeshift)] rows, the rows
    that end [timeshift] rows before the one after the timestamp; none of
    them is later than the timestamp, and all of them are earlier when the
    timeshift is at least one. *)
Theorem window_with_timeshift (strategy : pyval) (a : Asset) (d : DataFrame)
        (ds de : bound_arg) (tstep cols : pyval) (self : Data.t)
        (i : nat) (dt length timeshift : Z) (timestep : Timestep) :
  valid_input d ->
  Data.__init__ strategy a d ds de tstep cols = Ok self ->
  nth_error (idx_values (df_index (Data.df self))) i = Some dt ->
  1 <= length ->
  0 <= timeshift <= Z.of_nat i + 1 ->
  exists bars,
    Data.get_bars self dt length timestep timeshift = Ok bars /\
    Z.of_nat (List.length (bars_index bars)) = Z.min length (Z.of_nat i + 1 - timeshift) /\
    bars_index bars =
      firstn (Z.to_nat (Z.min length (Z.of_nat i + 1 - timeshift)))
             (skipn (Z.to_nat (Z.max 0 (Z.of_nat i + 1 - timeshift - length)))
                    (idx_values (df_index (Data.df self)))) /\
    Forall (fun t => t <= dt) (bars_index bars) /\
    (1 <= timeshift -> Forall (fun t => t < dt) (bars_index bars)).
Proof.
  intros [Hinc Hcol] Hinit Hnth Hlen Hshift.
  pose proof (init_increasing _ _ _ _ _ _ _ _ Hinc Hinit) as Hs.
  destruct (init_reads _ _ _ _ _ _ _ _ Hcol Hinit) as (Hgb & Hgic & Hii & Hdls & Hdl).
  destruct (init_inv _ _ _ _ _ _ _ _ Hinit) as (_ & _ & _ & _ & Hit & _).
  destruct (List.nth_error_split _ _ Hnth) as (pre & post & Hix & Hpre).
  assert (Hrow : Data.get_iter_count self dt = Ok (LScalar (Z.of_nat i))).
  { rewrite (get_iter_count_locate self dt Hgic Hii). rewrite <- Hpre.
    apply (locate_row self pre post dt); rewrite <- Hix; assumption. }
  assert (Hi : Z.of_nat i < Z.of_nat (List.length (idx_values (df_index (Data.df self))))).
  { rewrite Hix, List.length_app. simpl. lia. }
  destruct (get_bars_rows_in_range self dt (Z.of_nat i) length timeshift timestep _
              Hgb Hdls Hrow Hdl Hi Hlen Hshift) as (bars & Hb & Hrows & Hcount & _).
  exists bars. split; [exact Hb|].
  set (end_row := Z.of_nat i + 1 - timeshift) in *.
  set (start_row := Z.max 0 (end_row - length)) in *.
  assert (Hmin : end_row - start_row = Z.min length end_row)
    by (unfold start_row, end_row; lia).
  split; [now rewrite Hcount|]. split; [now rewrite Hrows, Hmin|].
  rewrite Hrows, Hix.
  destruct (firstn_before_row pre post dt (Z.to_nat start_row + Z.to_nat (end_row - start_row)))
    as [Hle Hlt].
  { rewrite <- Hix. exact Hs. }
  { unfold start_row, end_row. lia. }
  split.
  - apply firstn_skipn_sub. exact Hle.
  - intros Hone. apply firstn_skipn_sub. apply Hlt. unfold start_row, end_row. lia.
Qed.

Lemma window_with_timeshift_witness :
  exists bars,
    Data.get_bars three_bar_series 30 5 Minute 1 = Ok bars /\
    Z.of_nat (List.length (bars_index bars)) = Z.min 5 (Z.of_nat 2 + 1 - 1) /\
    bars_index bars =
      firstn (Z.to_nat (Z.min 5 (Z.of_nat 2 + 1 - 1)))
             (skipn (Z.to_nat (Z.max 0 (Z.of_nat 2 + 1 - 1 - 5)))
                    (idx_values (df_index (Data.df three_bar_series)))) /\
    Forall (fun t => t <= 30) (bars_index bars) /\
    (1 <= 1 -> Forall (fun t => t < 30) (bars_index bars)).
Proof.
  apply (window_with_timeshift PyNone SPY three_bars BNone BNone (PyTimestep Day) PyNone
           three_bar_series 2 30 5 1 Minute).
  - exact three_bars_valid.
  - exact three_bars_init.
  - reflexivity.
  - lia.
  - lia.
Defined.

(** * Further properties of the backtesting source *)

(** ** What is sent to the provider *)

Lemma planned_request_absent (array_is : list Z -> Timestep -> res bool)
      (self : ThetaDataBacktesting.t) (asset : asset_arg)
      (quote : option Asset) (length : Z) (timestep : Timestep) (start_dt : option Z) :
  pandas_data self !! split_asset asset quote = None ->
  planned_request array_is self asset quote length timestep start_dt
  = Ok (Some (request_for self asset quote length timestep start_dt timestep)).
Proof.
  intros Hnone. unfold planned_request. cbv zeta. rewrite Hnone. reflexivity.
Qed.

(** A series the constructor makes of a table that has no column called
    timestep has no attribute of that name. *)
Lemma init_no_timestep (strategy : pyval) (a : Asset) (d : DataFrame) (ds de : bound_arg)
      (tstep cols : pyval) (self : Data.t) :
  Data.__init__ strategy a d ds de tstep cols = Ok self ->
  ~ In "timestep" (column_names d) ->
  dict_get "timestep" (Data.arrays self) = None.
Proof.
  intros Hinit Hn.
  destruct (init_inv _ _ _ _ _ _ _ _ Hinit) as (_ & _ & _ & Hnames & _ & Hdl & Harr & _).
  rewrite Harr, Hdl. rewrite dict_get_fold_other; [reflexivity|].
  change (map fst (df_columns (Data.df self))) with (column_names (Data.df self)).
  rewrite Hnames. apply columns_keeps_absent; [reflexivity | exact Hn].
Qed.

Lemma bars_from_day_91_init (tstep : pyval) :
  Data.__init__ PyNone SPY (bars_from_day 91) BNone BNone tstep PyNone
  = Ok series_from_day_91.
Proof. vm_compute. reflexivity. Qed.

(** A series made by the constructor, of a table with at least one row left
    and no column called timestep or df, and cached for the key, is of no
    use: [update_pandas_data] reads its [timestep], which the constructor
    does not set, and raises an [AttributeError] before any request is sent,
    whatever the resolution and the length asked; the bar-window request
    raises it too and leaves the state as it was. *)
Theorem cached_series_is_attribute_error (array_is : list Z -> Timestep -> res bool)
        (gp : FetchRequest -> res (option DataFrame))
        (self : ThetaDataBacktesting.t) (asset : asset_arg) (length : Z)
        (timestep : Timestep) (timeshift : option Z) (quote : option Asset)
        (start_dt : option Z) (entry : Data.t)
        (strategy : pyval) (a : Asset) (d : DataFrame) (ds de : bound_arg)
        (tstep cols : pyval) :
  Data.__init__ strategy a d ds de tstep cols = Ok entry ->
  no_column_named ["timestep"; "df"] d ->
  idx_values (df_index (Data.df entry)) <> [] ->
  pandas_data self !! split_asset asset quote = Some entry ->
  update_pandas_data array_is gp self asset quote length timestep start_dt
  = (Raise AttributeError, self) /\
  _pull_source_symbol_bars array_is gp self asset length timestep timeshift quote
  = (Raise AttributeError, self) /\
  fetches (snd (update_pandas_data array_is gp self asset quote length timestep start_dt))
  = fetches self.
Proof.
  intros Hinit Hcols Hrows Hentry.
  assert (Hts : dict_get "timestep" (Data.arrays entry) = None).
  { apply (init_no_timestep _ _ _ _ _ _ _ _ Hinit). inversion Hcols; assumption. }
  assert (Hdf : Data.shadowed entry "df" = false).
  { apply (init_clear _ _ _ _ _ _ _ _ _ "df" Hinit Hcols);
      [simpl; tauto | reflexivity | reflexivity]. }
  assert (Hplan : forall sd, planned_request array_is self asset quote length timestep sd
                             = Raise AttributeError).
  { intros sd. unfold planned_request. cbv zeta. rewrite Hentry.
    rewrite (check_entry_no_timestep _ _ _ _ Hts), Hdf.
    destruct (idx_values (df_index (Data.df entry))); [congruence | reflexivity]. }
  assert (Hupd : forall sd, update_pandas_data array_is gp self asset quote length timestep sd
                            = (Raise AttributeError, self)).
  { intros sd. rewrite update_pandas_data_eq, Hplan. reflexivity. }
  split; [apply Hupd|]. split.
  - unfold _pull_source_symbol_bars. rewrite Hupd. reflexivity.
  - rewrite Hupd. reflexivity.
Qed.

Lemma cached_series_is_attribute_error_witness :
  update_pandas_data never_equal early_provider cached_backtest (AssetOf SPY) None
                     5 Minute None
  = (Raise AttributeError, cached_backtest) /\
  _pull_source_symbol_bars never_equal early_provider cached_backtest (AssetOf SPY)
                           5 Minute None None
  = (Raise AttributeError, cached_backtest) /\
  fetches (snd (update_pandas_data never_equal early_provider cached_backtest
                                   (AssetOf SPY) None 5 Minute None))
  = fetches cached_backtest.
Proof.
  apply (cached_series_is_attribute_error never_equal early_provider cached_backtest
           (AssetOf SPY) 5 Minute None None None series_from_day_91
           PyNone SPY (bars_from_day 91) BNone BNone (PyTimestep Minute) PyNone).
  - apply bars_from_day_91_init.
  - repeat constructor; simpl; intros [H|[]]; discriminate H.
  - discriminate.
  - vm_compute. reflexivity.
Defined.

(** With nothing cached for the key, [update_pandas_data] sends exactly one
    request, at the requested resolution, for the asset and the quote of the
    key, from the required start to the end of the run. *)
Theorem nothing_cached_fetches_once (array_is : list Z -> Timestep -> res bool)
        (gp : FetchRequest -> res (option DataFrame))
        (self : ThetaDataBacktesting.t) (asset : asset_arg) (quote : option Asset)
        (length : Z) (timestep : Timestep) (start_dt : option Z) :
  pandas_data self !! split_asset asset quote = None ->
  fetches (snd (update_pandas_data array_is gp self asset quote length timestep start_dt))
  = fetches self ++ [request_for self asset quote length timestep start_dt timestep].
Proof.
  intros Hnone. rewrite update_fetches.
  now rewrite (planned_request_absent _ _ _ _ _ _ _ Hnone).
Qed.

Lemma nothing_cached_fetches_once_witness :
  fetches (snd (update_pandas_data never_equal early_provider empty_backtest (AssetOf SPY)
                                   None 5 Minute None))
  = fetches empty_backtest
    ++ [request_for empty_backtest (AssetOf SPY) None 5 Minute None Minute].
Proof.
  apply (nothing_cached_fetches_once never_equal early_provider empty_backtest
           (AssetOf SPY) None 5 Minute None).
  vm_compute. reflexivity.
Defined.

(** ** Edge cases of the refresh *)

(** A series with no row cached for the key, whose [df] is its frame (no
    column of that name took its place), is an [IndexError] before any
    request is sent: the bar-window request raises it and leaves the state as
    it was. *)
Theorem empty_cached_series_is_index_error (array_is : list Z -> Timestep -> res bool)
        (gp : FetchRequest -> res (option DataFrame))
        (self : ThetaDataBacktesting.t) (asset : asset_arg) (length : Z)
        (timestep : Timestep) (timeshift : option Z) (quote : option Asset)
        (start_dt : option Z) (entry : Data.t) :
  pandas_data self !! split_asset asset quote = Some entry ->
  Data.shadowed entry "df" = false ->
  idx_values (df_index (Data.df entry)) = [] ->
  update_pandas_data array_is gp self asset quote length timestep start_dt
  = (Raise IndexError, self) /\
  _pull_source_symbol_bars array_is gp self asset length timestep timeshift quote
  = (Raise IndexError, self).
Proof.
  intros Hentry Hdf Hix.
  assert (Hplan : forall sd, planned_request array_is self asset quote length timestep sd
                             = Raise IndexError).
  { intros sd. unfold planned_request. cbv zeta. rewrite Hentry.
    unfold check_entry, Data.first_label. rewrite Hdf, Hix. reflexivity. }
  split.
  - rewrite update_pandas_data_eq, Hplan. reflexivity.
  - unfold _pull_source_symbol_bars. rewrite update_pandas_data_eq, Hplan. reflexivity.
Qed.

Lemma empty_cached_series_is_index_error_witness :
  update_pandas_data never_equal early_provider backtest_with_no_bar (AssetOf SPY) None
                     5 Day None
  = (Raise IndexError, backtest_with_no_bar) /\
  _pull_source_symbol_bars never_equal early_provider backtest_with_no_bar (AssetOf SPY)
                           5 Day None None
  = (Raise IndexError, backtest_with_no_bar).
Proof.
  apply (empty_cached_series_is_index_error never_equal early_provider backtest_with_no_bar
           (AssetOf SPY) 5 Day None None None no_bar_series).
  - vm_compute. reflexivity.
  - reflexivity.
  - reflexivity.
Defined.

(** When the provider answers that it has no data, the request is recorded,
    nothing is logged, the cache is left as it was, and the bar-window request
    answers from that cache. *)
Theorem no_data_leaves_cache (array_is : list Z -> Timestep -> res bool)
        (gp : FetchRequest -> res (option DataFrame))
        (self : ThetaDataBacktesting.t) (asset : asset_arg) (length : Z)
        (timestep : Timestep) (timeshift : option Z) (quote : option Asset)
        (r : FetchRequest) :
  fetches (snd (update_pandas_data array_is gp self asset quote length timestep None))
  = fetches self ++ [r] ->
  gp r = Ok None ->
  _pull_source_symbol_bars array_is gp self asset length timestep timeshift quote
  = (super_pull_source_symbol_bars self asset length timestep timeshift quote,
     record_fetch self r).
Proof.
  intros Hf Hgp. apply planned_of_fetches in Hf.
  unfold _pull_source_symbol_bars. rewrite update_pandas_data_eq, Hf.
  unfold complete_fetch. rewrite Hgp. reflexivity.
Qed.

Lemma no_data_leaves_cache_witness :
  _pull_source_symbol_bars never_equal silent_provider empty_backtest (AssetOf SPY)
                           5 Day None None
  = (super_pull_source_symbol_bars empty_backtest (AssetOf SPY) 5 Day None None,
     record_fetch empty_backtest five_days_request).
Proof.
  apply (no_data_leaves_cache never_equal silent_provider empty_backtest (AssetOf SPY)
           5 Day None None five_days_request).
  - vm_compute. reflexivity.
  - reflexivity.
Defined.

(** When the provider answers with a table, whatever the table, the call of
    the constructor with the keyword [quote], which is no parameter of it, is
    a [TypeError]; the error reaches the caller of the bar-window request as
    it is, not wrapped and not logged, the request stays recorded and the
    cache is left as it was. *)
Theorem fetched_table_is_type_error (array_is : list Z -> Timestep -> res bool)
        (gp : FetchRequest -> res (option DataFrame))
        (self : ThetaDataBacktesting.t) (asset : asset_arg) (length : Z)
        (timestep : Timestep) (timeshift : option Z) (quote : option Asset)
        (r : FetchRequest) (fetched : DataFrame) :
  fetches (snd (update_pandas_data array_is gp self asset quote length timestep None))
  = fetches self ++ [r] ->
  gp r = Ok (Some fetched) ->
  Data.new [PyAsset (fr_asset r); PyFrame fetched]
           [("timestep", PyTimestep (fr_timespan r)); ("quote", PyAsset (fr_quote r))]
  = Raise TypeError /\
  _pull_source_symbol_bars array_is gp self asset length timestep timeshift quote
  = (Raise TypeError, record_fetch self r) /\
  pandas_data (record_fetch self r) = pandas_data self /\
  info_log (record_fetch self r) = info_log self.
Proof.
  intros Hf Hgp. apply planned_of_fetches in Hf.
  split; [apply new_with_quote; simpl; tauto|].
  split; [|split; reflexivity].
  unfold _pull_source_symbol_bars. rewrite update_pandas_data_eq, Hf.
  rewrite complete_fetch_cases, Hgp. reflexivity.
Qed.

Lemma fetched_table_is_type_error_witness :
  Data.new [PyAsset (fr_asset five_days_request); PyFrame (frame_of [] [])]
           [("timestep", PyTimestep (fr_timespan five_days_request));
            ("quote", PyAsset (fr_quote five_days_request))]
  = Raise TypeError /\
  _pull_source_symbol_bars never_equal blank_provider empty_backtest (AssetOf SPY)
                           5 Day None None
  = (Raise TypeError, record_fetch empty_backtest five_days_request) /\
  pandas_data (record_fetch empty_backtest five_days_request) = pandas_data empty_backtest /\
  info_log (record_fetch empty_backtest five_days_request) = info_log empty_backtest.
Proof.
  apply (fetched_table_is_type_error never_equal blank_provider empty_backtest
           (AssetOf SPY) 5 Day None None five_days_request (frame_of [] [])).
  - vm_compute. reflexivity.
  - reflexivity.
Defined.

(** [update_pandas_data] never writes: whatever it returns, the two cache
    maps, the clock and the bounds of the run are as before, at most one
    request has been sent, and a line is logged only when the provider
    raised. *)
Theorem update_only_reads (array_is : list Z -> Timestep -> res bool)
        (gp : FetchRequest -> res (option DataFrame))
        (self : ThetaDataBacktesting.t) (asset : asset_arg) (quote : option Asset)
        (length : Z) (timestep : Timestep) (start_dt : option Z) :
  let out := update_pandas_data array_is gp self asset quote length timestep start_dt in
  pandas_data (snd out) = pandas_data self /\
  _data_store (snd out) = _data_store self /\
  datetime (snd out) = datetime self /\
  datetime_end (snd out) = datetime_end self /\
  (List.length (fetches (snd out)) <= List.length (fetches self) + 1)%nat /\
  (info_log (snd out) = info_log self \/
   exists r e, gp r = Raise e /\
               info_log (snd out) = info_log self ++ [LogTraceback e] /\
               fst out = Raise (Exception "Error getting data from ThetaData" e)).
Proof.
  cbv zeta. rewrite update_pandas_data_eq.
  destruct (planned_request array_is self asset quote length timestep start_dt)
    as [[r|]|e]; simpl; try (repeat split; auto; lia).
  rewrite complete_fetch_cases. destruct (gp r) as [[fetched|]|e] eqn:Hgp; simpl.
  - repeat split; auto. rewrite List.length_app; simpl; lia.
  - repeat split; auto. rewrite List.length_app; simpl; lia.
  - repeat split; auto; [rewrite List.length_app; simpl; lia|].
    right. exists r, e. auto.
Qed.

(** ** The last price *)

(** When the provider answers the refresh of a last-price request with a
    table, the [TypeError] of the call of the constructor is caught and
    logged with the time and the asset, neither cache map is touched, and the
    request answers what the lookup of the parent class answers on that
    state. *)
Theorem last_price_logs_type_error (array_is : list Z -> Timestep -> res bool)
        (gp : FetchRequest -> res (option DataFrame))
        (sup : ThetaDataBacktesting.t -> asset_arg -> option Asset -> res (option cell_result))
        (self : ThetaDataBacktesting.t) (asset : asset_arg) (timestep : Timestep)
        (quote : option Asset) (r : FetchRequest) (fetched : DataFrame) :
  fetches (snd (update_pandas_data array_is gp self asset quote 1 timestep
                                   (Some (get_datetime self))))
  = fetches self ++ [r] ->
  gp r = Ok (Some fetched) ->
  let out := get_last_price array_is gp sup self asset timestep quote in
  pandas_data (snd out) = pandas_data self /\
  _data_store (snd out) = _data_store self /\
  fetches (snd out) = fetches self ++ [r] /\
  info_log (snd out)
  = info_log self ++ [LogLastPriceError TypeError (get_datetime self) asset] /\
  fst out = sup (snd out) asset quote.
Proof.
  intros Hf Hgp. apply planned_of_fetches in Hf.
  unfold get_last_price.
  rewrite update_pandas_data_eq, Hf, complete_fetch_cases, Hgp.
  cbv zeta. simpl. auto.
Qed.

Lemma last_price_logs_type_error_witness :
  let out := get_last_price never_equal early_provider no_price_lookup empty_backtest
                            (AssetOf SPY) Minute None in
  pandas_data (snd out) = pandas_data empty_backtest /\
  _data_store (snd out) = _data_store empty_backtest /\
  fetches (snd out)
  = fetches empty_backtest
    ++ [request_for empty_backtest (AssetOf SPY) None 1 Minute
                    (Some (get_datetime empty_backtest)) Minute] /\
  info_log (snd out)
  = info_log empty_backtest
    ++ [LogLastPriceError TypeError (get_datetime empty_backtest) (AssetOf SPY)] /\
  fst out = no_price_lookup (snd out) (AssetOf SPY) None.
Proof.
  apply (last_price_logs_type_error never_equal early_provider no_price_lookup
           empty_backtest (AssetOf SPY) Minute None
           (request_for empty_backtest (AssetOf SPY) None 1 Minute
                        (Some (get_datetime empty_backtest)) Minute)
           (bars_from_day 91)).
  - vm_compute. reflexivity.
  - reflexivity.
Defined.

(** ** Prices between two dates *)

(** [get_historical_prices_between_dates] refreshes the cache exactly as a
    bar-window request for one bar does; an error of the refresh reaches the
    caller, and when the parent class finds nothing the answer is [None]. *)
Theorem between_dates_refreshes_like_one_bar
        (array_is : list Z -> Timestep -> res bool)
        (gp : FetchRequest -> res (option DataFrame)) (Response ParsedBars : Type)
        (sup : ThetaDataBacktesting.t -> asset_arg -> Timestep -> option Asset ->
               option Z -> option Z -> res (option Response))
        (parse : ThetaDataBacktesting.t -> Response -> asset_arg -> option Asset ->
                 res ParsedBars)
        (self : ThetaDataBacktesting.t) (asset : asset_arg) (timestep : Timestep)
        (quote : option Asset) (start_date end_date : option Z) (timeshift : option Z) :
  let out := get_historical_prices_between_dates array_is gp Response ParsedBars sup parse
               self asset timestep quote start_date end_date in
  snd out
  = snd (_pull_source_symbol_bars array_is gp self asset 1 timestep timeshift quote) /\
  (forall e,
      fst (update_pandas_data array_is gp self asset quote 1 timestep None) = Raise e ->
      fst out = Raise e) /\
  (sup (snd out) asset timestep quote start_date end_date = Ok None ->
   (exists u, fst (update_pandas_data array_is gp self asset quote 1 timestep None) = Ok u) ->
   fst out = Ok None).
Proof.
  cbv zeta. unfold get_historical_prices_between_dates, _pull_source_symbol_bars.
  destruct (update_pandas_data array_is gp self asset quote 1 timestep None)
    as [[upd|e] s]; simpl.
  - set (s' := match upd with
               | Some u => with_pandas_data s (dict_update (pandas_data s) u)
               | None => s
               end).
    destruct (sup s' asset timestep quote start_date end_date) as [[resp|]|e] eqn:Hsup;
      simpl.
    + destruct (parse s' resp asset quote); simpl;
        (split; [reflexivity|]); (split; [discriminate|]);
        intros H; rewrite Hsup in H; discriminate H.
    + split; [reflexivity|]. split; [discriminate|]. reflexivity.
    + split; [reflexivity|]. split; [discriminate|].
      intros H. rewrite Hsup in H. discriminate H.
  - split; [reflexivity|]. split; [now intros e' [= ->]|].
    intros _ [u Hu]. discriminate Hu.
Qed.

(** ** The asset-quote key *)

(** The cache key does not depend on how the pair is given: an
    (asset, quote) tuple behaves as the asset with that quote, whatever quote
    is passed beside the tuple, and an asset with no quote as the asset quoted
    in USD. *)
Theorem key_is_stable (array_is : list Z -> Timestep -> res bool)
        (gp : FetchRequest -> res (option DataFrame))
        (self : ThetaDataBacktesting.t) (a q : Asset) (quote : option Asset)
        (length : Z) (timestep : Timestep) (timeshift : option Z) (start_dt : option Z) :
  update_pandas_data array_is gp self (AssetPair a q) quote length timestep start_dt
  = update_pandas_data array_is gp self (AssetOf a) (Some q) length timestep start_dt /\
  _pull_source_symbol_bars array_is gp self (AssetPair a q) length timestep timeshift quote
  = _pull_source_symbol_bars array_is gp self (AssetOf a) length timestep timeshift (Some q) /\
  _pull_source_symbol_bars array_is gp self (AssetOf a) length timestep timeshift None
  = _pull_source_symbol_bars array_is gp self (AssetOf a) length timestep timeshift
      (Some (mkAsset "USD" "forex")).
Proof.
  assert (H1 : update_pandas_data array_is gp self (AssetPair a q) quote length timestep
                                  start_dt
               = update_pandas_data array_is gp self (AssetOf a) (Some q) length timestep
                                    start_dt)
    by reflexivity.
  split; [exact H1|]. split.
  - unfold _pull_source_symbol_bars.
    change (update_pandas_data array_is gp self (AssetPair a q) quote length timestep None)
      with (update_pandas_data array_is gp self (AssetOf a) (Some q) length timestep None).
    destruct (update_pandas_data array_is gp self (AssetOf a) (Some q) length timestep None)
      as [[[upd|]|e] s]; reflexivity.
  - unfold _pull_source_symbol_bars.
    change (update_pandas_data array_is gp self (AssetOf a) None length timestep None)
      with (update_pandas_data array_is gp self (AssetOf a) (Some (mkAsset "USD" "forex"))
                               length timestep None).
    destruct (update_pandas_data array_is gp self (AssetOf a) (Some (mkAsset "USD" "forex"))
                                 length timestep None)
      as [[[upd|]|e] s]; reflexivity.
Qed.

(** * Option chains *)

Lemma digit_char_checked :
  forallb (fun k : nat =>
             let c := digit_char (Z.of_nat k) in
             match digit_value c with
             | Some v => v =? Z.of_nat k
             | None => false
             end
             && negb (is_space c) && negb (Ascii.eqb c "-") && negb (Ascii.eqb c "+"))
          (seq 0 10) = true.
Proof. vm_compute. reflexivity. Qed.

Lemma digit_char_facts (n : Z) :
  0 <= n <= 9 ->
  digit_value (digit_char n) = Some n /\
  is_space (digit_char n) = false /\
  Ascii.eqb (digit_char n) "-" = false /\
  Ascii.eqb (digit_char n) "+" = false.
Proof.
  intros H.
  pose proof digit_char_checked as Hall.
  rewrite List.forallb_forall in Hall.
  specialize (Hall (Z.to_nat n)).
  rewrite Z2Nat.id in Hall by lia. cbv zeta in Hall.
  assert (Hin : In (Z.to_nat n) (seq 0 10)) by (apply List.in_seq; lia).
  specialize (Hall Hin).
  apply andb_prop in Hall. destruct Hall as [Hall Hplus].
  apply andb_prop in Hall. destruct Hall as [Hall Hminus].
  apply andb_prop in Hall. destruct Hall as [Hval Hspace].
  apply negb_true_iff in Hplus, Hminus, Hspace.
  repeat split; try assumption.
  destruct (digit_value (digit_char n)) as [v|]; [|discriminate].
  apply Z.eqb_eq in Hval. now subst.
Qed.

Lemma py_int_digits2 (a b : Z) :
  0 <= a <= 9 -> 0 <= b <= 9 ->
  py_int (String (digit_char a) (String (digit_char b) EmptyString)) = Ok (10 * a + b).
Proof.
  intros Ha Hb.
  destruct (digit_char_facts a Ha) as (Hva & Hsa & Hma & Hpa).
  destruct (digit_char_facts b Hb) as (Hvb & Hsb & _ & _).
  unfold py_int, strip_chars. cbn [list_ascii_of_string lstrip_chars].
  rewrite Hsa. cbn [rev app lstrip_chars]. rewrite Hsb. cbn [rev app].
  rewrite Hma, Hpa. cbn [snd fst int_digits]. rewrite Hva. cbn [int_digits].
  rewrite Hvb. cbn [int_digits]. f_equal. lia.
Qed.

Lemma py_int_digits4 (a b c d : Z) :
  0 <= a <= 9 -> 0 <= b <= 9 -> 0 <= c <= 9 -> 0 <= d <= 9 ->
  py_int (String (digit_char a) (String (digit_char b)
            (String (digit_char c) (String (digit_char d) EmptyString))))
  = Ok (1000 * a + 100 * b + 10 * c + d).
Proof.
  intros Ha Hb Hc Hd.
  destruct (digit_char_facts a Ha) as (Hva & Hsa & Hma & Hpa).
  destruct (digit_char_facts b Hb) as (Hvb & _ & _ & _).
  destruct (digit_char_facts c Hc) as (Hvc & _ & _ & _).
  destruct (digit_char_facts d Hd) as (Hvd & Hsd & _ & _).
  unfold py_int, strip_chars. cbn [list_ascii_of_string lstrip_chars].
  rewrite Hsa. cbn [rev app lstrip_chars]. rewrite Hsd. cbn [rev app].
  rewrite Hma, Hpa. cbn [snd fst int_digits].
  rewrite Hva. cbn [int_digits]. rewrite Hvb. cbn [int_digits].
  rewrite Hvc. cbn [int_digits]. rewrite Hvd. cbn [int_digits]. f_equal. lia.
Qed.

(** Reading a calendar date written as YYYY-MM-DD gives the date back. *)
Lemma expiration_date_iso (dte : pydate) :
  valid_date dte -> expiration_date (iso_date dte) = Ok dte.
Proof.
  destruct dte as [y m d]. unfold valid_date. simpl. intros (Hy & Hm & Hd).
  assert (Hd31 : d <= 31).
  { unfold days_in_month in Hd.
    destruct (m =? 2); [destruct (is_leap y); lia|].
    destruct ((m =? 4) || (m =? 6) || (m =? 9) || (m =? 11)); lia. }
  assert (Hy1 : 0 <= y / 1000 <= 9) by (Z.div_mod_to_equations; lia).
  assert (Hy2 : 0 <= y / 100 mod 10 <= 9) by (Z.div_mod_to_equations; lia).
  assert (Hy3 : 0 <= y / 10 mod 10 <= 9) by (Z.div_mod_to_equations; lia).
  assert (Hy4 : 0 <= y mod 10 <= 9) by (Z.div_mod_to_equations; lia).
  assert (Hm1 : 0 <= m / 10 <= 9) by (Z.div_mod_to_equations; lia).
  assert (Hm2 : 0 <= m mod 10 <= 9) by (Z.div_mod_to_equations; lia).
  assert (Hd1 : 0 <= d / 10 <= 9) by (Z.div_mod_to_equations; lia).
  assert (Hd2 : 0 <= d mod 10 <= 9) by (Z.div_mod_to_equations; lia).
  unfold expiration_date, iso_date, str_remove. cbn [year month day].
  cbn [list_ascii_of_string List.filter].
  destruct (digit_char_facts _ Hy1) as (_ & _ & -> & _).
  destruct (digit_char_facts _ Hy2) as (_ & _ & -> & _).
  destruct (digit_char_facts _ Hy3) as (_ & _ & -> & _).
  destruct (digit_char_facts _ Hy4) as (_ & _ & -> & _).
  destruct (digit_char_facts _ Hm1) as (_ & _ & -> & _).
  destruct (digit_char_facts _ Hm2) as (_ & _ & -> & _).
  destruct (digit_char_facts _ Hd1) as (_ & _ & -> & _).
  destruct (digit_char_facts _ Hd2) as (_ & _ & -> & _).
  cbn [negb Ascii.eqb Bool.eqb List.filter string_of_list_ascii].
  change (Ascii.eqb "-" "-") with true. cbn [negb List.filter string_of_list_ascii].
  unfold str_slice. cbn [list_ascii_of_string].
  set (c1 := digit_char (y / 1000)). set (c2 := digit_char (y / 100 mod 10)).
  set (c3 := digit_char (y / 10 mod 10)). set (c4 := digit_char (y mod 10)).
  set (c5 := digit_char (m / 10)). set (c6 := digit_char (m mod 10)).
  set (c7 := digit_char (d / 10)). set (c8 := digit_char (d mod 10)).
  change (py_slice [c1; c2; c3; c4; c5; c6; c7; c8] 0 4) with [c1; c2; c3; c4].
  change (py_slice [c1; c2; c3; c4; c5; c6; c7; c8] 4 6) with [c5; c6].
  change (py_slice [c1; c2; c3; c4; c5; c6; c7; c8] 6 8) with [c7; c8].
  cbn [string_of_list_ascii]. unfold c1, c2, c3, c4, c5, c6, c7, c8.
  rewrite py_int_digits4, !py_int_digits2 by assumption. cbn [rbind].
  replace (1000 * (y / 1000) + 100 * (y / 100 mod 10) + 10 * (y / 10 mod 10) + y mod 10)
    with y by (Z.div_mod_to_equations; lia).
  replace (10 * (m / 10) + m mod 10) with m by (Z.div_mod_to_equations; lia).
  replace (10 * (d / 10) + d mod 10) with d by (Z.div_mod_to_equations; lia).
  unfold make_date.
  destruct (Z.leb_spec 1 y); [|lia]. destruct (Z.leb_spec y 9999); [|lia].
  destruct (Z.leb_spec 1 m); [|lia]. destruct (Z.leb_spec m 12); [|lia].
  destruct (Z.leb_spec 1 d); [|lia]. destruct (Z.leb_spec d (days_in_month y m)); [|lia].
  reflexivity.
Qed.

Lemma py_int_ok_or_value_error (s : string) :
  (exists n, py_int s = Ok n) \/ py_int s = Raise ValueError.
Proof.
  unfold py_int. destruct (int_digits 0 false _); [left; eauto | now right].
Qed.

Lemma list_ascii_length (s : string) :
  List.length (list_ascii_of_string s) = String.length s.
Proof. induction s as [|c s IH]; simpl; [reflexivity | now rewrite IH]. Qed.

Lemma str_slice_past_end (s : string) (start stop : Z) :
  Z.of_nat (String.length s) <= start -> start <= stop -> str_slice s start stop = "".
Proof.
  intros H1 H2. unfold str_slice, py_slice. rewrite list_ascii_length.
  unfold slice_bound.
  destruct (Z.ltb_spec start 0); [lia|]. destruct (Z.ltb_spec stop 0); [lia|].
  replace (Z.to_nat (Z.min stop (Z.of_nat (String.length s))
                     - Z.min start (Z.of_nat (String.length s)))) with 0%nat by lia.
  reflexivity.
Qed.

Lemma get_chains_eq (StrikeList : Type)
      (ge : option string -> option string -> string -> Z -> res (list string))
      (gs : option string -> option string -> string -> pydate -> res StrikeList)
      (self : ThetaDataBacktesting.t) (asset : Asset) :
  get_chains StrikeList ge gs self asset =
  let? expirations := ge (_username self) (_password self) (symbol asset)
                         (get_datetime self / MICROS_PER_DAY) in
  let? first := match expirations with [] => Raise IndexError | x :: _ => Ok x end in
  let? dte := expiration_date first in
  let? strikes := gs (_username self) (_password self) (symbol asset) dte in
  Ok [("SMART", mkContracts StrikeList (symbol asset) 100 expirations strikes)].
Proof.
  unfold get_chains, expiration_date.
  destruct (ge _ _ _ _) as [[|first rest]|e]; simpl; try reflexivity.
  destruct (py_int (str_slice (str_remove "-" first) 0 4)); simpl; [|reflexivity].
  destruct (py_int (str_slice (str_remove "-" first) 4 6)); simpl; [|reflexivity].
  destruct (py_int (str_slice (str_remove "-" first) 6 8)); simpl; reflexivity.
Qed.

(** When the first expiration the provider lists is a calendar date written
    as YYYY-MM-DD, the strikes are asked for that very date, and the chain
    returned, under the one key SMART, carries the symbol, the multiplier 100,
    the expirations as listed and the strikes as given; an error of the
    strikes query reaches the caller. *)
Theorem chains_for_first_expiration (StrikeList : Type)
        (ge : option string -> option string -> string -> Z -> res (list string))
        (gs : option string -> option string -> string -> pydate -> res StrikeList)
        (self : ThetaDataBacktesting.t) (asset : Asset)
        (dte : pydate) (rest : list string) :
  ge (_username self) (_password self) (symbol asset) (get_datetime self / MICROS_PER_DAY)
  = Ok (iso_date dte :: rest) ->
  valid_date dte ->
  get_chains StrikeList ge gs self asset =
  let? strikes := gs (_username self) (_password self) (symbol asset) dte in
  Ok [("SMART", mkContracts StrikeList (symbol asset) 100 (iso_date dte :: rest) strikes)].
Proof.
  intros Hge Hvalid. rewrite get_chains_eq, Hge. cbn [rbind].
  now rewrite (expiration_date_iso dte Hvalid).
Qed.

Lemma chains_for_first_expiration_witness :
  get_chains (list Z)
    (fun _ _ _ _ => Ok [iso_date (mkDate 2024 2 29); "2024-03-15"])
    (fun _ _ _ dte => Ok [year dte; 100 * month dte + day dte])
    empty_backtest SPY =
  let? strikes := Ok [year (mkDate 2024 2 29);
                      100 * month (mkDate 2024 2 29) + day (mkDate 2024 2 29)] in
  Ok [("SMART", mkContracts (list Z) (symbol SPY) 100
                  [iso_date (mkDate 2024 2 29); "2024-03-15"] strikes)].
Proof.
  apply (chains_for_first_expiration (list Z)
           (fun _ _ _ _ => Ok [iso_date (mkDate 2024 2 29); "2024-03-15"])
           (fun _ _ _ dte => Ok [year dte; 100 * month dte + day dte])
           empty_backtest SPY (mkDate 2024 2 29) ["2024-03-15"]).
  - reflexivity.
  - unfold valid_date. vm_compute. repeat split; discriminate.
Defined.

(** [get_chains] fails with the error of the expirations query when that
    query fails, with an [IndexError] when no expiration is listed, and with a
    [ValueError] when the first expiration has fewer than seven characters
    beside its dashes. *)
Theorem chains_failures (StrikeList : Type)
        (ge : option string -> option string -> string -> Z -> res (list string))
        (gs : option string -> option string -> string -> pydate -> res StrikeList)
        (self : ThetaDataBacktesting.t) (asset : Asset) :
  let listed := ge (_username self) (_password self) (symbol asset)
                   (get_datetime self / MICROS_PER_DAY) in
  (forall e, listed = Raise e -> get_chains StrikeList ge gs self asset = Raise e) /\
  (listed = Ok [] -> get_chains StrikeList ge gs self asset = Raise IndexError) /\
  (forall first rest,
      listed = Ok (first :: rest) ->
      (String.length (str_remove "-" first) <= 6)%nat ->
      get_chains StrikeList ge gs self asset = Raise ValueError).
Proof.
  cbv zeta. rewrite get_chains_eq.
  repeat split.
  - intros e ->. reflexivity.
  - intros ->. reflexivity.
  - intros first rest -> Hlen. cbn [rbind]. unfold expiration_date.
    rewrite (str_slice_past_end (str_remove "-" first) 6 8) by lia.
    destruct (py_int_ok_or_value_error (str_slice (str_remove "-" first) 0 4))
      as [[y ->]| ->]; cbn [rbind]; [|reflexivity].
    destruct (py_int_ok_or_value_error (str_slice (str_remove "-" first) 4 6))
      as [[m ->]| ->]; cbn [rbind]; reflexivity.
Qed.

(** * Stopping the terminal *)

Lemma split_chars_nonempty (sep : ascii) (s : list ascii) : split_chars sep s <> [].
Proof.
  destruct s as [|c r]; simpl; [discriminate|].
  destruct (Ascii.eqb c sep); [discriminate|].
  destruct (split_chars sep r); discriminate.
Qed.

Lemma kill_each_actions (run_kill : string -> res unit) (pids : list string)
      (act : process_action) :
  In act (fst (kill_each run_kill pids)) ->
  exists pid, pid <> "" /\ In pid pids /\ (act = LogKilling pid \/ act = RunKill pid).
Proof.
  induction pids as [|pid rest IH]; simpl; [tauto|].
  destruct (String.eqb_spec pid "") as [->|Hne].
  - intros H. destruct (IH H) as (p & Hp & Hin & Hact). exists p. auto.
  - destruct (run_kill pid); simpl.
    + intros [H|[H|H]].
      * exists pid. split; [exact Hne|]. split; [now left|]. left. now symmetry.
      * exists pid. split; [exact Hne|]. split; [now left|]. right. now symmetry.
      * destruct (IH H) as (p & Hp & Hin & Hact). exists p. auto.
    + intros [H|[H|[]]].
      * exists pid. split; [exact Hne|]. split; [now left|]. left. now symmetry.
      * exists pid. split; [exact Hne|]. split; [now left|]. right. now symmetry.
Qed.

Lemma kill_each_all_ok (run_kill : string -> res unit) (pids : list string) :
  (forall pid, exists u, run_kill pid = Ok u) ->
  kill_each run_kill pids
  = (flat_map (fun pid => [LogKilling pid; RunKill pid])
              (List.filter (fun pid => negb (String.eqb pid "")) pids),
     None).
Proof.
  intros Hok. induction pids as [|pid rest IH]; simpl; [reflexivity|].
  destruct (String.eqb pid ""); simpl; [exact IH|].
  destruct (Hok pid) as [u ->]. rewrite IH. reflexivity.
Qed.

(** Whatever [pgrep] prints and whatever [kill] does,
    [kill_processes_by_name] never logs that no process was found and never
    runs [kill] on an empty pid; when neither command raises, it kills the
    non-empty lines of the stripped output, in order, and then logs that all
    processes have been killed, also when there was none. *)
Theorem kill_processes_never_finds_none (run_pgrep : string -> res string)
        (run_kill : string -> res unit) (keyword : string) :
  let trace := kill_processes_by_name run_pgrep run_kill keyword in
  (forall k, ~ In (LogNoneFound k) trace) /\
  ~ In (RunKill "") trace /\
  (forall out,
      run_pgrep keyword = Ok out ->
      (forall pid, exists u, run_kill pid = Ok u) ->
      trace = RunPgrep keyword ::
              flat_map (fun pid => [LogKilling pid; RunKill pid])
                       (List.filter (fun pid => negb (String.eqb pid ""))
                                    (str_split "010" (str_strip out)))
              ++ [LogAllKilled keyword]).
Proof.
  cbv zeta. unfold kill_processes_by_name.
  assert (Hne : forall out, str_split "010" (str_strip out) <> []).
  { intros out. unfold str_split. intros H. apply List.map_eq_nil in H.
    exact (split_chars_nonempty _ _ H). }
  repeat split.
  - intros k [H|H]; [discriminate H|].
    destruct (run_pgrep keyword) as [out|e].
    + destruct (str_split "010" (str_strip out)) as [|p ps] eqn:Hs;
        [exact (Hne out Hs)|].
      apply List.in_app_or in H. destruct H as [H|H].
      * destruct (kill_each_actions _ _ _ H) as (pid & _ & _ & [Ha|Ha]); discriminate Ha.
      * destruct (snd (kill_each run_kill (p :: ps))); destruct H as [H|[]];
          discriminate H.
    + destruct H as [H|[]]. discriminate H.
  - intros [H|H]; [discriminate H|].
    destruct (run_pgrep keyword) as [out|e].
    + destruct (str_split "010" (str_strip out)) as [|p ps] eqn:Hs;
        [exact (Hne out Hs)|].
      apply List.in_app_or in H. destruct H as [H|H].
      * destruct (kill_each_actions _ _ _ H) as (pid & Hpid & _ & [Ha|Ha]);
          [discriminate Ha|]. injection Ha as Ha. congruence.
      * destruct (snd (kill_each run_kill (p :: ps))); destruct H as [H|[]];
          discriminate H.
    + destruct H as [H|[]]. discriminate H.
  - intros out Hout Hok. rewrite Hout.
    destruct (str_split "010" (str_strip out)) as [|p ps] eqn:Hs;
      [exfalso; exact (Hne out Hs)|].
    rewrite (kill_each_all_ok run_kill (p :: ps) Hok). reflexivity.
Qed.

(** * The Alpaca last price *)

(** For a crypto asset the price is the one of the first exchange when it
    answers, and else whatever the second exchange answers, error included;
    the stock endpoint is never asked.  For any other asset the stock endpoint
    alone is asked. *)
Theorem alpaca_crypto_falls_back (crypto_trade : string -> string -> res Z)
        (trade trade' : string -> res Z) (a : Asset) (quote : option Asset) :
  asset_type a = "crypto" ->
  let symbol_ := match quote with
                 | Some q => String.append (symbol a) (symbol q)
                 | None => symbol a
                 end in
  AlpacaData.get_last_price crypto_trade trade (AssetOf a) quote
  = AlpacaData.get_last_price crypto_trade trade' (AssetOf a) quote /\
  (forall p, crypto_trade symbol_ "CBSE" = Ok p ->
             AlpacaData.get_last_price crypto_trade trade (AssetOf a) quote = Ok p) /\
  (forall e, crypto_trade symbol_ "CBSE" = Raise e ->
             AlpacaData.get_last_price crypto_trade trade (AssetOf a) quote
             = crypto_trade symbol_ "FTXU").
Proof.
  intros Hc symbol_. unfold AlpacaData.get_last_price. rewrite Hc.
  change (String.eqb "crypto" "stock") with false.
  change (String.eqb "crypto" "crypto") with true.
  cbv zeta. unfold symbol_.
  destruct quote as [q|]; (split; [reflexivity|]); split.
  - intros p ->. reflexivity.
  - intros e ->. reflexivity.
  - intros p ->. reflexivity.
  - intros e ->. reflexivity.
Qed.

Lemma alpaca_crypto_falls_back_witness :
  let symbol_ := match Some USD with
                 | Some q => String.append (symbol (mkAsset "BTC" "crypto")) (symbol q)
                 | None => symbol (mkAsset "BTC" "crypto")
                 end in
  AlpacaData.get_last_price
    (fun _ ex => if String.eqb ex "CBSE" then Raise (ProviderError 404) else Ok 7)
    (fun _ => Ok 1) (AssetOf (mkAsset "BTC" "crypto")) (Some USD)
  = AlpacaData.get_last_price
      (fun _ ex => if String.eqb ex "CBSE" then Raise (ProviderError 404) else Ok 7)
      (fun _ => Ok 2) (AssetOf (mkAsset "BTC" "crypto")) (Some USD) /\
  (forall p,
      (fun (_ : string) ex => if String.eqb ex "CBSE" then Raise (ProviderError 404)
                              else Ok 7) symbol_ "CBSE" = Ok p ->
      AlpacaData.get_last_price
        (fun _ ex => if String.eqb ex "CBSE" then Raise (ProviderError 404) else Ok 7)
        (fun _ => Ok 1) (AssetOf (mkAsset "BTC" "crypto")) (Some USD) = Ok p) /\
  (forall e,
      (fun (_ : string) ex => if String.eqb ex "CBSE" then Raise (ProviderError 404)
                              else Ok 7) symbol_ "CBSE" = Raise e ->
      AlpacaData.get_last_price
        (fun _ ex => if String.eqb ex "CBSE" then Raise (ProviderError 404) else Ok 7)
        (fun _ => Ok 1) (AssetOf (mkAsset "BTC" "crypto")) (Some USD)
      = (fun (_ : string) ex => if String.eqb ex "CBSE" then Raise (ProviderError 404)
                                else Ok 7) symbol_ "FTXU").
Proof.
  apply (alpaca_crypto_falls_back
           (fun _ ex => if String.eqb ex "CBSE" then Raise (ProviderError 404) else Ok 7)
           (fun _ => Ok 1) (fun _ => Ok 2) (mkAsset "BTC" "crypto") (Some USD)).
  reflexivity.
Defined.

(** An (asset, quote) tuple and the asset with the quote passed beside it ask
    for the same price, unless the asset is a stock: the quote passed beside a
    stock is dropped from the symbol, the quote of a tuple is not.  A quote
    passed beside a tuple replaces the quote of the tuple. *)
Theorem alpaca_tuple_or_quote (crypto_trade : string -> string -> res Z)
        (trade : string -> res Z) (a q q' : Asset) :
  (asset_type a <> "stock" ->
   AlpacaData.get_last_price crypto_trade trade (AssetPair a q) None
   = AlpacaData.get_last_price crypto_trade trade (AssetOf a) (Some q)) /\
  (asset_type a = "stock" ->
   AlpacaData.get_last_price crypto_trade trade (AssetOf a) (Some q)
   = trade (symbol a) /\
   AlpacaData.get_last_price crypto_trade trade (AssetPair a q) None
   = trade (String.append (symbol a) (symbol q))) /\
  AlpacaData.get_last_price crypto_trade trade (AssetPair a q) (Some q')
  = AlpacaData.get_last_price crypto_trade trade (AssetPair a q') None.
Proof.
  unfold AlpacaData.get_last_price. repeat split.
  - intros Hne. destruct (String.eqb_spec (asset_type a) "stock"); [contradiction|].
    reflexivity.
  - rewrite H. reflexivity.
  - rewrite H. reflexivity.
Qed.
